(** * Weather-alert pipeline of lab_integracion_sistemas: a shallow embedding

    The development follows the TypeScript services of [implicit_invocation]:
    [PlantsService] (plant cache, retrying backend fetch), [ConfigLoader]
    (profile lookup), [AlertEngine] (threshold rules), [NotificationService]
    (SMS with bounded retries), [MetricsService] and [AlertHistoryService].

    Conventions of the embedding:
    - a JavaScript [number] holding an identifier, a counter or a time in
      milliseconds is a [Z] or a [nat]; a measured quantity (temperature,
      precipitation, wind speed, latency) is a rational [Q], compared exactly;
    - the SMS success rate, whose digits depend on how doubles round, is
      computed on [float], the IEEE 754 binary64 numbers of Rocq;
    - [Date] values are their [getTime()] in milliseconds;
    - [null]/[undefined] are [None];
    - a [Promise] that settles is a [Completion]: it returns or throws;
    - [console.*] calls are not modelled. *)

From Stdlib Require Import ZArith QArith Qround Lia Lqa List String.
From Stdlib Require PrimFloat FloatOps SpecFloat Uint63.
From stdpp Require Import base option list gmap strings pretty.

Local Open Scope string_scope.
Local Open Scope list_scope.
Local Open Scope Z_scope.

(** ** Errors and completions *)

(** A JavaScript [Error], identified by its message. *)
Record Error := MkError { message : string }.

(** The outcome of running a (possibly asynchronous) function body. *)
Inductive Completion (A : Type) : Type :=
| Return (a : A)
| Throw (e : Error).
Arguments Return {A} a.
Arguments Throw {A} e.

(** ** models/index.ts *)

Module Plant.
Record t := mk {
  id : Z;
  user_id : Z;
  name : string;
  type : string;
  planted_at : string;
  notes : string;
  created_at : string
}.
End Plant.

Module User.
Record t := mk {
  id : Z;
  name : string;
  phone_number : option string
}.
End User.

Module Garden.
Record t := mk {
  gardenId : string;
  userId : Z;
  name : string;
  latitude : Q;
  longitude : Q
}.
End Garden.

Module SensitivityProfile.
Record t := mk {
  plantType : string;
  maxTemperature : Q;
  minTemperature : Q;
  maxPrecipitation : Q;
  maxWindSpeed : Q
}.
End SensitivityProfile.

Module WeatherData.
Record t := mk {
  temperature : Q;
  temperatureMax : Q;
  temperatureMin : Q;
  precipitation : Q;
  windSpeed : Q;
  timestamp : Z
}.
End WeatherData.

Inductive AlertType : Type :=
| HIGH_TEMPERATURE
| LOW_TEMPERATURE
| HEAVY_RAIN
| STRONG_WIND.

Module Alert.
Record t := mk {
  alertId : string;
  gardenId : string;
  userId : Z;
  gardenName : string;
  timestamp : Z;
  alertType : AlertType;
  metric : string;
  currentValue : Q;
  threshold : Q;
  affectedPlantTypes : list string;
  affectedPlantNames : list string
}.
End Alert.

Module SMSConfig.
Record t := mk {
  accountSid : string;
  authToken : string;
  fromNumber : string
}.
End SMSConfig.

(** ** JavaScript comparisons on numbers *)

(** [a > b] and [a < b] on finite numbers. *)
Definition gtb (a b : Q) : bool := negb (Qle_bool a b).
Definition ltb (a b : Q) : bool := negb (Qle_bool b a).

(** [Math.min(x, ...xs)] and [Math.max(x, ...xs)] on a non-empty spread. *)
Definition Math_min (x : Q) (xs : list Q) : Q :=
  fold_left (fun m y => if ltb y m then y else m) xs x.
Definition Math_max (x : Q) (xs : list Q) : Q :=
  fold_left (fun m y => if gtb y m then y else m) xs x.

(** [Math.round]: the nearest integer, ties towards +infinity. *)
Definition Math_round (x : Q) : Z := Qfloor (x + (1 # 2))%Q.

(** ** JavaScript numbers as doubles *)

(** The number whose value is the integer [z]; exact while [|z| <= 2^53],
    which the counters of the program stay far below. *)
Definition Number (z : Z) : PrimFloat.float :=
  if z <? 0 then PrimFloat.opp (PrimFloat.of_uint63 (Uint63.of_Z (- z)))
  else PrimFloat.of_uint63 (Uint63.of_Z z).

(** The value of a finite double (0 for the others). *)
Definition valueOf (x : PrimFloat.float) : Q :=
  match FloatOps.Prim2SF x with
  | SpecFloat.S754_finite negative m e =>
      let magnitude :=
        if 0 <=? e then (inject_Z (Z.pos m) * inject_Z (2 ^ e))%Q
        else (inject_Z (Z.pos m) / inject_Z (2 ^ (- e)))%Q in
      if negative then (- magnitude)%Q else magnitude
  | _ => 0%Q
  end.

(** [Math.round(x)] on a double: the rounding is that of the value itself;
    zeros, infinities and [NaN] are returned as they are. (A value between
    -0.5 and 0 gives the zero without its sign; the rate is not negative.) *)
Definition Math_round_number (x : PrimFloat.float) : PrimFloat.float :=
  match FloatOps.Prim2SF x with
  | SpecFloat.S754_finite _ _ _ => Number (Math_round (valueOf x))
  | _ => x
  end.

(** ** services/PlantsService.ts *)

Module PlantsService.

Record CacheEntry := {
  plants : list Plant.t;
  timestamp : Z;
  lastUpdated : Z
}.

(** The service object: [backendUrl] and the [Map<number, CacheEntry>].
    The [updateInterval] timer handle plays no part in what follows. *)
Record t := {
  backendUrl : string;
  cache : gmap Z CacheEntry
}.

(** [cacheTTL = 24 * 60 * 60 * 1000], 24 hours in milliseconds. *)
Definition cacheTTL : Z := 24 * 60 * 60 * 1000.

Definition new (url : string) : t := {| backendUrl := url; cache := ∅ |}.

(** [getCachedPlants(userId)], read when the clock shows [now]. *)
Definition getCachedPlants (now : Z) (this : t) (userId : Z)
  : option (list Plant.t) :=
  match cache this !! userId with
  | None => None
  | Some entry =>
      let age := now - lastUpdated entry in
      if age >? cacheTTL then None else Some (plants entry)
  end.

(** [setCachedPlants(userId, plants)], written when the clock shows [now]. *)
Definition setCachedPlants (now : Z) (this : t) (userId : Z)
    (ps : list Plant.t) : t :=
  {| backendUrl := backendUrl this;
     cache := <[userId := {| plants := ps; timestamp := now;
                             lastUpdated := now |}]> (cache this) |}.

(** *** The world the service runs in

    Every [fetch] is answered by the backend after some time; [sleep]
    lets time pass. What the service did is kept as a list of events. *)

Inductive Event : Type :=
| Fetched (url : string)
| Slept (ms : Z)
| LatencyRecorded (ms : Z).

Record Sys := {
  clock : Z;
  requests : nat;
  events : list Event;
  service : t
}.

Definition M (A : Type) : Type := Sys -> Completion A * Sys.

Definition ret {A} (a : A) : M A := fun s => (Return a, s).
Definition throw {A} (e : Error) : M A := fun s => (Throw e, s).
Definition bind {A B} (m : M A) (k : A -> M B) : M B :=
  fun s => match m s with
           | (Return a, s') => k a s'
           | (Throw e, s') => (Throw e, s')
           end.
Definition try_catch {A} (m : M A) (handler : Error -> M A) : M A :=
  fun s => match m s with
           | (Return a, s') => (Return a, s')
           | (Throw e, s') => handler e s'
           end.

Declare Scope js_scope.
Delimit Scope js_scope with js.
Notation "x <- m ;; k" := (bind m (fun x => k))
  (at level 100, m at next level, right associativity) : js_scope.
Notation "m ;;; k" := (bind m (fun _ => k))
  (at level 100, right associativity) : js_scope.

Definition Date_now : M Z := fun s => (Return (clock s), s).

Definition emit (e : Event) : M unit := fun s =>
  (Return tt, {| clock := clock s; requests := requests s;
                 events := events s ++ [e]; service := service s |}).

(** [sleep(ms)], for a delay of at most [2^31 - 1] milliseconds, the
    longest that a timer holds; the delays of a chain of up to 23 attempts
    are such. The timer fires after [ms] milliseconds; any lateness of
    the timer counts as time elapsed in the exchange that follows. *)
Definition sleep (ms : Z) : M unit := fun s =>
  (Return tt, {| clock := clock s + ms; requests := requests s;
                 events := events s ++ [Slept ms]; service := service s |}).

(** The optional [recordLatency] callback. *)
Definition record (recordLatency : bool) (latency : Z) : M unit :=
  if recordLatency then emit (LatencyRecorded latency) else ret tt.

Definition getCached (userId : Z) : M (option (list Plant.t)) := fun s =>
  (Return (getCachedPlants (clock s) (service s) userId), s).

Definition setCached (userId : Z) (ps : list Plant.t) : M unit := fun s =>
  (Return tt, {| clock := clock s; requests := requests s;
                 events := events s;
                 service := setCachedPlants (clock s) (service s) userId ps |}).

Section Backend.
Context {T : Type}.

(** An HTTP response: [status], [statusText] and what [json()] gives. *)
Record Response := {
  status : Z;
  statusText : string;
  json : Completion T
}.

(** [response.ok]: the status is in the range 200-299. *)
Definition ok (r : Response) : bool :=
  (200 <=? status r) && (status r <=? 299).

(** What one [fetch] meets: a transport error or a response. *)
Inductive FetchOutcome : Type :=
| Rejected (e : Error)
| Responded (r : Response).

Record Exchange := {
  elapsed : Z;
  outcome : FetchOutcome
}.

(** The backend: what the [n]-th request of the run, sent to [url], meets. *)
Variable backend : string -> nat -> Exchange.

Definition fetch (url : string) : M Response := fun s =>
  let x := backend url (requests s) in
  let s' := {| clock := clock s + elapsed x; requests := S (requests s);
               events := events s ++ [Fetched url];
               service := service s |} in
  match outcome x with
  | Rejected e => (Throw e, s')
  | Responded r => (Return r, s')
  end.

(** The body of the [try] block of one attempt. *)
Definition attemptOnce (url : string) : M T :=
  (response <- fetch url ;;
   if negb (ok response)
   then throw (MkError ("HTTP " +:+ pretty (status response) +:+ ": "
                          +:+ statusText response))
   else fun s => (json response, s))%js.

(** The [for] loop of [fetchWithRetry]; [fuel] bounds the iterations. *)
Fixpoint retryLoop (fuel : nat) (url : string) (maxRetries : nat)
    (attempt : nat) (lastError : option Error) : M T :=
  match fuel with
  | O => throw (default (MkError "Failed to fetch after all retries")
                        lastError)
  | S fuel' =>
      if (attempt <? maxRetries)%nat then
        try_catch (attemptOnce url)
          (fun error =>
             (if (attempt <? maxRetries - 1)%nat
              then sleep (2 ^ Z.of_nat attempt * 1000)
              else ret tt) ;;;
             retryLoop fuel' url maxRetries (S attempt) (Some error))%js
      else throw (default (MkError "Failed to fetch after all retries")
                          lastError)
  end.

(** [fetchWithRetry(url, maxRetries = 3)]. *)
Definition fetchWithRetry (url : string) (maxRetries : nat) : M T :=
  retryLoop maxRetries url maxRetries 0%nat None.

End Backend.

Arguments Response : clear implicits.
Arguments FetchOutcome : clear implicits.
Arguments Exchange : clear implicits.

(** [fetchUserPlants(userId, recordLatency?)], for a backend whose 2xx
    bodies are arrays of plants, as [fetchWithRetry<Plant[]>] types them:
    the [console.log] that follows the cache write reads [plants.length],
    which an array has. *)
Definition fetchUserPlants
    (backend : string -> nat -> Exchange (list Plant.t))
    (userId : Z) (recordLatency : bool) : M (list Plant.t) :=
  (fun s =>
     let url := backendUrl (service s) +:+ "/api/plants?userId="
                  +:+ pretty userId in
     (startTime <- Date_now ;;
      try_catch
        (ps <- fetchWithRetry backend url 3 ;;
         now <- Date_now ;;
         record recordLatency (now - startTime) ;;;
         setCached userId ps ;;;
         ret ps)
        (fun error =>
           now <- Date_now ;;
           record recordLatency (now - startTime) ;;;
           cachedPlants <- getCached userId ;;
           match cachedPlants with
           | Some ps => ret ps
           | None =>
               throw (MkError ("Failed to fetch plants for user "
                                 +:+ pretty userId
                                 +:+ " and no cache available"))
           end))%js s).

(** [fetchUser(userId, recordLatency?)]. *)
Definition fetchUser
    (backend : string -> nat -> Exchange User.t)
    (userId : Z) (recordLatency : bool) : M User.t :=
  (fun s =>
     let url := backendUrl (service s) +:+ "/api/users/"
                  +:+ pretty userId in
     (startTime <- Date_now ;;
      try_catch
        (user <- fetchWithRetry backend url 3 ;;
         now <- Date_now ;;
         record recordLatency (now - startTime) ;;;
         ret user)
        (fun error =>
           now <- Date_now ;;
           record recordLatency (now - startTime) ;;;
           throw error))%js s).

End PlantsService.

(** ** services/ConfigLoader.ts *)

Module ConfigLoader.

(** [getProfileForPlantType(plantType, profiles)]: the profile stored under
    the type, else the one stored under ["default"], else a throw. *)
Definition getProfileForPlantType (plantType : string)
    (profiles : gmap string SensitivityProfile.t)
  : Completion SensitivityProfile.t :=
  match profiles !! plantType with
  | Some profile => Return profile
  | None =>
      match profiles !! "default" with
      | Some defaultProfile => Return defaultProfile
      | None => Throw (MkError "Default profile not found in loaded profiles")
      end
  end.

End ConfigLoader.

(** ** services/AlertEngine.ts *)

Module AlertEngine.

Import SensitivityProfile WeatherData.

(** [set.add(x)] on a [Set<string>], kept in insertion order. *)
Definition Set_add (s : list string) (x : string) : list string :=
  if bool_decide (x ∈ s) then s else s ++ [x].

(** [getPlantTypesFromCache(userId)], read when the clock shows [now]. *)
Definition getPlantTypesFromCache (now : Z) (plantsService : PlantsService.t)
    (userId : Z) : list string :=
  match PlantsService.getCachedPlants now plantsService userId with
  | None => []
  | Some plants =>
      if (length plants =? 0)%nat then []
      else fold_left (fun plantTypes plant => Set_add plantTypes (Plant.type plant))
                     plants []
  end.

(** The loop of step 3 of [evaluateGarden]: one profile per plant type; a
    throw of [getProfileForPlantType] leaves the loop. *)
Fixpoint profilesFor (plantTypes : list string)
    (sensitivityProfiles : gmap string SensitivityProfile.t)
  : Completion (list SensitivityProfile.t) :=
  match plantTypes with
  | [] => Return []
  | plantType :: rest =>
      match ConfigLoader.getProfileForPlantType plantType sensitivityProfiles with
      | Throw e => Throw e
      | Return profile =>
          match profilesFor rest sensitivityProfiles with
          | Throw e => Throw e
          | Return profiles => Return (profile :: profiles)
          end
      end
  end.

Section Engine.

(** [generateAlertId()] draws on the clock and on [Math.random()]; here
    it is the identifier handed out for the [n]-th alert of a run. *)
Variable generateAlertId : nat -> string.

(** The object literal that each of the four blocks of [checkThresholds]
    pushes: [hit] is the filtered profile list of the block. *)
Definition alertFor (garden : Garden.t) (now : Z) (alerts : list Alert.t)
    (alertType : AlertType) (metric : string) (currentValue threshold : Q)
    (hit : list SensitivityProfile.t) (plants : list Plant.t) : Alert.t :=
  let affectedPlantTypes := map plantType hit in
  let affectedPlantNames :=
    map Plant.name
        (List.filter (fun plant =>
                        bool_decide (Plant.type plant ∈ affectedPlantTypes))
                     plants) in
  {| Alert.alertId := generateAlertId (length alerts);
     Alert.gardenId := Garden.gardenId garden;
     Alert.userId := Garden.userId garden;
     Alert.gardenName := Garden.name garden;
     Alert.timestamp := now;
     Alert.alertType := alertType;
     Alert.metric := metric;
     Alert.currentValue := currentValue;
     Alert.threshold := threshold;
     Alert.affectedPlantTypes := affectedPlantTypes;
     Alert.affectedPlantNames := affectedPlantNames |}.

(** [checkThresholds(weather, profiles, garden)], run when the clock
    shows [now]. Each block is guarded by [length > 0], so [Math.min] and
    [Math.max] are applied to a non-empty spread. The [profilesByType] map
    that the function fills first is never read, and is left out. *)
Definition checkThresholds (plantsService : PlantsService.t) (now : Z)
    (weather : WeatherData.t) (profiles : list SensitivityProfile.t)
    (garden : Garden.t) : list Alert.t :=
  let alerts : list Alert.t := [] in
  let plants :=
    default [] (PlantsService.getCachedPlants now plantsService
                  (Garden.userId garden)) in
  (* Check HIGH_TEMPERATURE *)
  let highTempProfiles :=
    List.filter (fun p => gtb (temperature weather) (maxTemperature p))
                profiles in
  let alerts :=
    match highTempProfiles with
    | [] => alerts
    | p :: ps =>
        let threshold := Math_min (maxTemperature p) (map maxTemperature ps) in
        alerts ++ [alertFor garden now alerts HIGH_TEMPERATURE "temperature"
                     (temperature weather) threshold highTempProfiles plants]
    end in
  (* Check LOW_TEMPERATURE *)
  let lowTempProfiles :=
    List.filter (fun p => ltb (temperature weather) (minTemperature p))
                profiles in
  let alerts :=
    match lowTempProfiles with
    | [] => alerts
    | p :: ps =>
        let threshold := Math_max (minTemperature p) (map minTemperature ps) in
        alerts ++ [alertFor garden now alerts LOW_TEMPERATURE "temperature"
                     (temperature weather) threshold lowTempProfiles plants]
    end in
  (* Check HEAVY_RAIN *)
  let heavyRainProfiles :=
    List.filter (fun p => gtb (precipitation weather) (maxPrecipitation p))
                profiles in
  let alerts :=
    match heavyRainProfiles with
    | [] => alerts
    | p :: ps =>
        let threshold :=
          Math_min (maxPrecipitation p) (map maxPrecipitation ps) in
        alerts ++ [alertFor garden now alerts HEAVY_RAIN "precipitation"
                     (precipitation weather) threshold heavyRainProfiles
                     plants]
    end in
  (* Check STRONG_WIND *)
  let strongWindProfiles :=
    List.filter (fun p => gtb (windSpeed weather) (maxWindSpeed p))
                profiles in
  let alerts :=
    match strongWindProfiles with
    | [] => alerts
    | p :: ps =>
        let threshold := Math_min (maxWindSpeed p) (map maxWindSpeed ps) in
        alerts ++ [alertFor garden now alerts STRONG_WIND "windSpeed"
                     (windSpeed weather) threshold strongWindProfiles plants]
    end in
  alerts.

(** [evaluateGarden(garden)]. [fetched] is what
    [weatherService.fetchWeather] resolved to; [tTypes] and [tCheck] are
    the clock readings at the two reads of the plant cache. The [catch]
    turns any throw into the empty list. *)
Definition evaluateGarden (plantsService : PlantsService.t)
    (sensitivityProfiles : gmap string SensitivityProfile.t)
    (fetched : option WeatherData.t) (tTypes tCheck : Z)
    (garden : Garden.t) : list Alert.t :=
  match fetched with
  | None => []
  | Some weather =>
      let plantTypes :=
        getPlantTypesFromCache tTypes plantsService (Garden.userId garden) in
      if (length plantTypes =? 0)%nat then []
      else
        match profilesFor plantTypes sensitivityProfiles with
        | Throw _ => []
        | Return profiles =>
            checkThresholds plantsService tCheck weather profiles garden
        end
  end.

End Engine.

End AlertEngine.

(** ** services/NotificationService.ts *)

Module NotificationService.

(** The Twilio client handle made by [Twilio(accountSid, authToken)]. *)
Inductive TwilioClient : Type :=
| Client (accountSid authToken : string).

Record t := {
  twilioClient : option TwilioClient;
  config : option SMSConfig.t;
  enabled : bool
}.

Definition disabled : t :=
  {| twilioClient := None; config := None; enabled := false |}.

(** A string is falsy exactly when it is empty. *)
Definition truthy (s : string) : bool := negb (String.eqb s "").

(** The constructor; [Twilio] is the client factory, which may throw. *)
Definition new (Twilio : string -> string -> Completion TwilioClient)
    (cfg : option SMSConfig.t) : t :=
  match cfg with
  | None => disabled
  | Some c =>
      if negb (truthy (SMSConfig.accountSid c))
         || negb (truthy (SMSConfig.authToken c))
         || negb (truthy (SMSConfig.fromNumber c))
      then disabled
      else
        match Twilio (SMSConfig.accountSid c) (SMSConfig.authToken c) with
        | Return client =>
            {| twilioClient := Some client; config := Some c;
               enabled := true |}
        | Throw _ =>
            {| twilioClient := None; config := Some c; enabled := false |}
        end
  end.

Definition isEnabled (this : t) : bool := enabled this.

Inductive Event : Type :=
| Submitted (body from to : string)
| Delayed (ms : Z).

Section Gateway.

(** What [twilioClient.messages.create] does with the [n]-th submission
    made by one [sendAlert]. *)
Variable gateway : nat -> Completion unit.

(** [formatAlertMessage(alert)]: the text of the SMS. *)
Variable formatAlertMessage : Alert.t -> string.

(** [sendSMS(to, message)], as the [n]-th submission. *)
Definition sendSMS (this : t) (to message : string) (n : nat)
  : Completion unit * list Event :=
  match twilioClient this, config this with
  | Some _, Some c =>
      (gateway n, [Submitted message (SMSConfig.fromNumber c) to])
  | _, _ => (Throw (MkError "Twilio client not initialized"), [])
  end.

(** The [while (attempt <= maxRetries)] loop of [sendAlert]; [fuel]
    bounds the iterations, [None] means the bound was too small. *)
Fixpoint sendLoop (fuel : nat) (this : t) (to message : string)
    (maxRetries attempt : nat) (events : list Event)
  : option (Completion bool * list Event) :=
  if (attempt <=? maxRetries)%nat then
    match fuel with
    | O => None
    | S fuel' =>
        let attempt' := S attempt in
        match sendSMS this to message attempt with
        | (Return _, sent) => Some (Return true, events ++ sent)
        | (Throw _, sent) =>
            let events' :=
              if (attempt' <=? maxRetries)%nat
              then events ++ sent ++ [Delayed 5000]
              else events ++ sent in
            sendLoop fuel' this to message maxRetries attempt' events'
        end
    end
  else Some (Return false, events).

(** [sendAlert(alert, user)]. *)
Definition sendAlert (fuel : nat) (this : t) (alert : Alert.t)
    (user : User.t) : option (Completion bool * list Event) :=
  if negb (enabled this) || negb (bool_decide (is_Some (twilioClient this)))
     || negb (bool_decide (is_Some (config this)))
  then Some (Return false, [])
  else
    match User.phone_number user with
    | None => Some (Return false, [])
    | Some phone_number =>
        if negb (truthy phone_number) then Some (Return false, [])
        else
          let message := formatAlertMessage alert in
          let maxRetries := 2%nat in
          sendLoop fuel this phone_number message maxRetries 0 []
    end.

End Gateway.

End NotificationService.

(** ** services/MetricsService.ts *)

Module MetricsService.

Record LatencyStats := {
  count : nat;
  totalLatency : Z;
  averageLatency : Q;
  minLatency : Z;
  maxLatency : Z
}.

Record SMSMetrics := {
  sent : nat;
  failed : nat;
  successRate : PrimFloat.float
}.

Record APILatencyMetrics := {
  openmeteo : LatencyStats;
  backend : LatencyStats
}.

Record SystemMetrics := {
  alerts : gmap string nat;
  sms : SMSMetrics;
  apiLatency : APILatencyMetrics;
  uptime : Z;
  lastReset : Z
}.

(** The service object. [alertCounts] is the object with the four alert
    types as its own keys. *)
Record t := {
  alertCounts : gmap string nat;
  smsSent : nat;
  smsFailed : nat;
  openMeteoLatencies : list Q;
  backendLatencies : list Q;
  startTime : Z
}.

Definition zeroCounts : gmap string nat :=
  <["HIGH_TEMPERATURE" := 0%nat]>
    (<["LOW_TEMPERATURE" := 0%nat]>
       (<["HEAVY_RAIN" := 0%nat]> (<["STRONG_WIND" := 0%nat]> ∅))).

(** The constructor, and [reset()], run when the clock shows [now]. *)
Definition new (now : Z) : t :=
  {| alertCounts := zeroCounts; smsSent := 0; smsFailed := 0;
     openMeteoLatencies := []; backendLatencies := []; startTime := now |}.

Definition reset (now : Z) (this : t) : t := new now.

(** [recordAlert(alertType)]: the counter of [alertType] is incremented when
    [alertCounts] has that key; the callers pass one of the four types. *)
Definition recordAlert (alertType : string) (this : t) : t :=
  {| alertCounts :=
       match alertCounts this !! alertType with
       | Some n => <[alertType := S n]> (alertCounts this)
       | None => alertCounts this
       end;
     smsSent := smsSent this; smsFailed := smsFailed this;
     openMeteoLatencies := openMeteoLatencies this;
     backendLatencies := backendLatencies this;
     startTime := startTime this |}.

Definition recordSMSSuccess (this : t) : t :=
  {| alertCounts := alertCounts this;
     smsSent := S (smsSent this); smsFailed := smsFailed this;
     openMeteoLatencies := openMeteoLatencies this;
     backendLatencies := backendLatencies this;
     startTime := startTime this |}.

Definition recordSMSFailure (this : t) : t :=
  {| alertCounts := alertCounts this;
     smsSent := smsSent this; smsFailed := S (smsFailed this);
     openMeteoLatencies := openMeteoLatencies this;
     backendLatencies := backendLatencies this;
     startTime := startTime this |}.

(** [array.shift()]: drop the first element. *)
Definition shift (xs : list Q) : list Q := tail xs.

Definition recordOpenMeteoLatency (latencyMs : Q) (this : t) : t :=
  let pushed := openMeteoLatencies this ++ [latencyMs] in
  {| alertCounts := alertCounts this;
     smsSent := smsSent this; smsFailed := smsFailed this;
     openMeteoLatencies :=
       if (100 <? length pushed)%nat then shift pushed else pushed;
     backendLatencies := backendLatencies this;
     startTime := startTime this |}.

Definition recordBackendLatency (latencyMs : Q) (this : t) : t :=
  let pushed := backendLatencies this ++ [latencyMs] in
  {| alertCounts := alertCounts this;
     smsSent := smsSent this; smsFailed := smsFailed this;
     openMeteoLatencies := openMeteoLatencies this;
     backendLatencies :=
       if (100 <? length pushed)%nat then shift pushed else pushed;
     startTime := startTime this |}.

Definition ofNat (n : nat) : Q := inject_Z (Z.of_nat n).

Definition calculateLatencyStats (latencies : list Q) : LatencyStats :=
  match latencies with
  | [] =>
      {| count := 0; totalLatency := 0; averageLatency := 0;
         minLatency := 0; maxLatency := 0 |}
  | lat :: rest =>
      let total := fold_left Qplus latencies 0%Q in
      let avg := (total / ofNat (length latencies))%Q in
      let min := Math_min lat rest in
      let max := Math_max lat rest in
      {| count := length latencies;
         totalLatency := Math_round total;
         averageLatency := (inject_Z (Math_round (avg * 10)) / 10)%Q;
         minLatency := Math_round min;
         maxLatency := Math_round max |}
  end.

(** [getMetrics()], called when the clock shows [now]. The two counters
    are whole numbers, which doubles hold exactly; the rate is computed
    on doubles, as [/], [*] and [Math.round] compute it. *)
Definition getMetrics (now : Z) (this : t) : SystemMetrics :=
  let totalSMS := (smsSent this + smsFailed this)%nat in
  let successRate :=
    if (0 <? totalSMS)%nat
    then PrimFloat.div (Number (Z.of_nat (smsSent this)))
                       (Number (Z.of_nat totalSMS))
    else Number 0 in
  let uptime := now - startTime this in
  {| alerts := alertCounts this;
     sms := {| sent := smsSent this; failed := smsFailed this;
               successRate :=
                 PrimFloat.div
                   (Math_round_number (PrimFloat.mul successRate (Number 100)))
                   (Number 100) |};
     apiLatency :=
       {| openmeteo := calculateLatencyStats (openMeteoLatencies this);
          backend := calculateLatencyStats (backendLatencies this) |};
     uptime := uptime / 1000;
     lastReset := startTime this |}.

(** What the callers of the service do to it. *)
Inductive Op : Type :=
| RecordAlert (alertType : string)
| RecordSMSSuccess
| RecordSMSFailure
| RecordOpenMeteoLatency (latencyMs : Q)
| RecordBackendLatency (latencyMs : Q).

Definition step (this : t) (op : Op) : t :=
  match op with
  | RecordAlert a => recordAlert a this
  | RecordSMSSuccess => recordSMSSuccess this
  | RecordSMSFailure => recordSMSFailure this
  | RecordOpenMeteoLatency x => recordOpenMeteoLatency x this
  | RecordBackendLatency x => recordBackendLatency x this
  end.

Definition run (ops : list Op) (this : t) : t := fold_left step ops this.

End MetricsService.

(** ** services/AlertHistoryService.ts *)

Module AlertHistoryService.

Record AlertDocument := {
  alert : Alert.t;
  createdAt : Z
}.

Record AlertHistoryFilters := {
  gardenId : option string;
  userId : option Z;
  alertType : option string;
  startDate : option Z;
  endDate : option Z
}.

(** The [timestamp] condition of a query: [$gte] and [$lte]. *)
Record Range := {
  gte : option Z;
  lte : option Z
}.

(** The query document handed to [collection.find]: a field is present
    when the query constrains it. *)
Record Query := {
  q_gardenId : option string;
  q_userId : option Z;
  q_alertType : option string;
  q_timestamp : option Range
}.

(** Truthiness of an optional string, number and [Date]. *)
Definition truthyString (v : option string) : bool :=
  match v with
  | Some s => negb (String.eqb s "")
  | None => false
  end.

Definition truthyNumber (v : option Z) : bool :=
  match v with
  | Some n => negb (n =? 0)
  | None => false
  end.

Definition truthyDate (v : option Z) : bool :=
  match v with
  | Some _ => true
  | None => false
  end.

(** The query built from the filters in the [try] block. *)
Definition buildQuery (filters : AlertHistoryFilters) : Query :=
  {| q_gardenId :=
       if truthyString (gardenId filters) then gardenId filters else None;
     q_userId :=
       if truthyNumber (userId filters) then userId filters else None;
     q_alertType :=
       if truthyString (alertType filters) then alertType filters else None;
     q_timestamp :=
       if truthyDate (startDate filters) || truthyDate (endDate filters)
       then Some {| gte := if truthyDate (startDate filters)
                           then startDate filters else None;
                    lte := if truthyDate (endDate filters)
                           then endDate filters else None |}
       else None |}.

(** The service object: [collection] is [None] while it is [null];
    otherwise it answers [find(query).sort({timestamp: -1}).limit(limit)
    .toArray()], or throws. *)
Record t := {
  collection : option (Query -> Z -> Completion (list AlertDocument));
  isConnected : bool
}.

(** [getAlertHistory(filters = {}, limit = 100)]. *)
Definition getAlertHistory (this : t) (filters : AlertHistoryFilters)
    (limit : Z) : list AlertDocument :=
  match isConnected this, collection this with
  | true, Some find =>
      match find (buildQuery filters) limit with
      | Return alerts => alerts
      | Throw _ => []
      end
  | _, _ => []
  end.

(** *** A collection held in memory

    The documents that satisfy every condition of the query, newest first,
    cut at [limit] (a limit of 0 is no limit). *)

Definition AlertType_name (a : AlertType) : string :=
  match a with
  | HIGH_TEMPERATURE => "HIGH_TEMPERATURE"
  | LOW_TEMPERATURE => "LOW_TEMPERATURE"
  | HEAVY_RAIN => "HEAVY_RAIN"
  | STRONG_WIND => "STRONG_WIND"
  end.

Definition holds {A} (cond : option A) (test : A -> bool) : bool :=
  match cond with
  | Some v => test v
  | None => true
  end.

Definition matches (q : Query) (d : AlertDocument) : bool :=
  holds (q_gardenId q) (fun g => String.eqb (Alert.gardenId (alert d)) g)
  && holds (q_userId q) (fun u => Alert.userId (alert d) =? u)
  && holds (q_alertType q)
       (fun a => String.eqb (AlertType_name (Alert.alertType (alert d))) a)
  && holds (q_timestamp q)
       (fun r => holds (gte r) (fun lo => lo <=? Alert.timestamp (alert d))
                 && holds (lte r) (fun hi => Alert.timestamp (alert d) <=? hi)).

Fixpoint insertNewestFirst (d : AlertDocument) (ds : list AlertDocument)
  : list AlertDocument :=
  match ds with
  | [] => [d]
  | d' :: rest =>
      if Alert.timestamp (alert d') <? Alert.timestamp (alert d)
      then d :: ds
      else d' :: insertNewestFirst d rest
  end.

Definition newestFirst (ds : list AlertDocument) : list AlertDocument :=
  fold_right insertNewestFirst [] ds.

Definition memoryCollection (docs : list AlertDocument)
  : Query -> Z -> Completion (list AlertDocument) :=
  fun q limit =>
    let found := newestFirst (List.filter (matches q) docs) in
    Return (if limit =? 0 then found else take (Z.abs_nat limit) found).

End AlertHistoryService.



(** ** services/WeatherService.ts *)

Module WeatherService.
Import PlantsService.

(** The body of an Open-Meteo answer, as its schema types it: every field
    may be absent or [null] ([None]); [daily] holds arrays whose entries may
    be [null]. *)
Record Current := {
  temperature_2m : option Q;
  precipitation : option Q;
  wind_speed_10m : option Q
}.

Record Daily := {
  temperature_2m_max : option (list (option Q));
  temperature_2m_min : option (list (option Q))
}.

Record Forecast := {
  current : option Current;
  daily : option Daily
}.

(** [x ?? 0]. *)
Definition orZero (x : option Q) : Q := default 0%Q x.

(** [xs?.[0]]: the first entry when the array is there and not empty. *)
Definition first (xs : option (list (option Q))) : option Q :=
  match xs with
  | Some (x :: _) => x
  | _ => None
  end.

(** [parseWeatherResponse(data)], run when the clock shows [now];
    [data.current || {}] and [data.daily || {}] make the fields of an absent
    object absent. *)
Definition parseWeatherResponse (now : Z) (data : Forecast) : WeatherData.t :=
  let current :=
    default {| temperature_2m := None; precipitation := None;
               wind_speed_10m := None |} (current data) in
  let daily :=
    default {| temperature_2m_max := None; temperature_2m_min := None |}
            (daily data) in
  {| WeatherData.temperature := orZero (temperature_2m current);
     WeatherData.temperatureMax := orZero (first (temperature_2m_max daily));
     WeatherData.temperatureMin := orZero (first (temperature_2m_min daily));
     WeatherData.precipitation := orZero (precipitation current);
     WeatherData.windSpeed := orZero (wind_speed_10m current);
     WeatherData.timestamp := now |}.

Section Fetch.

(** The provider: what the [n]-th request of the run meets. The body read by
    [response.json()] is a forecast, or [null] ([None]). *)
Variable provider : string -> nat -> Exchange (option Forecast).

(** [buildWeatherUrl(latitude, longitude)]; how [URLSearchParams] writes the
    numbers is left to the parameter. *)
Variable buildWeatherUrl : Q -> Q -> string.

(** Reading a property of [null] throws a [TypeError]. *)
Definition nullBody : Error :=
  MkError "null is not an object (evaluating 'data.current')".

(** [fetchWeather(latitude, longitude, recordLatency?)]. *)
Definition fetchWeather (latitude longitude : Q) (recordLatency : bool)
  : M (option WeatherData.t) :=
  (startTime <- Date_now ;;
   try_catch
     (response <- fetch provider (buildWeatherUrl latitude longitude) ;;
      fetched <- Date_now ;;
      record recordLatency (fetched - startTime) ;;;
      if negb (ok response) then ret None
      else
        data <- (fun s => (json response, s)) ;;
        match data with
        | None => throw nullBody
        | Some forecast =>
            now <- Date_now ;;
            ret (Some (parseWeatherResponse now forecast))
        end)
     (fun error =>
        caught <- Date_now ;;
        record recordLatency (caught - startTime) ;;;
        ret None))%js.

End Fetch.

End WeatherService.

(** ** services/ConfigLoader.ts: loading and validating the two files *)

(** A value produced by [JSON.parse]. A number is the finite value that the
    literal was read as. The entries of an object are in the order
    [Object.entries] lists them, with distinct keys. *)
#[warnings="-register-all"] Inductive Json : Type :=
| JNull
| JBool (b : bool)
| JNumber (n : Q)
| JString (s : string)
| JArray (items : list Json)
| JObject (entries : list (string * Json)).

Module ConfigFiles.

(** A configuration file as the loader finds it: absent ([existsSync] is
    false), unreadable ([readFileSync] throws), not JSON ([JSON.parse] throws
    a [SyntaxError] with this message), or parsed. *)
Inductive File : Type :=
| Missing
| Unreadable (e : Error)
| Malformed (message : string)
| Parsed (data : Json).

(** The [TypeError] of reading a property of [null], or of [in] applied to a
    value that is not an object; the engine's wording is not modelled. *)
Definition TypeError : Error := MkError "TypeError".

(** [a >= b] on numbers. *)
Definition geb (a b : Q) : bool := Qle_bool b a.

Fixpoint assoc (k : string) (entries : list (string * Json)) : option Json :=
  match entries with
  | [] => None
  | (k', v) :: rest => if String.eqb k k' then Some v else assoc k rest
  end.

(** [value.key] for the field names of the configuration files (none of
    them is a property of a string, a number or an array): an own property
    of an object, [undefined] elsewhere. *)
Definition prop (value : Json) (key : string) : option Json :=
  match value with
  | JObject entries => assoc key entries
  | _ => None
  end.

(** [key in value], for the same field names: a [TypeError] unless [value]
    is an object or an array. *)
Definition hasField (key : string) (value : Json) : Completion bool :=
  match value with
  | JObject entries => Return (bool_decide (is_Some (assoc key entries)))
  | JArray _ => Return false
  | _ => Throw TypeError
  end.

(** The loop over [requiredFields]; [missing] builds the message. *)
Fixpoint requireFields (missing : string -> string) (fields : list string)
    (value : Json) : Completion unit :=
  match fields with
  | [] => Return tt
  | field :: rest =>
      match hasField field value with
      | Throw e => Throw e
      | Return false => Throw (MkError (missing field))
      | Return true => requireFields missing rest value
      end
  end.

Definition isString (v : option Json) : bool :=
  match v with Some (JString _) => true | _ => false end.
Definition isNumber (v : option Json) : bool :=
  match v with Some (JNumber _) => true | _ => false end.
Definition number (v : option Json) : Q :=
  match v with Some (JNumber n) => n | _ => 0%Q end.
Definition text (v : option Json) : string :=
  match v with Some (JString s) => s | _ => "" end.

(** [validateGarden(garden, index)]. *)
Definition validateGarden (garden : Json) (index : nat) : Completion unit :=
  let at_ := "Garden at index " +:+ pretty index in
  match requireFields (fun field => at_ +:+ " missing required field: " +:+ field)
          ["gardenId"; "userId"; "name"; "latitude"; "longitude"] garden with
  | Throw e => Throw e
  | Return _ =>
      if negb (isString (prop garden "gardenId"))
      then Throw (MkError (at_ +:+ ": gardenId must be a string"))
      else if negb (isNumber (prop garden "userId"))
      then Throw (MkError (at_ +:+ ": userId must be a number"))
      else if negb (isString (prop garden "name"))
      then Throw (MkError (at_ +:+ ": name must be a string"))
      else if negb (isNumber (prop garden "latitude"))
      then Throw (MkError (at_ +:+ ": latitude must be a number"))
      else if negb (isNumber (prop garden "longitude"))
      then Throw (MkError (at_ +:+ ": longitude must be a number"))
      else if ltb (number (prop garden "latitude")) (-90)
              || gtb (number (prop garden "latitude")) 90
      then Throw (MkError (at_ +:+ ": latitude must be between -90 and 90"))
      else if ltb (number (prop garden "longitude")) (-180)
              || gtb (number (prop garden "longitude")) 180
      then Throw (MkError (at_ +:+ ": longitude must be between -180 and 180"))
      else Return tt
  end.

(** The loop of [loadGardens] from index [i] on. *)
Fixpoint validateGardens (gardens : list Json) (i : nat)
  : Completion (list Json) :=
  match gardens with
  | [] => Return []
  | garden :: rest =>
      match validateGarden garden i with
      | Throw e => Throw e
      | Return _ =>
          match validateGardens rest (S i) with
          | Throw e => Throw e
          | Return validated => Return (garden :: validated)
          end
      end
  end.

(** [loadGardens()]; [filePath] is [join(configDir, "gardens.config.json")]. *)
Definition loadGardens (filePath : string) (file : File)
  : Completion (list Json) :=
  match file with
  | Missing => Throw (MkError ("Gardens config file not found at " +:+ filePath))
  | Unreadable e => Throw e
  | Malformed message =>
      Throw (MkError ("Invalid JSON format in gardens.config.json: "
                        +:+ message))
  | Parsed JNull => Throw TypeError
  | Parsed data =>
      match prop data "gardens" with
      | Some (JArray gardens) => validateGardens gardens 0
      | _ => Throw (MkError
                      "Invalid gardens.config.json: missing 'gardens' array")
      end
  end.

(** [validateSensitivityProfile(profile, plantType)]; on success the result
    is the object read through the [SensitivityProfile] interface, as the
    caller's cast reads it. *)
Definition validateSensitivityProfile (profile : Json) (plantType : string)
  : Completion SensitivityProfile.t :=
  let of_ := "Profile '" +:+ plantType +:+ "'" in
  match requireFields (fun field => of_ +:+ " missing required field: " +:+ field)
          ["plantType"; "maxTemperature"; "minTemperature"; "maxPrecipitation";
           "maxWindSpeed"] profile with
  | Throw e => Throw e
  | Return _ =>
      if negb (isString (prop profile "plantType"))
      then Throw (MkError (of_ +:+ ": plantType must be a string"))
      else if negb (isNumber (prop profile "maxTemperature"))
      then Throw (MkError (of_ +:+ ": maxTemperature must be a number"))
      else if negb (isNumber (prop profile "minTemperature"))
      then Throw (MkError (of_ +:+ ": minTemperature must be a number"))
      else if negb (isNumber (prop profile "maxPrecipitation"))
      then Throw (MkError (of_ +:+ ": maxPrecipitation must be a number"))
      else if negb (isNumber (prop profile "maxWindSpeed"))
      then Throw (MkError (of_ +:+ ": maxWindSpeed must be a number"))
      else if geb (number (prop profile "minTemperature"))
                  (number (prop profile "maxTemperature"))
      then Throw (MkError
                    (of_ +:+ ": minTemperature must be less than maxTemperature"))
      else Return
             (SensitivityProfile.mk
                (text (prop profile "plantType"))
                (number (prop profile "maxTemperature"))
                (number (prop profile "minTemperature"))
                (number (prop profile "maxPrecipitation"))
                (number (prop profile "maxWindSpeed")))
  end.

(** [Object.entries(value)] of an object or an array. *)
Definition entriesOf (value : Json) : list (string * Json) :=
  match value with
  | JObject entries => entries
  | JArray items => imap (fun i item => (pretty i, item)) items
  | _ => []
  end.

(** The loop of [loadSensitivityProfiles] that validates each entry and
    sets it in the map. *)
Fixpoint validateProfiles (entries : list (string * Json))
    (profilesMap : gmap string SensitivityProfile.t)
  : Completion (gmap string SensitivityProfile.t) :=
  match entries with
  | [] => Return profilesMap
  | (plantType, profile) :: rest =>
      match validateSensitivityProfile profile plantType with
      | Throw e => Throw e
      | Return validated =>
          validateProfiles rest (<[plantType := validated]> profilesMap)
      end
  end.

(** [!value] for a JSON value. *)
Definition falsy (value : Json) : bool :=
  match value with
  | JNull => true
  | JBool b => negb b
  | JNumber n => Qeq_bool n 0
  | JString s => String.eqb s ""
  | JArray _ | JObject _ => false
  end.

(** [typeof value === "object"]. *)
Definition typeofObject (value : Json) : bool :=
  match value with
  | JNull | JArray _ | JObject _ => true
  | _ => false
  end.

(** [loadSensitivityProfiles()]. *)
Definition loadSensitivityProfiles (filePath : string) (file : File)
  : Completion (gmap string SensitivityProfile.t) :=
  match file with
  | Missing =>
      Throw (MkError ("Sensitivity profiles file not found at " +:+ filePath))
  | Unreadable e => Throw e
  | Malformed message =>
      Throw (MkError ("Invalid JSON format in plant-sensitivity-profiles.json: "
                        +:+ message))
  | Parsed JNull => Throw TypeError
  | Parsed data =>
      let missing :=
        MkError
          "Invalid plant-sensitivity-profiles.json: missing 'profiles' object" in
      match prop data "profiles" with
      | None => Throw missing
      | Some profiles =>
          if falsy profiles || negb (typeofObject profiles) then Throw missing
          else
            match validateProfiles (entriesOf profiles) ∅ with
            | Throw e => Throw e
            | Return profilesMap =>
                if bool_decide (is_Some (profilesMap !! "default"))
                then Return profilesMap
                else Throw
                       (MkError
                          "Invalid plant-sensitivity-profiles.json: missing 'default' profile")
            end
      end
  end.

End ConfigFiles.

(** ** services/HealthCheckService.ts, and the [/health] route of index.ts *)

Module ServiceStatus.
Inductive t : Type := ok | degraded | error.
End ServiceStatus.

Module SystemStatus.
Inductive t : Type := healthy | degraded | unhealthy.
End SystemStatus.

Module HealthCheckService.

(** [error.message]. *)
Definition errorMessage (error : Error) : string := message error.

Record ServiceHealth := {
  status : ServiceStatus.t;
  message : option string;
  latency : option Z
}.

Record Services := {
  postgres : ServiceHealth;
  mongodb : ServiceHealth;
  openmeteo : ServiceHealth;
  twilio : ServiceHealth
}.

Record HealthCheckResult := {
  systemStatus : SystemStatus.t;
  timestamp : Z;
  services : Services
}.

Record t := {
  backendUrl : string;
  mongoUrl : string;
  notificationService : NotificationService.t
}.

(** What the probe of MongoDB meets: the outcome of [new MongoClient(url)],
    of [connect()], of the [ping] command and of [close()], and the time
    from the start of the check to the reading of the clock that follows
    the first throw, or the ping. Each step is only reached when the ones
    before it returned; [close()] runs once the client exists. *)
Record MongoProbe := {
  construct : Completion unit;
  connect : Completion unit;
  ping : Completion unit;
  close : Completion unit;
  took : Z
}.

Section Probes.

(** What a [fetch] of [url] meets; a request that is not answered within
    the 5000 ms of its [AbortSignal.timeout] is a rejected one. *)
Variable fetch : string -> PlantsService.Exchange unit.

(** What [new MongoClient(url)] and the calls on it meet. *)
Variable mongo : string -> MongoProbe.

(** The [try]/[catch] that [checkPostgres] and [checkOpenMeteo] share word
    for word, for the exchange their [fetch] meets. Every value thrown by
    [fetch] is an [Error], so the message is the error's own. *)
Definition probed (x : PlantsService.Exchange unit) : ServiceHealth :=
  match PlantsService.outcome x with
  | PlantsService.Responded response =>
      if PlantsService.ok response then
        {| status := ServiceStatus.ok; message := None;
           latency := Some (PlantsService.elapsed x) |}
      else
        {| status := ServiceStatus.error;
           message := Some ("HTTP " +:+ pretty (PlantsService.status response));
           latency := Some (PlantsService.elapsed x) |}
  | PlantsService.Rejected error =>
      {| status := ServiceStatus.error; message := Some (errorMessage error);
         latency := Some (PlantsService.elapsed x) |}
  end.

Definition checkPostgres (this : t) : ServiceHealth :=
  probed (fetch (backendUrl this +:+ "/api/health")).

Definition checkMongoDB (this : t) : ServiceHealth :=
  let probe := mongo (mongoUrl this) in
  let failed (error : Error) :=
    {| status := ServiceStatus.error; message := Some (errorMessage error);
       latency := Some (took probe) |} in
  match construct probe with
  | Throw error => failed error
  | Return _ =>
      match connect probe with
      | Throw error => failed error
      | Return _ =>
          match ping probe with
          | Throw error => failed error
          | Return _ =>
              {| status := ServiceStatus.ok; message := None;
                 latency := Some (took probe) |}
          end
      end
  end.

Definition checkOpenMeteo (this : t) : ServiceHealth :=
  probed (fetch
    "https://api.open-meteo.com/v1/forecast?latitude=40.4168&longitude=-3.7038&current=temperature_2m").

Definition checkTwilio (this : t) : ServiceHealth :=
  if negb (NotificationService.isEnabled (notificationService this)) then
    {| status := ServiceStatus.degraded;
       message := Some "Service disabled (missing credentials)";
       latency := None |}
  else
    {| status := ServiceStatus.ok; message := Some "Service enabled";
       latency := None |}.

Definition isError (s : ServiceStatus.t) : bool :=
  match s with ServiceStatus.error => true | _ => false end.
Definition isDegraded (s : ServiceStatus.t) : bool :=
  match s with ServiceStatus.degraded => true | _ => false end.

(** [determineSystemStatus(services)]. *)
Definition determineSystemStatus (services : Services) : SystemStatus.t :=
  let statuses :=
    map status [postgres services; mongodb services; openmeteo services;
                twilio services] in
  if isError (status (postgres services))
     || isError (status (openmeteo services))
  then SystemStatus.unhealthy
  else if existsb isError statuses || existsb isDegraded statuses
  then SystemStatus.degraded
  else SystemStatus.healthy.

(** [checkHealth()], whose result is stamped when the clock shows [now]. *)
Definition checkHealth (now : Z) (this : t) : HealthCheckResult :=
  let services :=
    {| postgres := checkPostgres this; mongodb := checkMongoDB this;
       openmeteo := checkOpenMeteo this; twilio := checkTwilio this |} in
  {| systemStatus := determineSystemStatus services; timestamp := now;
     services := services |}.

(** The body of the answer of [GET /health]. *)
Inductive HealthBody : Type :=
| NotInitialized
| Checked (result : HealthCheckResult).

(** The [/health] branch of the request handler; [healthCheckService] is the
    global of that name, [None] while it is [null]. No check of
    [checkHealth] lets a throw escape, so the handler's own [catch] has
    nothing to catch. *)
Definition health (now : Z) (healthCheckService : option t) : Z * HealthBody :=
  match healthCheckService with
  | None => (503, NotInitialized)
  | Some service =>
      let healthResult := checkHealth now service in
      let statusCode :=
        match systemStatus healthResult with
        | SystemStatus.healthy => 200
        | _ => 503
        end in
      (statusCode, Checked healthResult)
  end.

End Probes.

End HealthCheckService.

(** ** services/WebSocketServer.ts *)

Module WebSocketServer.

(** A socket object, told apart from the others by its identity. *)
Definition WebSocket : Type := nat.

(** The server object: [clients] is a [Set<WebSocket>], listed in insertion
    order. *)
Record t := {
  clients : list WebSocket
}.

Definition new : t := {| clients := [] |}.

(** [set.add(ws)] and [set.delete(ws)]. *)
Definition Set_add (s : list WebSocket) (ws : WebSocket) : list WebSocket :=
  if bool_decide (ws ∈ s) then s else s ++ [ws].
Definition Set_delete (s : list WebSocket) (ws : WebSocket) : list WebSocket :=
  List.filter (fun client => negb (client =? ws)%nat) s.

Definition onConnection (ws : WebSocket) (this : t) : t :=
  {| clients := Set_add (clients this) ws |}.

Definition onDisconnection (ws : WebSocket) (this : t) : t :=
  {| clients := Set_delete (clients this) ws |}.

Definition hasConnectedClients (this : t) : bool :=
  (0 <? length (clients this))%nat.

Definition getClientCount (this : t) : nat := length (clients this).

(** The [data] of a message: the fields of the alert, the timestamp as
    text. *)
Record AlertData := {
  alertId : string;
  gardenId : string;
  userId : Z;
  gardenName : string;
  timestamp : string;
  alertType : AlertType;
  metric : string;
  currentValue : Q;
  threshold : Q;
  affectedPlantTypes : list string;
  affectedPlantNames : list string
}.

Record Message := {
  type : string;
  data : AlertData
}.

Section Sockets.

(** [date.toISOString()]; the timestamp of an alert is a [new Date()], for
    which it does not throw. *)
Variable toISOString : Z -> string.

(** [JSON.stringify(message)]. *)
Variable JSON_stringify : Message -> string.

(** What [ws.send(messageStr)] does during one broadcast. *)
Variable send : WebSocket -> string -> Completion unit.

Definition formatAlertMessage (alert : Alert.t) : Message :=
  {| type := "WEATHER_ALERT";
     data := {| alertId := Alert.alertId alert;
                gardenId := Alert.gardenId alert;
                userId := Alert.userId alert;
                gardenName := Alert.gardenName alert;
                timestamp := toISOString (Alert.timestamp alert);
                alertType := Alert.alertType alert;
                metric := Alert.metric alert;
                currentValue := Alert.currentValue alert;
                threshold := Alert.threshold alert;
                affectedPlantTypes := Alert.affectedPlantTypes alert;
                affectedPlantNames := Alert.affectedPlantNames alert |} |}.

(** The [for (const ws of this.clients)] loop, over the clients still to be
    visited; a client deleted while it is the current one does not disturb
    the visit of the others. [sent] lists the calls of [send] made so far. *)
Fixpoint sendAll (messageStr : string) (pending : list WebSocket) (this : t)
    (sent : list (WebSocket * string)) : t * list (WebSocket * string) :=
  match pending with
  | [] => (this, sent)
  | ws :: rest =>
      match send ws messageStr with
      | Return _ => sendAll messageStr rest this (sent ++ [(ws, messageStr)])
      | Throw _ =>
          sendAll messageStr rest
            {| clients := Set_delete (clients this) ws |}
            (sent ++ [(ws, messageStr)])
      end
  end.

(** [broadcast(alert)]: the server afterwards, and the calls of [send]. *)
Definition broadcast (alert : Alert.t) (this : t)
  : t * list (WebSocket * string) :=
  if (length (clients this) =? 0)%nat then (this, [])
  else
    let message := formatAlertMessage alert in
    let messageStr := JSON_stringify message in
    sendAll messageStr (clients this) this [].

End Sockets.

End WebSocketServer.

(** ** services/AlertHistoryService.ts: connection, persistence, shutdown *)

Module AlertHistoryConnection.
Import AlertHistoryService.

(** The [Collection] handle of the driver: what its calls do. *)
Record Collection := {
  find : Query -> Z -> Completion (list AlertDocument);
  insertOne : AlertDocument -> Completion unit;
  createIndex : string -> Completion unit
}.

(** The [MongoClient] handle: [db("weather_alerts_db")
    .collection("weather_alerts")] gives [weather_alerts]. *)
Record MongoClient := {
  connect : Completion unit;
  weather_alerts : Collection;
  close_ : Completion unit
}.

(** The service object, with the fields that [AlertHistoryService.t] leaves
    out; [db] is read nowhere and is left out. *)
Record t := {
  client : option MongoClient;
  collection : option Collection;
  mongoUrl : string;
  isConnected : bool
}.

Definition new (mongoUrl : string) : t :=
  {| client := None; collection := None; mongoUrl := mongoUrl;
     isConnected := false |}.

(** The service as [getAlertHistory] sees it. *)
Definition reader (this : t) : AlertHistoryService.t :=
  {| AlertHistoryService.collection := find <$> collection this;
     AlertHistoryService.isConnected := isConnected this |}.

Definition getAlertHistory (this : t) (filters : AlertHistoryFilters)
    (limit : Z) : list AlertDocument :=
  AlertHistoryService.getAlertHistory (reader this) filters limit.

Definition isReady (this : t) : bool := isConnected this.

(** The three [createIndex] calls of the [try] block of [createIndexes]:
    the names of the indexes created before the first throw, if any. *)
Fixpoint createAll (collection : Collection) (names : list string)
  : list string :=
  match names with
  | [] => []
  | name :: rest =>
      match createIndex collection name with
      | Return _ => name :: createAll collection rest
      | Throw _ => []
      end
  end.

(** [createIndexes()]: the indexes it created. *)
Definition createIndexes (this : t) : list string :=
  match collection this with
  | None => []
  | Some collection =>
      createAll collection
        ["gardenId_timestamp"; "userId_timestamp"; "timestamp_desc"]
  end.

Section Driver.

(** [new MongoClient(url)], which throws on a malformed URL. *)
Variable MongoClient_new : string -> Completion MongoClient.

(** [initialize()]: the service afterwards, and the indexes created. *)
Definition initialize (this : t) : t * list string :=
  match MongoClient_new (mongoUrl this) with
  | Throw _ =>
      ({| client := client this; collection := collection this;
          mongoUrl := mongoUrl this; isConnected := false |}, [])
  | Return mongoClient =>
      match connect mongoClient with
      | Throw _ =>
          ({| client := Some mongoClient; collection := collection this;
              mongoUrl := mongoUrl this; isConnected := false |}, [])
      | Return _ =>
          let assigned :=
            {| client := Some mongoClient;
               collection := Some (weather_alerts mongoClient);
               mongoUrl := mongoUrl this;
               isConnected := isConnected this |} in
          ({| client := Some mongoClient;
              collection := Some (weather_alerts mongoClient);
              mongoUrl := mongoUrl this; isConnected := true |},
           createIndexes assigned)
      end
  end.

End Driver.

(** [saveAlert(alert)], called when the clock shows [now]: the answer, and
    the documents handed to [insertOne]. *)
Definition saveAlert (now : Z) (alert : Alert.t) (this : t)
  : bool * list AlertDocument :=
  match isConnected this, collection this with
  | true, Some collection =>
      let alertDocument := {| alert := alert; createdAt := now |} in
      match insertOne collection alertDocument with
      | Return _ => (true, [alertDocument])
      | Throw _ => (false, [alertDocument])
      end
  | _, _ => (false, [])
  end.

(** [close()]. *)
Definition close (this : t) : t :=
  match client this with
  | None => this
  | Some mongoClient =>
      match close_ mongoClient with
      | Return _ =>
          {| client := Some mongoClient; collection := collection this;
             mongoUrl := mongoUrl this; isConnected := false |}
      | Throw _ => this
      end
  end.

End AlertHistoryConnection.

(** ** index.ts: [monitorSingleGarden]

    One run for one garden, taken on its own. The gardens of a cycle are
    run side by side by [monitorGardens]; how their steps interleave is not
    modelled. *)

Module Monitor.
Import PlantsService.

(** What the run meets outside: the two HTTP services, the SMS gateway for
    the submissions of the [i]-th alert, the sockets during the broadcast of
    the [i]-th alert, the clock reading when the [i]-th alert is saved, and
    the functions left as parameters by the services. *)
Record Env := {
  provider : string -> nat -> Exchange (option WeatherService.Forecast);
  buildWeatherUrl : Q -> Q -> string;
  backend : string -> nat -> Exchange User.t;
  generateAlertId : nat -> string;
  gateway : nat -> nat -> Completion unit;
  formatAlertMessage : Alert.t -> string;
  toISOString : Z -> string;
  JSON_stringify : WebSocketServer.Message -> string;
  send : nat -> WebSocketServer.WebSocket -> string -> Completion unit;
  savedAt : nat -> Z
}.

(** The objects the run works on: the plants service in its world, the
    globals [metricsService] and [weatherAlertServer], and the history
    service. *)
Record World := {
  sys : Sys;
  metricsService : MetricsService.t;
  weatherAlertServer : WebSocketServer.t;
  alertHistoryService : AlertHistoryConnection.t
}.

(** What the run did to the outside: the SMS submissions and waits, the
    messages sent to sockets, the documents handed to MongoDB. *)
Record Effects := {
  sms : list NotificationService.Event;
  pushed : list (WebSocketServer.WebSocket * string);
  inserted : list AlertHistoryService.AlertDocument
}.

Definition nothing : Effects := {| sms := []; pushed := []; inserted := [] |}.

Definition andThen (first second : Effects) : Effects :=
  {| sms := sms first ++ sms second;
     pushed := pushed first ++ pushed second;
     inserted := inserted first ++ inserted second |}.

(** The latencies the callback of a call was called with, the call having
    taken the event list from [before] to [after]. *)
Definition reported (before after : list Event) : list Z :=
  omap (fun e => match e with LatencyRecorded ms => Some ms | _ => None end)
       (drop (length before) after).

(** [alertEngine.evaluateGarden(garden, recordWeatherLatency)] with its
    [fetchWeather] call; the engine holds [sensitivityProfiles]. *)
Definition evaluate (env : Env)
    (sensitivityProfiles : gmap string SensitivityProfile.t)
    (garden : Garden.t) : M (list Alert.t) :=
  try_catch
    (weather <- WeatherService.fetchWeather (provider env)
                  (buildWeatherUrl env) (Garden.latitude garden)
                  (Garden.longitude garden) true ;;
     fun s =>
       (Return (AlertEngine.evaluateGarden (generateAlertId env) (service s)
                  sensitivityProfiles weather (clock s) (clock s) garden),
        s))%js
    (fun _ => ret []).

(** The body of the [for (const alert of alerts)] loop, for the [i]-th
    alert. [None] stands for a retry loop of [sendAlert] that does not end
    within its three rounds. Neither [broadcast] nor [saveAlert] has a
    throwing path here, so the [catch] blocks around them have nothing to
    catch. *)
Definition processAlert (env : Env)
    (notificationService : NotificationService.t) (garden : Garden.t)
    (i : nat) (alert : Alert.t) (w : World) : option (World * Effects) :=
  let counted :=
    MetricsService.recordAlert
      (AlertHistoryService.AlertType_name (Alert.alertType alert))
      (metricsService w) in
  (* Priority 1: SMS *)
  let '(user, sys') :=
    fetchUser (backend env) (Garden.userId garden) true (sys w) in
  let timed :=
    fold_left (fun m latency =>
                 MetricsService.recordBackendLatency (inject_Z latency) m)
              (reported (events (sys w)) (events sys')) counted in
  let texted :=
    match user with
    | Return user =>
        match NotificationService.sendAlert (gateway env i)
                (formatAlertMessage env) 3 notificationService alert user with
        | Some (Return true, submitted) =>
            Some (MetricsService.recordSMSSuccess timed, submitted)
        | Some (Return false, submitted) =>
            Some (MetricsService.recordSMSFailure timed, submitted)
        | Some (Throw _, submitted) =>
            Some (MetricsService.recordSMSFailure timed, submitted)
        | None => None
        end
    | Throw _ => Some (MetricsService.recordSMSFailure timed, [])
    end in
  match texted with
  | None => None
  | Some (metrics', submitted) =>
      (* Priority 2: WebSocket *)
      let '(server', messages) :=
        WebSocketServer.broadcast (toISOString env) (JSON_stringify env)
          (send env i) alert (weatherAlertServer w) in
      (* Priority 3: MongoDB *)
      let '(saved, documents) :=
        AlertHistoryConnection.saveAlert (savedAt env i) alert
          (alertHistoryService w) in
      Some ({| sys := sys'; metricsService := metrics';
               weatherAlertServer := server';
               alertHistoryService := alertHistoryService w |},
            {| sms := submitted; pushed := messages; inserted := documents |})
  end.

(** The loop, from the [i]-th alert on. *)
Fixpoint processAlerts (env : Env)
    (notificationService : NotificationService.t) (garden : Garden.t)
    (i : nat) (alerts : list Alert.t) (w : World) : option (World * Effects) :=
  match alerts with
  | [] => Some (w, nothing)
  | alert :: rest =>
      match processAlert env notificationService garden i alert w with
      | None => None
      | Some (w', done) =>
          match processAlerts env notificationService garden (S i) rest w' with
          | None => None
          | Some (w'', more) => Some (w'', andThen done more)
          end
      end
  end.

(** [monitorSingleGarden(garden, alertEngine, plantsService,
    notificationService, alertHistoryService)]. *)
Definition monitorSingleGarden (env : Env)
    (sensitivityProfiles : gmap string SensitivityProfile.t)
    (notificationService : NotificationService.t) (garden : Garden.t)
    (w : World) : option (World * Effects) :=
  let '(alerts, sys') := evaluate env sensitivityProfiles garden (sys w) in
  let w' :=
    {| sys := sys';
       metricsService :=
         fold_left (fun m latency =>
                      MetricsService.recordOpenMeteoLatency (inject_Z latency) m)
                   (reported (events (sys w)) (events sys'))
                   (metricsService w);
       weatherAlertServer := weatherAlertServer w;
       alertHistoryService := alertHistoryService w |} in
  match alerts with
  | Throw _ => Some (w', nothing)
  | Return alerts =>
      if (length alerts =? 0)%nat then Some (w', nothing)
      else processAlerts env notificationService garden 0 alerts w'
  end.

End Monitor.

(** ** index.ts: [initializeWeatherAlertsSystem], up to the health service *)

Module Startup.

(** The variables read from [Bun.env]; [None] for one that is not set. *)
Record Env := {
  BACKEND_URL : option string;
  MONGO_URL : option string;
  TWILIO_ACCOUNT_SID : option string;
  TWILIO_AUTH_TOKEN : option string;
  TWILIO_PHONE_NUMBER : option string
}.

(** [value || fallback]. *)
Definition orElse (value : option string) (fallback : string) : string :=
  match value with
  | Some s => if String.eqb s "" then fallback else s
  | None => fallback
  end.

(** The [twilioConfig] of step 2. *)
Definition twilioConfig (env : Env) : option SMSConfig.t :=
  match TWILIO_ACCOUNT_SID env with
  | Some accountSid =>
      if String.eqb accountSid "" then None
      else Some (SMSConfig.mk accountSid (orElse (TWILIO_AUTH_TOKEN env) "")
                   (orElse (TWILIO_PHONE_NUMBER env) ""))
  | None => None
  end.

(** What the global [healthCheckService] holds once
    [initializeWeatherAlertsSystem] has run: it is assigned at the end of
    step 2, which is reached when both configuration files load and there
    is a garden; a throw of a loader is caught by the function's own
    [catch]. The constructors and [alertHistoryService.initialize()] that
    run before the assignment do not throw; what follows it is not
    modelled. [gardensFile] and [profilesFile] are the two files under
    [./config]. *)
Definition initializeWeatherAlertsSystem
    (Twilio : string -> string -> Completion NotificationService.TwilioClient)
    (env : Env) (gardensFile profilesFile : ConfigFiles.File)
  : option HealthCheckService.t :=
  match ConfigFiles.loadGardens "config/gardens.config.json" gardensFile with
  | Throw _ => None
  | Return gardens =>
      match ConfigFiles.loadSensitivityProfiles
              "config/plant-sensitivity-profiles.json" profilesFile with
      | Throw _ => None
      | Return sensitivityProfiles =>
          if (length gardens =? 0)%nat then None
          else
            let backendUrl := orElse (BACKEND_URL env) "http://localhost:3001" in
            let notificationService :=
              NotificationService.new Twilio (twilioConfig env) in
            let mongoUrl := orElse (MONGO_URL env) "mongodb://localhost:27017" in
            Some {| HealthCheckService.backendUrl := backendUrl;
                    HealthCheckService.mongoUrl := mongoUrl;
                    HealthCheckService.notificationService :=
                      notificationService |}
      end
  end.

End Startup.

(** * Properties

    ** PlantsService: cache TTL, retry policy, fallback *)

Module PlantsServiceFacts.
Import PlantsService.

Section Retry.
Context {T : Type}.
Variable backend : string -> nat -> Exchange T.

(** What one attempt completes with, given the exchange it meets. *)
Definition attemptResult (x : Exchange T) : Completion T :=
  match outcome x with
  | Rejected e => Throw e
  | Responded r =>
      if ok r then json r
      else Throw (MkError ("HTTP " +:+ pretty (status r) +:+ ": "
                             +:+ statusText r))
  end.

(** The system after one more request, and after a sleep. *)
Definition afterFetch (url : string) (s : Sys) : Sys :=
  {| clock := clock s + elapsed (backend url (requests s));
     requests := S (requests s);
     events := events s ++ [Fetched url];
     service := service s |}.

Definition afterSleep (ms : Z) (s : Sys) : Sys :=
  {| clock := clock s + ms; requests := requests s;
     events := events s ++ [Slept ms]; service := service s |}.

Lemma attemptOnce_run url s :
  attemptOnce backend url s
  = (attemptResult (backend url (requests s)), afterFetch url s).
Proof.
  unfold attemptOnce, bind, fetch, attemptResult, afterFetch, throw.
  destruct (outcome (backend url (requests s))) as [e|r]; [reflexivity|].
  destruct (ok r); reflexivity.
Qed.

(** The loop is left once [attempt] reaches [maxRetries]; fuel beyond the
    [maxRetries - attempt] iterations still to run changes nothing, so the
    fuel [fetchWithRetry] starts with is enough. *)
Lemma retryLoop_exit fuel url maxRetries attempt lastError s :
  (maxRetries <= attempt)%nat ->
  retryLoop backend fuel url maxRetries attempt lastError s
  = (Throw (default (MkError "Failed to fetch after all retries") lastError), s).
Proof.
  intros Hle. destruct fuel as [|fuel]; simpl; [reflexivity|].
  destruct (Nat.ltb_spec attempt maxRetries); [lia|reflexivity].
Qed.

Lemma retryLoop_fuel fuel url maxRetries :
  forall attempt lastError s,
  (maxRetries - attempt <= fuel)%nat ->
  retryLoop backend fuel url maxRetries attempt lastError s
  = retryLoop backend (maxRetries - attempt) url maxRetries attempt lastError s.
Proof.
  induction fuel as [|fuel IH]; intros attempt lastError s Hfuel.
  - replace (maxRetries - attempt)%nat with 0%nat by lia. reflexivity.
  - destruct (Nat.le_gt_cases maxRetries attempt) as [Hdone|Hmore].
    + rewrite !retryLoop_exit by assumption. reflexivity.
    + replace (maxRetries - attempt)%nat
        with (S (maxRetries - S attempt)) by lia.
      simpl. destruct (Nat.ltb_spec attempt maxRetries); [|lia].
      unfold try_catch. rewrite attemptOnce_run.
      destruct (attemptResult _); [reflexivity|].
      unfold bind.
      destruct (attempt <? maxRetries - 1)%nat; simpl; apply IH; lia.
Qed.

(** An exchange that makes an attempt fail: a transport error, a status
    outside 200-299, or a body that [json()] rejects. *)
Definition failed (x : Exchange T) : Prop :=
  match outcome x with
  | Rejected _ => True
  | Responded r => ok r = false \/ exists e, json r = Throw e
  end.

(** An exchange that makes an attempt return [v]. *)
Definition succeeded (x : Exchange T) (v : T) : Prop :=
  match outcome x with
  | Rejected _ => False
  | Responded r => ok r = true /\ json r = Return v
  end.

Lemma failed_throws x : failed x -> exists e, attemptResult x = Throw e.
Proof.
  unfold failed, attemptResult. destruct (outcome x) as [e|r]; [eauto|].
  intros [Hok|[e He]].
  - rewrite Hok. eauto.
  - destruct (ok r); [rewrite He|]; eauto.
Qed.

Lemma succeeded_returns x v : succeeded x v -> attemptResult x = Return v.
Proof.
  unfold succeeded, attemptResult. destruct (outcome x) as [e|r]; [tauto|].
  intros [-> ->]. reflexivity.
Qed.

(** The three states a run with three attempts can end in. *)
Definition after1 (url : string) (s : Sys) : Sys := afterFetch url s.
Definition after2 (url : string) (s : Sys) : Sys :=
  afterFetch url (afterSleep 1000 (after1 url s)).
Definition after3 (url : string) (s : Sys) : Sys :=
  afterFetch url (afterSleep 2000 (after2 url s)).

Lemma fetchWithRetry_trace url s :
  fetchWithRetry backend url 3 s =
  match attemptResult (backend url (requests s)) with
  | Return v => (Return v, after1 url s)
  | Throw _ =>
      match attemptResult (backend url (S (requests s))) with
      | Return v => (Return v, after2 url s)
      | Throw _ =>
          (attemptResult (backend url (S (S (requests s)))), after3 url s)
      end
  end.
Proof.
  unfold fetchWithRetry, after3, after2, after1.
  cbn [retryLoop Nat.ltb Nat.leb Nat.sub].
  change (2 ^ Z.of_nat 0 * 1000) with 1000.
  change (2 ^ Z.of_nat 1 * 1000) with 2000.
  unfold try_catch at 1. rewrite attemptOnce_run.
  destruct (attemptResult (backend url (requests s))) as [v|e0];
    [reflexivity|].
  unfold bind at 1. unfold sleep at 1.
  fold (afterSleep 1000 (afterFetch url s)).
  unfold try_catch at 1. rewrite attemptOnce_run.
  change (requests (afterSleep 1000 (afterFetch url s)))
    with (S (requests s)).
  destruct (attemptResult (backend url (S (requests s)))) as [v|e1];
    [reflexivity|].
  unfold bind at 1. unfold sleep at 1.
  fold (afterSleep 2000 (afterFetch url (afterSleep 1000 (afterFetch url s)))).
  unfold try_catch at 1. rewrite attemptOnce_run.
  change (requests (afterSleep 2000
            (afterFetch url (afterSleep 1000 (afterFetch url s)))))
    with (S (S (requests s))).
  destruct (attemptResult (backend url (S (S (requests s))))) as [v|e2];
    reflexivity.
Qed.

Lemma events_after1 url s : events (after1 url s) = events s ++ [Fetched url].
Proof. reflexivity. Qed.

Lemma events_after2 url s :
  events (after2 url s) = events s ++ [Fetched url; Slept 1000; Fetched url].
Proof. cbn. rewrite <- !app_assoc. reflexivity. Qed.

Lemma events_after3 url s :
  events (after3 url s)
  = events s ++ [Fetched url; Slept 1000; Fetched url; Slept 2000;
                 Fetched url].
Proof. cbn. rewrite <- !app_assoc. reflexivity. Qed.

Lemma clock_after3 url s :
  clock (after3 url s)
  = clock s + elapsed (backend url (requests s)) + 1000
    + elapsed (backend url (S (requests s))) + 2000
    + elapsed (backend url (S (S (requests s)))).
Proof. reflexivity. Qed.

Lemma failed_or_succeeded x : failed x \/ exists v, succeeded x v.
Proof.
  unfold failed, succeeded. destruct (outcome x) as [e|r]; [tauto|].
  destruct (ok r); [|tauto].
  destruct (json r) as [v|e]; [right|left]; eauto.
Qed.

End Retry.

(** *** Fixtures *)

Definition rosa : Plant.t := Plant.mk 1 7 "Rosa" "rose" "" "" "".

(** A service whose cache was filled for user 7 at time 0. *)
Definition primed : t := setCachedPlants 0 (new "http://backend") 7 [rosa].

(** A backend that refuses every connection after 10 ms. *)
Definition down {T} : string -> nat -> Exchange T :=
  fun _ _ => {| elapsed := 10;
                outcome := Rejected (MkError "ECONNREFUSED") |}.

(** A backend that answers 503 twice and then 200 with one plant. *)
Definition flaky : string -> nat -> Exchange (list Plant.t) :=
  fun _ n =>
    {| elapsed := 10;
       outcome :=
         Responded
           (if (n <? 2)%nat
            then {| status := 503; statusText := "Service Unavailable";
                    json := Return [] |}
            else {| status := 200; statusText := "OK";
                    json := Return [rosa] |}) |}.

(** The system one hour, and one millisecond past 24 hours, after priming. *)
Definition anHourLater : Sys :=
  {| clock := 3600000; requests := 0; events := []; service := primed |}.
Definition aDayLater : Sys :=
  {| clock := 86400001; requests := 0; events := []; service := primed |}.

(** The sleeps among the events, in order. *)
Definition waits (evs : list Event) : list Z :=
  omap (fun e => match e with Slept ms => Some ms | _ => None end) evs.

(** The system after the optional [recordLatency] callback. *)
Definition afterRecord (recordLatency : bool) (latency : Z) (s : Sys) : Sys :=
  if recordLatency
  then {| clock := clock s; requests := requests s;
          events := events s ++ [LatencyRecorded latency];
          service := service s |}
  else s.

Lemma record_run recordLatency latency s :
  record recordLatency latency s
  = (Return tt, afterRecord recordLatency latency s).
Proof. unfold record, afterRecord. destruct recordLatency; reflexivity. Qed.

(** Two 503 answers, then a 200: the third attempt gives the plants, which
    are cached with the time of the write. *)
Example fetchUserPlants_third_attempt :
  let out := fetchUserPlants flaky 7 true aDayLater in
  fst out = Return [rosa]
  /\ events (snd out)
     = [Fetched "http://backend/api/plants?userId=7"; Slept 1000;
        Fetched "http://backend/api/plants?userId=7"; Slept 2000;
        Fetched "http://backend/api/plants?userId=7"; LatencyRecorded 3030]
  /\ getCachedPlants 86403031 (service (snd out)) 7 = Some [rosa].
Proof. repeat split. Qed.

(** [fetchUser] has no fallback: when all three attempts fail it rethrows
    the error of the last one. *)
Lemma fetchUser_all_failed
    (backend : string -> nat -> Exchange User.t)
    (userId : Z) (recordLatency : bool) (s : Sys) :
  let url := backendUrl (service s) +:+ "/api/users/" +:+ pretty userId in
  failed (backend url (requests s)) ->
  failed (backend url (S (requests s))) ->
  failed (backend url (S (S (requests s)))) ->
  fst (fetchUser backend userId recordLatency s)
  = attemptResult (backend url (S (S (requests s)))).
Proof.
  intros url H0 H1 H2.
  apply failed_throws in H0 as [e0 H0], H1 as [e1 H1], H2 as [e2 H2].
  unfold fetchUser. fold url.
  unfold bind at 1. unfold Date_now at 1. unfold try_catch at 1.
  unfold bind at 1. rewrite fetchWithRetry_trace, H0, H1, H2.
  unfold bind at 1. unfold Date_now at 1.
  unfold bind at 1. rewrite record_run. reflexivity.
Qed.

(** C7: after [setCachedPlants(u, p)] at time [t0], a read at time [now]
    returns [p] while [now - t0] is at most the TTL of 24 hours, and
    [null] once it exceeds the TTL. *)
Theorem getCachedPlants_after_set (this : t) (u : Z) (p : list Plant.t)
    (t0 now : Z) :
  cacheTTL = 24 * 60 * 60 * 1000
  /\ (now - t0 <= cacheTTL ->
      getCachedPlants now (setCachedPlants t0 this u p) u = Some p)
  /\ (cacheTTL < now - t0 ->
      getCachedPlants now (setCachedPlants t0 this u p) u = None).
Proof.
  split; [reflexivity|].
  unfold getCachedPlants, setCachedPlants. cbn [cache].
  rewrite lookup_insert_eq. cbn [lastUpdated plants].
  split; intros H.
  - destruct (Z.gtb_spec (now - t0) cacheTTL); [lia|reflexivity].
  - destruct (Z.gtb_spec (now - t0) cacheTTL); [reflexivity|lia].
Qed.

Lemma getCachedPlants_after_set_witness :
  let this := new "http://backend" in
  getCachedPlants 86400000 (setCachedPlants 0 this 7 [rosa]) 7 = Some [rosa]
  /\ getCachedPlants 86400001 (setCachedPlants 0 this 7 [rosa]) 7 = None.
Proof.
  split.
  - apply (getCachedPlants_after_set (new "http://backend") 7 [rosa] 0 86400000).
    vm_compute. discriminate.
  - apply (getCachedPlants_after_set (new "http://backend") 7 [rosa] 0 86400001).
    reflexivity.
Defined.

(** C5, as the code has it: [fetchWithRetry] with its default of 3 makes
    at most 3 requests; it waits 1 s after a first failed attempt and 2 s
    after a second one, and nothing after the third, so that no 4 s wait
    ever happens; an attempt fails on a transport error, on a status
    outside 200-299 and on an unreadable body; the first attempt that
    succeeds gives the result, and when all three fail the error of the
    third attempt is thrown. *)
Theorem fetchWithRetry_backoff {T} (backend : string -> nat -> Exchange T)
    (url : string) (s : Sys) :
  let x n := backend url (requests s + n)%nat in
  let out := fetchWithRetry backend url 3 s in
  let one := [Fetched url] in
  let two := [Fetched url; Slept 1000; Fetched url] in
  let three := [Fetched url; Slept 1000; Fetched url; Slept 2000;
                Fetched url] in
  (requests (snd out) <= requests s + 3)%nat
  /\ (exists new, events (snd out) = events s ++ new
                  /\ (new = one \/ new = two \/ new = three))
  /\ (forall v, succeeded (x 0%nat) v ->
        fst out = Return v /\ events (snd out) = events s ++ one)
  /\ (forall v, failed (x 0%nat) -> succeeded (x 1%nat) v ->
        fst out = Return v /\ events (snd out) = events s ++ two)
  /\ (forall v, failed (x 0%nat) -> failed (x 1%nat) ->
        succeeded (x 2%nat) v ->
        fst out = Return v /\ events (snd out) = events s ++ three)
  /\ (failed (x 0%nat) -> failed (x 1%nat) -> failed (x 2%nat) ->
      (exists e, fst out = Throw e /\ attemptResult (x 2%nat) = Throw e)
      /\ events (snd out) = events s ++ three).
Proof.
  intros x out one two three. subst x out one two three. cbv beta.
  rewrite Nat.add_0_r, Nat.add_1_r.
  replace (requests s + 2)%nat with (S (S (requests s))) by lia.
  rewrite fetchWithRetry_trace.
  set (r0 := attemptResult (backend url (requests s))).
  set (r1 := attemptResult (backend url (S (requests s)))).
  set (r2 := attemptResult (backend url (S (S (requests s))))).
  split; [|split; [|split; [|split; [|split]]]].
  - destruct r0; [cbn; lia|]. destruct r1; cbn; lia.
  - destruct r0; [exists [Fetched url]; split; [apply events_after1|tauto]|].
    destruct r1; eexists;
      (split; [first [apply events_after2|apply events_after3]|tauto]).
  - intros v Hok0. apply succeeded_returns in Hok0. fold r0 in Hok0.
    rewrite Hok0. split; reflexivity.
  - intros v Hko0 Hok1.
    apply failed_throws in Hko0 as [e0 Hko0]. fold r0 in Hko0.
    apply succeeded_returns in Hok1. fold r1 in Hok1.
    rewrite Hko0, Hok1. split; [reflexivity|apply events_after2].
  - intros v Hko0 Hko1 Hok2.
    apply failed_throws in Hko0 as [e0 Hko0]. fold r0 in Hko0.
    apply failed_throws in Hko1 as [e1 Hko1]. fold r1 in Hko1.
    apply succeeded_returns in Hok2. fold r2 in Hok2.
    rewrite Hko0, Hko1, Hok2. split; [reflexivity|apply events_after3].
  - intros Hko0 Hko1 Hko2.
    apply failed_throws in Hko0 as [e0 Hko0]. fold r0 in Hko0.
    apply failed_throws in Hko1 as [e1 Hko1]. fold r1 in Hko1.
    apply failed_throws in Hko2 as [e2 Hko2]. fold r2 in Hko2.
    rewrite Hko0, Hko1. split; [|apply events_after3].
    exists e2. split; exact Hko2.
Qed.

Lemma fetchWithRetry_backoff_witness :
  let url := "http://backend/api/plants?userId=7" in
  let out := fetchWithRetry (T := list Plant.t) down url 3 anHourLater in
  (exists e, fst out = Throw e
             /\ attemptResult (T := list Plant.t) (down url 2%nat) = Throw e)
  /\ events (snd out)
     = [] ++ [Fetched url; Slept 1000; Fetched url; Slept 2000; Fetched url].
Proof.
  apply (fetchWithRetry_backoff (T := list Plant.t) down
           "http://backend/api/plants?userId=7" anHourLater); exact I.
Defined.

(** C5 as stated fails: with three attempts there are two waits, of 1 s
    and 2 s; the 4 s step of the sequence is never waited. *)
Lemma backoff_has_no_third_wait :
  let out := fetchWithRetry (T := list Plant.t) down
               "http://backend/api/plants?userId=7" 3 anHourLater in
  fst out = Throw (MkError "ECONNREFUSED")
  /\ waits (events (snd out)) = [1000; 2000]
  /\ ~ In (Slept 4000) (events (snd out)).
Proof.
  vm_compute. repeat split.
  intros H. repeat (destruct H as [H|H]; [discriminate H|]). exact H.
Qed.

(** The run of [fetchUserPlants] when all three attempts fail. *)
Lemma fetchUserPlants_all_failed
    (backend : string -> nat -> Exchange (list Plant.t))
    (userId : Z) (recordLatency : bool) (s : Sys) :
  let url := backendUrl (service s) +:+ "/api/plants?userId="
               +:+ pretty userId in
  let s3 := after3 backend url s in
  failed (backend url (requests s)) ->
  failed (backend url (S (requests s))) ->
  failed (backend url (S (S (requests s)))) ->
  fetchUserPlants backend userId recordLatency s
  = (match getCachedPlants (clock s3) (service s) userId with
     | Some ps => Return ps
     | None => Throw (MkError ("Failed to fetch plants for user "
                                 +:+ pretty userId
                                 +:+ " and no cache available"))
     end,
     afterRecord recordLatency (clock s3 - clock s) s3).
Proof.
  intros url s3 H0 H1 H2.
  apply failed_throws in H0 as [e0 H0], H1 as [e1 H1], H2 as [e2 H2].
  unfold fetchUserPlants. fold url.
  unfold bind at 1. unfold Date_now at 1. unfold try_catch at 1.
  unfold bind at 1. rewrite fetchWithRetry_trace, H0, H1, H2.
  fold s3. unfold bind at 1. unfold Date_now at 1.
  unfold bind at 1. rewrite record_run.
  unfold bind at 1. unfold getCached at 1.
  assert (Hclock : clock (afterRecord recordLatency (clock s3 - clock s) s3)
                   = clock s3) by (destruct recordLatency; reflexivity).
  assert (Hservice : service (afterRecord recordLatency (clock s3 - clock s) s3)
                     = service s) by (destruct recordLatency; reflexivity).
  rewrite Hclock, Hservice.
  destruct (getCachedPlants (clock s3) (service s) userId); reflexivity.
Qed.

(** What the [catch] of [fetchUserPlants] does: when all three attempts of
    the fetch fail and the cache holds an entry for the user, the cached
    plants are returned if the entry is at most 24 hours old at the time
    of the fallback read, and otherwise "no cache available" is thrown;
    the cache is left as it was. The fallback reads through
    [getCachedPlants], whose TTL test hides the entries that the branch,
    by its comment and its log line, is there to serve. *)
Lemma fetchUserPlants_fallback
    (backend : string -> nat -> Exchange (list Plant.t))
    (userId : Z) (recordLatency : bool) (s : Sys) (entry : CacheEntry) :
  let url := backendUrl (service s) +:+ "/api/plants?userId="
               +:+ pretty userId in
  let x n := backend url (requests s + n)%nat in
  let tRead := clock s + elapsed (x 0%nat) + 1000 + elapsed (x 1%nat) + 2000
               + elapsed (x 2%nat) in
  let out := fetchUserPlants backend userId recordLatency s in
  cache (service s) !! userId = Some entry ->
  failed (x 0%nat) -> failed (x 1%nat) -> failed (x 2%nat) ->
  fst out
  = (if bool_decide (tRead - lastUpdated entry <= cacheTTL)
     then Return (plants entry)
     else Throw (MkError ("Failed to fetch plants for user "
                            +:+ pretty userId
                            +:+ " and no cache available")))
  /\ service (snd out) = service s
  /\ (cacheTTL < tRead - lastUpdated entry ->
      getCachedPlants tRead (service s) userId = None).
Proof.
  intros url x tRead out Hentry H0 H1 H2. subst x tRead out. cbv beta in *.
  rewrite Nat.add_0_r, Nat.add_1_r in *.
  replace (requests s + 2)%nat with (S (S (requests s))) in * by lia.
  rewrite (fetchUserPlants_all_failed backend userId recordLatency s H0 H1 H2).
  fold url. rewrite clock_after3. cbn [fst snd].
  unfold getCachedPlants. rewrite Hentry. cbv zeta.
  set (age := _ - lastUpdated entry).
  destruct (Z.gtb_spec age cacheTTL) as [Hold|Hyoung].
  - rewrite bool_decide_eq_false_2 by lia.
    repeat split; destruct recordLatency; reflexivity.
  - rewrite bool_decide_eq_true_2 by lia.
    repeat split; try (destruct recordLatency; reflexivity). intros; lia.
Qed.

Lemma fetchUserPlants_fallback_witness :
  fst (fetchUserPlants down 7 true anHourLater) = Return [rosa]
  /\ service (snd (fetchUserPlants down 7 true anHourLater)) = primed.
Proof.
  destruct (fetchUserPlants_fallback down 7 true anHourLater
              {| plants := [rosa]; timestamp := 0; lastUpdated := 0 |})
    as (Hres & Hsvc & _);
    [reflexivity | exact I | exact I | exact I |].
  split; [exact Hres | exact Hsvc].
Defined.

(** C1: the failing input. The cache holds the plants of user 7, written
    at time 0; the backend refuses every request; [fetchUserPlants(7)] is
    called one millisecond past 24 hours. The claim has the stale plants
    returned; the code throws "no cache available", the fallback having
    read them through the TTL test of [getCachedPlants]. *)
Theorem stale_entry_is_not_served :
  cache primed !! 7 = Some {| plants := [rosa]; timestamp := 0;
                              lastUpdated := 0 |}
  /\ fst (fetchUserPlants down 7 true aDayLater)
     = Throw (MkError "Failed to fetch plants for user 7 and no cache available")
  /\ fst (fetchUserPlants down 7 true aDayLater) <> Return [rosa]
  /\ getCachedPlants 86400001 primed 7 = None.
Proof.
  split; [reflexivity|]. split; [reflexivity|]. split; [|reflexivity].
  vm_compute. discriminate.
Qed.
End PlantsServiceFacts.

(** ** AlertEngine: threshold rules *)

Module AlertEngineFacts.
Import SensitivityProfile WeatherData AlertEngine.

Lemma gtb_lt (a b : Q) : gtb a b = true <-> (b < a)%Q.
Proof.
  unfold gtb. rewrite negb_true_iff, <- not_true_iff_false, Qle_bool_iff.
  split; [apply Qnot_le_lt | apply Qlt_not_le].
Qed.

Lemma ltb_lt (a b : Q) : ltb a b = true <-> (a < b)%Q.
Proof. unfold ltb. apply (gtb_lt b a). Qed.

(** A minimum, and a maximum, of a list of numbers. *)
Definition is_min (m : Q) (xs : list Q) : Prop :=
  In m xs /\ forall y, In y xs -> (m <= y)%Q.
Definition is_max (m : Q) (xs : list Q) : Prop :=
  In m xs /\ forall y, In y xs -> (y <= m)%Q.

Lemma Math_min_is_min (xs : list Q) : forall x, is_min (Math_min x xs) (x :: xs).
Proof.
  unfold Math_min, is_min.
  induction xs as [|y ys IH]; intros x; cbn [fold_left].
  - split; [left; reflexivity|].
    intros z [<-|[]]. apply Qle_refl.
  - destruct (ltb y x) eqn:Hyx.
    + apply ltb_lt in Hyx. destruct (IH y) as [Hin Hle]. split.
      * right. exact Hin.
      * intros z [<-|Hz]; [|apply Hle; exact Hz].
        apply Qle_trans with y; [apply Hle; left; reflexivity|].
        apply Qlt_le_weak. exact Hyx.
    + assert (Hxy : (x <= y)%Q).
      { apply Qnot_lt_le. intros Hlt. apply ltb_lt in Hlt. congruence. }
      destruct (IH x) as [Hin Hle]. split.
      * destruct Hin as [Hin|Hin]; [left; exact Hin | right; right; exact Hin].
      * intros z [<-|[<-|Hz]].
        -- apply Hle. left. reflexivity.
        -- apply Qle_trans with x; [apply Hle; left; reflexivity | exact Hxy].
        -- apply Hle. right. exact Hz.
Qed.

Lemma Math_max_is_max (xs : list Q) : forall x, is_max (Math_max x xs) (x :: xs).
Proof.
  unfold Math_max, is_max.
  induction xs as [|y ys IH]; intros x; cbn [fold_left].
  - split; [left; reflexivity|].
    intros z [<-|[]]. apply Qle_refl.
  - destruct (gtb y x) eqn:Hyx.
    + apply gtb_lt in Hyx. destruct (IH y) as [Hin Hle]. split.
      * right. exact Hin.
      * intros z [<-|Hz]; [|apply Hle; exact Hz].
        apply Qle_trans with y; [|apply Hle; left; reflexivity].
        apply Qlt_le_weak. exact Hyx.
    + assert (Hxy : (y <= x)%Q).
      { apply Qnot_lt_le. intros Hlt. apply gtb_lt in Hlt. congruence. }
      destruct (IH x) as [Hin Hle]. split.
      * destruct Hin as [Hin|Hin]; [left; exact Hin | right; right; exact Hin].
      * intros z [<-|[<-|Hz]].
        -- apply Hle. left. reflexivity.
        -- apply Qle_trans with x; [exact Hxy | apply Hle; left; reflexivity].
        -- apply Hle. right. exact Hz.
Qed.

(** *** The four rules, as the specification words them *)

(** The weather metric a rule reads. *)
Definition reading (R : AlertType) (w : WeatherData.t) : Q :=
  match R with
  | HIGH_TEMPERATURE | LOW_TEMPERATURE => temperature w
  | HEAVY_RAIN => precipitation w
  | STRONG_WIND => windSpeed w
  end.

(** The threshold of a profile a rule compares with. *)
Definition limit (R : AlertType) (p : SensitivityProfile.t) : Q :=
  match R with
  | HIGH_TEMPERATURE => maxTemperature p
  | LOW_TEMPERATURE => minTemperature p
  | HEAVY_RAIN => maxPrecipitation p
  | STRONG_WIND => maxWindSpeed p
  end.

(** The strict inequality of a rule. *)
Definition breaches (R : AlertType) (w : WeatherData.t)
    (p : SensitivityProfile.t) : Prop :=
  match R with
  | LOW_TEMPERATURE => (reading R w < limit R p)%Q
  | _ => (limit R p < reading R w)%Q
  end.

Definition breachesb (R : AlertType) (w : WeatherData.t)
    (p : SensitivityProfile.t) : bool :=
  match R with
  | LOW_TEMPERATURE => ltb (reading R w) (limit R p)
  | _ => gtb (reading R w) (limit R p)
  end.

(** The profiles a rule affects, in the order of [profiles]. *)
Definition affected (R : AlertType) (w : WeatherData.t)
    (profiles : list SensitivityProfile.t) : list SensitivityProfile.t :=
  List.filter (breachesb R w) profiles.

Lemma breachesb_spec R w p : breachesb R w p = true <-> breaches R w p.
Proof. destruct R; cbn; first [apply gtb_lt | apply ltb_lt]. Qed.

Lemma affected_nonempty R w profiles :
  affected R w profiles <> [] <-> exists p, In p profiles /\ breaches R w p.
Proof.
  unfold affected. split.
  - destruct (List.filter _ _) as [|p ps] eqn:Hf; [congruence|]. intros _.
    assert (Hin : In p (List.filter (breachesb R w) profiles))
      by (rewrite Hf; left; reflexivity).
    apply filter_In in Hin as [Hin Hb]. exists p. split; [exact Hin|].
    apply breachesb_spec. exact Hb.
  - intros (p & Hin & Hb) Hnil.
    assert (Hp : In p (List.filter (breachesb R w) profiles)).
    { apply filter_In. split; [exact Hin|]. apply breachesb_spec. exact Hb. }
    rewrite Hnil in Hp. exact Hp.
Qed.

(** The most restrictive threshold of a rule over the profiles it affects. *)
Definition restrictive (R : AlertType) (m : Q) (hit : list SensitivityProfile.t)
  : Prop :=
  match R with
  | LOW_TEMPERATURE => is_max m (map (limit R) hit)
  | _ => is_min m (map (limit R) hit)
  end.

Section Shape.
Variable generateAlertId : nat -> string.
Variable plantsService : PlantsService.t.
Variable now : Z.
Variable weather : WeatherData.t.
Variable profiles : list SensitivityProfile.t.
Variable garden : Garden.t.

Definition metricName (R : AlertType) : string :=
  match R with
  | HIGH_TEMPERATURE | LOW_TEMPERATURE => "temperature"
  | HEAVY_RAIN => "precipitation"
  | STRONG_WIND => "windSpeed"
  end.

Definition extremum (R : AlertType) (p : SensitivityProfile.t)
    (ps : list SensitivityProfile.t) : Q :=
  match R with
  | LOW_TEMPERATURE => Math_max (limit R p) (map (limit R) ps)
  | _ => Math_min (limit R p) (map (limit R) ps)
  end.

(** What the block of rule [R] pushes when [alerts] were pushed before. *)
Definition blockFor (R : AlertType) (alerts : list Alert.t) : list Alert.t :=
  match affected R weather profiles with
  | [] => []
  | p :: ps =>
      [alertFor generateAlertId garden now alerts R (metricName R)
         (reading R weather) (extremum R p ps) (p :: ps)
         (default [] (PlantsService.getCachedPlants now plantsService
                        (Garden.userId garden)))]
  end.

Lemma checkThresholds_blocks :
  checkThresholds generateAlertId plantsService now weather profiles garden
  = let bH := blockFor HIGH_TEMPERATURE [] in
    let bL := blockFor LOW_TEMPERATURE bH in
    let bR := blockFor HEAVY_RAIN (bH ++ bL) in
    let bW := blockFor STRONG_WIND (bH ++ bL ++ bR) in
    bH ++ bL ++ bR ++ bW.
Proof.
  unfold checkThresholds, blockFor, affected, extremum, metricName.
  cbn [breachesb reading limit].
  set (fH := fun p => gtb (temperature weather) (maxTemperature p)).
  set (fL := fun p => ltb (temperature weather) (minTemperature p)).
  set (fR := fun p => gtb (precipitation weather) (maxPrecipitation p)).
  set (fW := fun p => gtb (windSpeed weather) (maxWindSpeed p)).
  change (breachesb HIGH_TEMPERATURE weather) with fH.
  change (breachesb LOW_TEMPERATURE weather) with fL.
  change (breachesb HEAVY_RAIN weather) with fR.
  change (breachesb STRONG_WIND weather) with fW.
  destruct (List.filter fH profiles) as [|pH hH];
    destruct (List.filter fL profiles) as [|pL hL];
    destruct (List.filter fR profiles) as [|pR hR];
    destruct (List.filter fW profiles) as [|pW hW];
    reflexivity.
Qed.

(** An alert of rule [R] as the engine builds it. *)
Definition wellFormed (R : AlertType) (a : Alert.t) : Prop :=
  Alert.alertType a = R
  /\ Alert.currentValue a = reading R weather
  /\ Alert.affectedPlantTypes a = map plantType (affected R weather profiles)
  /\ restrictive R (Alert.threshold a) (affected R weather profiles).

Lemma blockFor_cases R alerts :
  (affected R weather profiles = [] /\ blockFor R alerts = [])
  \/ (affected R weather profiles <> []
      /\ exists a, blockFor R alerts = [a] /\ wellFormed R a).
Proof.
  unfold blockFor, wellFormed, restrictive, extremum.
  destruct (affected R weather profiles) as [|p ps]; [left; split; reflexivity|].
  right. split; [discriminate|]. eexists. split; [reflexivity|].
  cbn [Alert.alertType Alert.currentValue Alert.affectedPlantTypes
       Alert.threshold alertFor].
  repeat split; try reflexivity.
  destruct R; cbn [map]; first [apply Math_min_is_min | apply Math_max_is_max].
Qed.

Lemma blockFor_In R alerts a : In a (blockFor R alerts) -> wellFormed R a.
Proof.
  destruct (blockFor_cases R alerts) as [[_ ->]|(_ & b & -> & Hb)].
  - intros [].
  - intros [<-|[]]. exact Hb.
Qed.

Lemma alert_wellFormed a :
  In a (checkThresholds generateAlertId plantsService now weather profiles
          garden)
  -> wellFormed (Alert.alertType a) a.
Proof.
  rewrite checkThresholds_blocks. cbv zeta. rewrite !in_app_iff.
  intros [H|[H|[H|H]]]; pose proof (blockFor_In _ _ _ H) as Hw;
    destruct Hw as [Ht Hrest]; rewrite Ht; exact (conj Ht Hrest).
Qed.

Lemma alert_emitted R :
  affected R weather profiles <> [] ->
  exists a,
    In a (checkThresholds generateAlertId plantsService now weather profiles
            garden)
    /\ wellFormed R a.
Proof.
  intros Hne. rewrite checkThresholds_blocks. cbv zeta.
  set (bH := blockFor HIGH_TEMPERATURE []).
  set (bL := blockFor LOW_TEMPERATURE bH).
  set (bR := blockFor HEAVY_RAIN (bH ++ bL)).
  set (bW := blockFor STRONG_WIND (bH ++ bL ++ bR)).
  assert (Hblock : forall alerts, exists a,
             blockFor R alerts = [a] /\ wellFormed R a).
  { intros alerts. destruct (blockFor_cases R alerts) as [[Hnil _]|[_ H]];
      [contradiction|exact H]. }
  destruct R.
  - destruct (Hblock []) as (a & Ha & Hw). exists a. split; [|exact Hw].
    rewrite !in_app_iff. left. subst bH. rewrite Ha. left. reflexivity.
  - destruct (Hblock bH) as (a & Ha & Hw). exists a. split; [|exact Hw].
    rewrite !in_app_iff. right. left. subst bL. rewrite Ha. left. reflexivity.
  - destruct (Hblock (bH ++ bL)) as (a & Ha & Hw). exists a.
    split; [|exact Hw].
    rewrite !in_app_iff. right. right. left. subst bR. rewrite Ha. left.
    reflexivity.
  - destruct (Hblock (bH ++ bL ++ bR)) as (a & Ha & Hw). exists a.
    split; [|exact Hw].
    rewrite !in_app_iff. right. right. right. subst bW. rewrite Ha. left.
    reflexivity.
Qed.

Lemma blockFor_types R alerts :
  map Alert.alertType (blockFor R alerts) `sublist_of` [R].
Proof.
  destruct (blockFor_cases R alerts) as [[_ ->]|(_ & a & -> & Ht & _)].
  - apply sublist_nil_l.
  - cbn [map]. rewrite Ht. reflexivity.
Qed.

Lemma alert_types_in_order :
  map Alert.alertType
      (checkThresholds generateAlertId plantsService now weather profiles
         garden)
  `sublist_of` [HIGH_TEMPERATURE; LOW_TEMPERATURE; HEAVY_RAIN; STRONG_WIND].
Proof.
  rewrite checkThresholds_blocks. cbv zeta. rewrite !map_app.
  change [HIGH_TEMPERATURE; LOW_TEMPERATURE; HEAVY_RAIN; STRONG_WIND]
    with ([HIGH_TEMPERATURE] ++ [LOW_TEMPERATURE] ++ [HEAVY_RAIN]
            ++ [STRONG_WIND]).
  repeat apply sublist_app; apply blockFor_types.
Qed.

End Shape.

(** *** Fixtures: the scenarios of the specification *)

Definition tomato : SensitivityProfile.t :=
  SensitivityProfile.mk "tomato" 35 5 20 50.
Definition lettuce : SensitivityProfile.t :=
  SensitivityProfile.mk "lettuce" 25 2 20 50.
Definition fallback : SensitivityProfile.t :=
  SensitivityProfile.mk "default" 30 0 25 60.

Definition registry : gmap string SensitivityProfile.t :=
  <["tomato" := tomato]> (<["lettuce" := lettuce]> (<["default" := fallback]> ∅)).

Definition g1 : Garden.t := Garden.mk "g1" 1 "G1" 40 (-3).

Definition T1 : Plant.t := Plant.mk 1 1 "T1" "tomato" "" "" "".
Definition L1 : Plant.t := Plant.mk 2 1 "L1" "lettuce" "" "" "".

(** User 1 has a tomato (and, in [mixed], a lettuce) cached at time 0;
    [bare] holds nothing. *)
Definition bare : PlantsService.t := PlantsService.new "http://backend".
Definition single : PlantsService.t := PlantsService.setCachedPlants 0 bare 1 [T1].
Definition mixed : PlantsService.t :=
  PlantsService.setCachedPlants 0 bare 1 [T1; L1].

Definition ids (n : nat) : string := "alert-" +:+ pretty n.

Definition weatherAt (temperature precipitation windSpeed : Q) : WeatherData.t :=
  WeatherData.mk temperature temperature temperature precipitation windSpeed 1000.

(** S1: one tomato, 36 degrees against a maximum of 35. *)
Example scenario_S1 :
  evaluateGarden ids single registry (Some (weatherAt 36 0 0)) 1000 1000 g1
  = [Alert.mk "alert-0" "g1" 1 "G1" 1000 HIGH_TEMPERATURE "temperature" 36 35
       ["tomato"] ["T1"]].
Proof. reflexivity. Qed.

(** S2: exactly 35 degrees. *)
Example scenario_S2 :
  evaluateGarden ids single registry (Some (weatherAt 35 0 0)) 1000 1000 g1 = [].
Proof. reflexivity. Qed.

(** S3: tomato and lettuce at 30 degrees: only the lettuce is affected. *)
Example scenario_S3 :
  evaluateGarden ids mixed registry (Some (weatherAt 30 0 0)) 1000 1000 g1
  = [Alert.mk "alert-0" "g1" 1 "G1" 1000 HIGH_TEMPERATURE "temperature" 30 25
       ["lettuce"] ["L1"]].
Proof. reflexivity. Qed.

(** S4: three rules at once. *)
Example scenario_S4 :
  map Alert.alertType
      (evaluateGarden ids single registry (Some (weatherAt 40 30 60)) 1000 1000
         g1)
  = [HIGH_TEMPERATURE; HEAVY_RAIN; STRONG_WIND].
Proof. reflexivity. Qed.

(** C2: [checkThresholds] emits an alert of rule [R] if and only if some
    profile's threshold is strictly exceeded by the metric of the rule
    (strictly undercut, for LOW_TEMPERATURE); a profile whose threshold
    equals the metric is not among the affected ones, and when the metric
    equals the threshold of every profile, no alert of the rule is emitted. *)
Theorem strict_threshold_rule (generateAlertId : nat -> string)
    (plantsService : PlantsService.t) (now : Z) (weather : WeatherData.t)
    (profiles : list SensitivityProfile.t) (garden : Garden.t)
    (R : AlertType) :
  let alerts :=
    checkThresholds generateAlertId plantsService now weather profiles garden in
  ((exists a, In a alerts /\ Alert.alertType a = R)
   <-> (exists p, In p profiles /\ breaches R weather p))
  /\ (forall p, (reading R weather == limit R p)%Q ->
      ~ In p (affected R weather profiles))
  /\ ((forall p, In p profiles -> (reading R weather == limit R p)%Q) ->
      ~ exists a, In a alerts /\ Alert.alertType a = R).
Proof.
  intros alerts.
  assert (Hiff : (exists a, In a alerts /\ Alert.alertType a = R)
                 <-> (exists p, In p profiles /\ breaches R weather p)).
  { rewrite <- affected_nonempty. split.
    - intros (a & Hin & <-).
      destruct (alert_wellFormed _ _ _ _ _ _ _ Hin) as (_ & _ & _ & Hrestr).
      intros Hnil. rewrite Hnil in Hrestr.
      destruct (Alert.alertType a); destruct Hrestr as [[] _].
    - intros Hne.
      destruct (alert_emitted generateAlertId plantsService now weather
                  profiles garden R Hne) as (a & Hin & Ht & _).
      exists a. split; assumption. }
  assert (Hequal : forall p, (reading R weather == limit R p)%Q ->
                             ~ breaches R weather p).
  { intros p Heq Hb.
    destruct R; cbn [breaches] in Hb; rewrite Heq in Hb;
      exact (Qlt_irrefl _ Hb). }
  split; [exact Hiff|]. split.
  - intros p Heq Hin. unfold affected in Hin.
    apply filter_In in Hin as [_ Hb]. apply breachesb_spec in Hb.
    exact (Hequal p Heq Hb).
  - intros Heq Halert. apply Hiff in Halert as (p & Hin & Hb).
    exact (Hequal p (Heq p Hin) Hb).
Qed.

Lemma strict_threshold_rule_witness :
  ~ exists a,
      In a (checkThresholds ids single 1000 (weatherAt 35 0 0) [tomato] g1)
      /\ Alert.alertType a = HIGH_TEMPERATURE.
Proof.
  apply (strict_threshold_rule ids single 1000 (weatherAt 35 0 0) [tomato] g1
           HIGH_TEMPERATURE).
  intros p [<-|[]]. reflexivity.
Defined.

(** C3: the threshold of an emitted HIGH_TEMPERATURE, HEAVY_RAIN or
    STRONG_WIND alert is the minimum of the affected profiles'
    [maxTemperature], [maxPrecipitation] or [maxWindSpeed]; the threshold of
    an emitted LOW_TEMPERATURE alert is the maximum of the affected profiles'
    [minTemperature]. The affected profiles are those whose rule holds, and
    their plant types are the alert's [affectedPlantTypes]. *)
Theorem most_restrictive_threshold (generateAlertId : nat -> string)
    (plantsService : PlantsService.t) (now : Z) (weather : WeatherData.t)
    (profiles : list SensitivityProfile.t) (garden : Garden.t) (a : Alert.t) :
  In a (checkThresholds generateAlertId plantsService now weather profiles
          garden) ->
  let hit := affected (Alert.alertType a) weather profiles in
  (forall p, In p hit <-> In p profiles /\ breaches (Alert.alertType a) weather p)
  /\ Alert.affectedPlantTypes a = map plantType hit
  /\ match Alert.alertType a with
     | HIGH_TEMPERATURE => is_min (Alert.threshold a) (map maxTemperature hit)
     | LOW_TEMPERATURE => is_max (Alert.threshold a) (map minTemperature hit)
     | HEAVY_RAIN => is_min (Alert.threshold a) (map maxPrecipitation hit)
     | STRONG_WIND => is_min (Alert.threshold a) (map maxWindSpeed hit)
     end.
Proof.
  intros Hin hit.
  destruct (alert_wellFormed _ _ _ _ _ _ _ Hin) as (_ & _ & Htypes & Hrestr).
  split; [|split; [exact Htypes|]].
  - intros p. subst hit. unfold affected. rewrite filter_In, breachesb_spec.
    reflexivity.
  - subst hit. destruct (Alert.alertType a); exact Hrestr.
Qed.

Lemma most_restrictive_threshold_witness :
  let a := Alert.mk "alert-0" "g1" 1 "G1" 1000 HIGH_TEMPERATURE "temperature"
             30 25 ["lettuce"] ["L1"] in
  is_min (Alert.threshold a)
    (map maxTemperature
       (affected HIGH_TEMPERATURE (weatherAt 30 0 0) [tomato; lettuce])).
Proof.
  intros a.
  apply (most_restrictive_threshold ids mixed 1000 (weatherAt 30 0 0)
           [tomato; lettuce] g1 a).
  left. reflexivity.
Defined.

(** C4: [evaluateGarden] returns no alert whenever the read of the plant
    cache for [garden.userId] gives [null] or an empty list, whatever the
    weather. *)
Theorem no_plants_no_alerts (generateAlertId : nat -> string)
    (plantsService : PlantsService.t)
    (sensitivityProfiles : gmap string SensitivityProfile.t)
    (fetched : option WeatherData.t) (tTypes tCheck : Z) (garden : Garden.t) :
  PlantsService.getCachedPlants tTypes plantsService (Garden.userId garden)
    = None
  \/ PlantsService.getCachedPlants tTypes plantsService (Garden.userId garden)
    = Some [] ->
  evaluateGarden generateAlertId plantsService sensitivityProfiles fetched
    tTypes tCheck garden = [].
Proof.
  intros Hread. unfold evaluateGarden, getPlantTypesFromCache.
  destruct fetched as [weather|]; [|reflexivity].
  destruct Hread as [-> | ->]; reflexivity.
Qed.

Lemma no_plants_no_alerts_witness :
  evaluateGarden ids bare registry (Some (weatherAt 40 30 60)) 1000 1000 g1 = []
  /\ evaluateGarden ids single registry (Some (weatherAt 40 30 60))
       86400001 86400001 g1 = [].
Proof.
  split.
  - apply (no_plants_no_alerts ids bare registry (Some (weatherAt 40 30 60))
             1000 1000 g1).
    left. reflexivity.
  - apply (no_plants_no_alerts ids single registry (Some (weatherAt 40 30 60))
             86400001 86400001 g1).
    left. reflexivity.
Defined.

(** C9: the alert types of one evaluation appear in the order
    HIGH_TEMPERATURE, LOW_TEMPERATURE, HEAVY_RAIN, STRONG_WIND, each at most
    once: they form a subsequence of that list, without repetition. *)
Theorem alert_types_ordered_once (generateAlertId : nat -> string)
    (plantsService : PlantsService.t) (now : Z) (weather : WeatherData.t)
    (profiles : list SensitivityProfile.t) (garden : Garden.t) :
  let types :=
    map Alert.alertType
        (checkThresholds generateAlertId plantsService now weather profiles
           garden) in
  types `sublist_of` [HIGH_TEMPERATURE; LOW_TEMPERATURE; HEAVY_RAIN; STRONG_WIND]
  /\ NoDup types
  /\ (length types <= 4)%nat.
Proof.
  intros types.
  pose proof (alert_types_in_order generateAlertId plantsService now weather
                profiles garden) as Hsub.
  fold types in Hsub. split; [exact Hsub|]. split.
  - apply (sublist_NoDup _ _) with (2 := Hsub).
    repeat (apply NoDup_cons; split; [rewrite ?elem_of_cons, elem_of_nil;
                                      intuition discriminate|]).
    apply NoDup_nil_2.
  - apply sublist_length in Hsub. exact Hsub.
Qed.

End AlertEngineFacts.

(** ** NotificationService: skip conditions and bounded retries *)

Module NotificationServiceFacts.
Import NotificationService.

(** The constructor leaves the service disabled, or enabled with a client
    and the configuration it was given. *)
Lemma new_cases Twilio cfg :
  enabled (new Twilio cfg) = false
  \/ exists client c,
       cfg = Some c
       /\ new Twilio cfg
          = {| twilioClient := Some client; config := Some c; enabled := true |}.
Proof.
  unfold new. destruct cfg as [c|]; [|left; reflexivity].
  destruct (negb (truthy (SMSConfig.accountSid c))
            || negb (truthy (SMSConfig.authToken c))
            || negb (truthy (SMSConfig.fromNumber c))); [left; reflexivity|].
  destruct (Twilio _ _) as [client|e]; [|left; reflexivity].
  right. exists client, c. split; reflexivity.
Qed.

Lemma truthy_nonempty s : truthy s = true <-> s <> "".
Proof. unfold truthy. rewrite negb_true_iff. apply String.eqb_neq. Qed.

Definition submissions (evs : list Event) : nat :=
  length (List.filter (fun e => match e with Submitted _ _ _ => true
                                        | Delayed _ => false end) evs).

Section Gateway.
Variable gateway : nat -> Completion unit.
Variable formatAlertMessage : Alert.t -> string.

(** What the loop of an enabled service does, by the fate of the first three
    submissions. *)
Definition outcomeOf (submit : Event) : Completion bool * list Event :=
  let wait := Delayed 5000 in
  match gateway 0, gateway 1, gateway 2 with
  | Return _, _, _ => (Return true, [submit])
  | Throw _, Return _, _ => (Return true, [submit; wait; submit])
  | Throw _, Throw _, Return _ =>
      (Return true, [submit; wait; submit; wait; submit])
  | Throw _, Throw _, Throw _ =>
      (Return false, [submit; wait; submit; wait; submit])
  end.

Lemma sendLoop_run fuel client c to message :
  (3 <= fuel)%nat ->
  sendLoop gateway fuel
    {| twilioClient := Some client; config := Some c; enabled := true |}
    to message 2 0 []
  = Some (outcomeOf (Submitted message (SMSConfig.fromNumber c) to)).
Proof.
  intros Hfuel. destruct fuel as [|[|[|fuel]]]; try lia.
  unfold outcomeOf. cbn.
  destruct (gateway 0) as [[]|e0]; [reflexivity|].
  destruct (gateway 1) as [[]|e1]; [reflexivity|].
  destruct (gateway 2) as [[]|e2]; [reflexivity|].
  destruct fuel; reflexivity.
Qed.

Lemma outcomeOf_returns message from to :
  exists b evs,
    outcomeOf (Submitted message from to) = (Return b, evs)
    /\ (submissions evs <= 3)%nat.
Proof.
  unfold outcomeOf.
  destruct (gateway 0) as [[]|e0]; [|destruct (gateway 1) as [[]|e1];
                                     [|destruct (gateway 2) as [[]|e2]]];
    do 2 eexists; (split; [reflexivity|]); cbn; lia.
Qed.

End Gateway.
(** *** Fixtures *)

Definition twilio (accountSid authToken : string) : Completion TwilioClient :=
  Return (Client accountSid authToken).

Definition credentials : SMSConfig.t :=
  SMSConfig.mk "AC0123" "token" "+15550100".

Definition ana : User.t := User.mk 1 "Ana" (Some "+34600000000").
Definition noPhone : User.t := User.mk 2 "Luis" None.

Definition heat : Alert.t :=
  Alert.mk "alert-0" "g1" 1 "G1" 1000 HIGH_TEMPERATURE "temperature" 36 35
    ["tomato"] ["T1"].

Definition plainText (a : Alert.t) : string :=
  "ALERTA CLIMATICA - " +:+ Alert.gardenName a.

(** A gateway that rejects every submission. *)
Definition rejecting (n : nat) : Completion unit :=
  Throw (MkError "gateway unavailable").

(** C6: a service that is not enabled, or a user whose [phone_number] is
    [null] or empty, makes [sendAlert] return [false] with no submission.
    Otherwise the message is submitted up to three times, with a wait of
    5000 ms after each of the first two failures: [true] is returned at the
    first success and [false] after the third failure. In every case the
    call returns a boolean, never throws, and submits at most three times. *)
Theorem sendAlert_bounded_retries
    (Twilio : string -> string -> Completion TwilioClient)
    (cfg : option SMSConfig.t) (gateway : nat -> Completion unit)
    (formatAlertMessage : Alert.t -> string) (alert : Alert.t) (user : User.t)
    (fuel : nat) :
  (3 <= fuel)%nat ->
  let this := new Twilio cfg in
  let run := sendAlert gateway formatAlertMessage fuel this alert user in
  (isEnabled this = false \/ User.phone_number user = None
   \/ User.phone_number user = Some "" ->
   run = Some (Return false, []))
  /\ (forall c to,
        isEnabled this = true -> cfg = Some c ->
        User.phone_number user = Some to -> to <> "" ->
        let submit :=
          Submitted (formatAlertMessage alert) (SMSConfig.fromNumber c) to in
        let wait := Delayed 5000 in
        run = Some
          match gateway 0%nat, gateway 1%nat, gateway 2%nat with
          | Return _, _, _ => (Return true, [submit])
          | Throw _, Return _, _ => (Return true, [submit; wait; submit])
          | Throw _, Throw _, Return _ =>
              (Return true, [submit; wait; submit; wait; submit])
          | Throw _, Throw _, Throw _ =>
              (Return false, [submit; wait; submit; wait; submit])
          end)
  /\ (exists b evs, run = Some (Return b, evs) /\ (submissions evs <= 3)%nat).
Proof.
  intros Hfuel this run. subst this run. unfold isEnabled.
  destruct (new_cases Twilio cfg) as [Hoff|(client & c & -> & ->)].
  - assert (Hskip : sendAlert gateway formatAlertMessage fuel
                      (new Twilio cfg) alert user = Some (Return false, [])).
    { unfold sendAlert. rewrite Hoff. reflexivity. }
    rewrite Hskip, Hoff. repeat split.
    + intros c to Hon. discriminate Hon.
    + exists false, []. split; [reflexivity|cbn; lia].
  - cbn [enabled]. unfold sendAlert. cbn [enabled twilioClient config].
    rewrite !bool_decide_eq_true_2 by (eexists; reflexivity).
    cbn [negb orb].
    destruct (User.phone_number user) as [phone|] eqn:Hphone.
    + destruct (truthy phone) eqn:Htruthy; cbn [negb].
      * rewrite sendLoop_run by exact Hfuel. repeat split.
        -- intros [Hoff|[Hnone|Hempty]]; try discriminate.
           injection Hempty as ->. discriminate Htruthy.
        -- intros c' to _ Hc Hto _. injection Hc as <-. injection Hto as <-.
           reflexivity.
        -- destruct (outcomeOf_returns gateway (formatAlertMessage alert)
                       (SMSConfig.fromNumber c) phone) as (b & evs & -> & Hn).
           exists b, evs. split; [reflexivity|exact Hn].
      * repeat split.
        -- intros c' to _ _ Hto Hne. injection Hto as <-.
           apply truthy_nonempty in Hne. congruence.
        -- exists false, []. split; [reflexivity|cbn; lia].
    + repeat split.
      * intros c' to _ _ Hto. discriminate Hto.
      * exists false, []. split; [reflexivity|cbn; lia].
Qed.

Lemma sendAlert_bounded_retries_witness :
  sendAlert rejecting plainText 3 (new twilio (Some credentials)) heat ana
  = Some (Return false,
          [Submitted "ALERTA CLIMATICA - G1" "+15550100" "+34600000000";
           Delayed 5000;
           Submitted "ALERTA CLIMATICA - G1" "+15550100" "+34600000000";
           Delayed 5000;
           Submitted "ALERTA CLIMATICA - G1" "+15550100" "+34600000000"])
  /\ sendAlert rejecting plainText 3 (new twilio (Some credentials)) heat noPhone
     = Some (Return false, [])
  /\ sendAlert rejecting plainText 3 (new twilio None) heat ana
     = Some (Return false, []).
Proof.
  split; [|split].
  - destruct (sendAlert_bounded_retries twilio (Some credentials) rejecting
                plainText heat ana 3 (le_n 3)) as (_ & Hrun & _).
    apply (Hrun credentials "+34600000000");
      [reflexivity | reflexivity | reflexivity | discriminate].
  - apply (sendAlert_bounded_retries twilio (Some credentials) rejecting
             plainText heat noPhone 3 (le_n 3)).
    right. left. reflexivity.
  - apply (sendAlert_bounded_retries twilio None rejecting plainText heat ana 3
             (le_n 3)).
    left. reflexivity.
Defined.

End NotificationServiceFacts.

(** ** MetricsService: SMS success rate and latency windows *)

Module MetricsServiceFacts.
Import MetricsService.

(** The last [n] elements of a list. *)
Definition keepLast {A} (n : nat) (l : list A) : list A :=
  drop (length l - n) l.

Lemma keepLast_length {A} n (l : list A) :
  length (keepLast n l) = Nat.min n (length l).
Proof. unfold keepLast. rewrite length_drop. lia. Qed.

(** Pushing onto a window of the last 100 and shifting when it overflows
    keeps the last 100. *)
Lemma push_shift_keepLast (hist : list Q) (x : Q) :
  let pushed := keepLast 100 hist ++ [x] in
  (if (100 <? length pushed)%nat then shift pushed else pushed)
  = keepLast 100 (hist ++ [x]).
Proof.
  cbv zeta. rewrite length_app, keepLast_length. cbn [length].
  unfold keepLast, shift. rewrite length_app. cbn [length].
  destruct (Nat.ltb_spec 100 (Nat.min 100 (length hist) + 1)) as [Hfull|Hroom].
  - assert (Hlen : (100 <= length hist)%nat) by lia.
    replace (length hist + 1 - 100)%nat with (length hist - 100 + 1)%nat by lia.
    rewrite drop_app_le by lia.
    rewrite <- drop_drop.
    destruct (drop (length hist - 100) hist) as [|y ys] eqn:Hd.
    + apply (f_equal length) in Hd. rewrite length_drop in Hd. cbn in Hd. lia.
    + reflexivity.
  - replace (length hist - 100)%nat with 0%nat by lia.
    replace (length hist + 1 - 100)%nat with 0%nat by lia.
    reflexivity.
Qed.

(** What a sequence of operations recorded. *)
Definition successes (ops : list Op) : nat :=
  length (List.filter (fun op => match op with RecordSMSSuccess => true
                                          | _ => false end) ops).
Definition failures (ops : list Op) : nat :=
  length (List.filter (fun op => match op with RecordSMSFailure => true
                                          | _ => false end) ops).
Definition openMeteoSamples (ops : list Op) : list Q :=
  omap (fun op => match op with RecordOpenMeteoLatency x => Some x
                           | _ => None end) ops.
Definition backendSamples (ops : list Op) : list Q :=
  omap (fun op => match op with RecordBackendLatency x => Some x
                           | _ => None end) ops.

Lemma run_counters (ops : list Op) : forall this,
  smsSent (run ops this) = (smsSent this + successes ops)%nat
  /\ smsFailed (run ops this) = (smsFailed this + failures ops)%nat.
Proof.
  unfold run, successes, failures.
  induction ops as [|op ops IH]; intros this; cbn [fold_left List.filter].
  - cbn. lia.
  - destruct (IH (step this op)) as [-> ->].
    destruct op; cbn; lia.
Qed.

Lemma run_windows (ops : list Op) : forall this histO histB,
  openMeteoLatencies this = keepLast 100 histO ->
  backendLatencies this = keepLast 100 histB ->
  openMeteoLatencies (run ops this)
    = keepLast 100 (histO ++ openMeteoSamples ops)
  /\ backendLatencies (run ops this)
    = keepLast 100 (histB ++ backendSamples ops).
Proof.
  unfold run.
  induction ops as [|op ops IH]; intros this histO histB HO HB;
    cbn [fold_left].
  - cbn. rewrite !app_nil_r. split; assumption.
  - destruct op as [a| | |x|x].
    + apply IH; assumption.
    + apply IH; assumption.
    + apply IH; assumption.
    + assert (Hs : openMeteoSamples (RecordOpenMeteoLatency x :: ops)
                   = [x] ++ openMeteoSamples ops) by reflexivity.
      assert (Hb : backendSamples (RecordOpenMeteoLatency x :: ops)
                   = backendSamples ops) by reflexivity.
      rewrite Hs, Hb, app_assoc. apply IH; [|exact HB].
      cbn [step recordOpenMeteoLatency openMeteoLatencies]. rewrite HO.
      apply push_shift_keepLast.
    + assert (Hs : backendSamples (RecordBackendLatency x :: ops)
                   = [x] ++ backendSamples ops) by reflexivity.
      assert (Ho : openMeteoSamples (RecordBackendLatency x :: ops)
                   = openMeteoSamples ops) by reflexivity.
      rewrite Hs, Ho, app_assoc. apply IH; [exact HO|].
      cbn [step recordBackendLatency backendLatencies]. rewrite HB.
      apply push_shift_keepLast.
Qed.

(** A ratio rounded to two decimals, ties upwards: what "rounded to 2
    decimals" asks of the success rate. *)
Definition rounded2 (q : Q) : Q := (inject_Z (Math_round (q * 100)) / 100)%Q.

(** [rounded2 q] is a whole number of hundredths, nearest to [q]. *)
Lemma rounded2_nearest (q : Q) :
  (exists k : Z, rounded2 q == inject_Z k / 100)%Q
  /\ (q - (1 # 200) < rounded2 q)%Q /\ (rounded2 q <= q + (1 # 200))%Q.
Proof.
  unfold rounded2, Math_round.
  set (x := (q * 100 + (1 # 2))%Q).
  pose proof (Qfloor_le x) as Hle. pose proof (Qlt_floor x) as Hlt.
  rewrite inject_Z_plus in Hlt. change (inject_Z 1) with 1%Q in Hlt.
  subst x. set (k := inject_Z (Qfloor (q * 100 + (1 # 2)))) in *.
  split; [exists (Qfloor (q * 100 + (1 # 2))); reflexivity|].
  split.
  - apply Qlt_shift_div_l; [reflexivity|]. lra.
  - apply Qle_shift_div_r; [reflexivity|]. lra.
Qed.

(** The rate that [getMetrics] reports for [s] successes among [n]
    outcomes: the double [Math.round(s / n * 100) / 100]. *)
Definition reportedRate (s n : nat) : PrimFloat.float :=
  PrimFloat.div
    (Math_round_number
       (PrimFloat.mul (PrimFloat.div (Number (Z.of_nat s)) (Number (Z.of_nat n)))
                      (Number 100)))
    (Number 100).

(** The double nearest to [k] hundredths, as [k / 100] gives it. *)
Definition hundredths (k : Z) : PrimFloat.float :=
  PrimFloat.div (Number k) (Number 100).

Lemma calculateLatencyStats_count (latencies : list Q) :
  count (calculateLatencyStats latencies) = length latencies.
Proof. destruct latencies; reflexivity. Qed.

(** Two successes and a failure; then 150 latency samples 100, 101, ... *)
Definition twoOfThree : list Op :=
  [RecordSMSSuccess; RecordSMSFailure; RecordSMSSuccess].
Definition manySamples : list Op :=
  map (fun i => RecordOpenMeteoLatency (ofNat (100 + i))) (seq 0 150).

(** 23 successes and 17 failures. *)
Definition twentyThreeOfForty : list Op :=
  repeat RecordSMSSuccess 23 ++ repeat RecordSMSFailure 17.

(** The cases of the unit tests of the service. *)
Example four_of_five :
  successRate (sms (getMetrics 0
     (run [RecordSMSSuccess; RecordSMSSuccess; RecordSMSSuccess;
           RecordSMSSuccess; RecordSMSFailure] (new 0))))
  = hundredths 80.
Proof. vm_compute. reflexivity. Qed.

Example two_of_three :
  successRate (sms (getMetrics 0 (run twoOfThree (new 0)))) = hundredths 67.
Proof. vm_compute. reflexivity. Qed.

Example recorded_latencies :
  let m := getMetrics 0
             (run [RecordOpenMeteoLatency 100; RecordOpenMeteoLatency 200;
                   RecordOpenMeteoLatency 150; RecordBackendLatency 50;
                   RecordBackendLatency 75] (new 0)) in
  count (openmeteo (apiLatency m)) = 3%nat
  /\ (averageLatency (openmeteo (apiLatency m)) == 150)%Q
  /\ minLatency (openmeteo (apiLatency m)) = 100
  /\ maxLatency (openmeteo (apiLatency m)) = 200
  /\ count (backend (apiLatency m)) = 2%nat
  /\ (averageLatency (backend (apiLatency m)) == 125 # 2)%Q
  /\ minLatency (backend (apiLatency m)) = 50
  /\ maxLatency (backend (apiLatency m)) = 75.
Proof. repeat split. Qed.

Example recorded_alerts :
  let m := getMetrics 0
             (run [RecordAlert "HIGH_TEMPERATURE"; RecordAlert "HIGH_TEMPERATURE";
                   RecordAlert "LOW_TEMPERATURE"]
                  (new 0)) in
  alerts m !! "HIGH_TEMPERATURE" = Some 2%nat
  /\ alerts m !! "LOW_TEMPERATURE" = Some 1%nat
  /\ alerts m !! "HEAVY_RAIN" = Some 0%nat
  /\ alerts m !! "STRONG_WIND" = Some 0%nat.
Proof. repeat split. Qed.

Example last_hundred_of_150 :
  let m := getMetrics 0 (run manySamples (new 0)) in
  count (openmeteo (apiLatency m)) = 100%nat
  /\ minLatency (openmeteo (apiLatency m)) = 150
  /\ maxLatency (openmeteo (apiLatency m)) = 249.
Proof. vm_compute. repeat split. Qed.

(** What holds after any sequence of recordings: [getMetrics] reports the
    numbers of successes and failures; the success rate is a function of
    these two numbers alone, and the double 0 when nothing was recorded;
    each latency window holds the last 100 samples recorded for its API, so
    its [count] never exceeds 100. *)
Lemma getMetrics_after_ops (t0 now : Z) (ops : list Op) :
  let this := run ops (new t0) in
  let m := getMetrics now this in
  let s := successes ops in
  let f := failures ops in
  sent (sms m) = s /\ failed (sms m) = f
  /\ ((0 < s + f)%nat -> successRate (sms m) = reportedRate s (s + f))
  /\ ((s + f = 0)%nat -> successRate (sms m) = hundredths 0)
  /\ openMeteoLatencies this = keepLast 100 (openMeteoSamples ops)
  /\ backendLatencies this = keepLast 100 (backendSamples ops)
  /\ count (openmeteo (apiLatency m))
     = Nat.min 100 (length (openMeteoSamples ops))
  /\ count (backend (apiLatency m))
     = Nat.min 100 (length (backendSamples ops)).
Proof.
  intros this m s f.
  destruct (run_counters ops (new t0)) as [Hs Hf].
  destruct (run_windows ops (new t0) [] [] eq_refl eq_refl) as [HO HB].
  cbn [smsSent smsFailed new Nat.add app] in Hs, Hf, HO, HB.
  fold this in Hs, Hf, HO, HB. fold s in Hs. fold f in Hf.
  split; [exact Hs|]. split; [exact Hf|]. split; [|split; [|split; [|split; [|split]]]].
  - intros Hpos. subst m. unfold getMetrics, reportedRate.
    cbn [sms successRate]. rewrite Hs, Hf.
    destruct (Nat.ltb_spec 0 (s + f)) as [_|Hno]; [reflexivity|lia].
  - intros Hzero. subst m. unfold getMetrics. cbn [sms successRate].
    rewrite Hs, Hf, Hzero. vm_compute. reflexivity.
  - exact HO.
  - exact HB.
  - subst m. cbn [getMetrics apiLatency openmeteo].
    rewrite calculateLatencyStats_count. fold this. rewrite HO.
    apply keepLast_length.
  - subst m. cbn [getMetrics apiLatency backend].
    rewrite calculateLatencyStats_count. fold this. rewrite HB.
    apply keepLast_length.
Qed.

(** C8: the claim fails at 23 successes and 17 failures. The ratio is
    23 / 40 = 0.575, which rounded to two decimals is 0.58; [getMetrics]
    reports the double 0.57: in doubles [23 / 40 * 100] is
    57.49999999999999, below the tie, and [Math.round] takes it to 57. *)
Theorem successRate_at_23_of_40 :
  let m := getMetrics 0 (run twentyThreeOfForty (new 0)) in
  let product :=
    PrimFloat.mul (PrimFloat.div (Number 23) (Number 40)) (Number 100) in
  sent (sms m) = 23%nat /\ failed (sms m) = 17%nat
  /\ (valueOf product < 115 # 2)%Q
  /\ Math_round_number product = Number 57
  /\ successRate (sms m) = hundredths 57
  /\ (rounded2 (23 # 40) == 58 # 100)%Q
  /\ (valueOf (hundredths 57) < valueOf (hundredths 58))%Q.
Proof. vm_compute. repeat split. Qed.

End MetricsServiceFacts.

(** ** AlertHistoryService: falsy filters *)

Module AlertHistoryServiceFacts.
Import AlertHistoryService.

(** The same filters with one of them left out. *)
Definition withoutGardenId (f : AlertHistoryFilters) : AlertHistoryFilters :=
  {| gardenId := None; userId := userId f; alertType := alertType f;
     startDate := startDate f; endDate := endDate f |}.
Definition withoutUserId (f : AlertHistoryFilters) : AlertHistoryFilters :=
  {| gardenId := gardenId f; userId := None; alertType := alertType f;
     startDate := startDate f; endDate := endDate f |}.
Definition withoutAlertType (f : AlertHistoryFilters) : AlertHistoryFilters :=
  {| gardenId := gardenId f; userId := userId f; alertType := None;
     startDate := startDate f; endDate := endDate f |}.

Lemma getAlertHistory_query this f g limit :
  buildQuery f = buildQuery g ->
  getAlertHistory this f limit = getAlertHistory this g limit.
Proof. intros Hq. unfold getAlertHistory. rewrite Hq. reflexivity. Qed.

(** *** Fixtures: a connected service over three stored alerts *)

Definition stored (id : string) (user : Z) (garden : string) (time : Z)
    (type : AlertType) : AlertDocument :=
  {| alert := Alert.mk id garden user "G" time type "temperature" 36 35
                ["tomato"] ["T1"];
     createdAt := time |}.

Definition docs : list AlertDocument :=
  [stored "a1" 5 "g5" 100 HIGH_TEMPERATURE;
   stored "a2" 7 "g7" 300 STRONG_WIND;
   stored "a3" 5 "g5" 200 HEAVY_RAIN].

Definition connected : t :=
  {| collection := Some (memoryCollection docs); isConnected := true |}.

Definition onlyUser (u : Z) : AlertHistoryFilters :=
  {| gardenId := None; userId := Some u; alertType := None;
     startDate := None; endDate := None |}.

Example history_of_user_5 :
  map (fun d => Alert.alertId (alert d)) (getAlertHistory connected (onlyUser 5) 100)
  = ["a3"; "a1"].
Proof. reflexivity. Qed.

(** C10: a [userId] filter of 0, and an empty [gardenId] or [alertType]
    filter, put no condition in the query; the history returned is the one
    returned without that filter. *)
Theorem falsy_filters_are_absent (this : t) (filters : AlertHistoryFilters)
    (limit : Z) :
  (userId filters = Some 0 ->
   q_userId (buildQuery filters) = None
   /\ getAlertHistory this filters limit
      = getAlertHistory this (withoutUserId filters) limit)
  /\ (gardenId filters = Some "" ->
      q_gardenId (buildQuery filters) = None
      /\ getAlertHistory this filters limit
         = getAlertHistory this (withoutGardenId filters) limit)
  /\ (alertType filters = Some "" ->
      q_alertType (buildQuery filters) = None
      /\ getAlertHistory this filters limit
         = getAlertHistory this (withoutAlertType filters) limit).
Proof.
  split; [|split]; intros Hfalsy; (split; [|apply getAlertHistory_query]);
    unfold buildQuery, withoutUserId, withoutGardenId, withoutAlertType;
    cbn [q_userId q_gardenId q_alertType gardenId userId alertType startDate
         endDate];
    rewrite Hfalsy; reflexivity.
Qed.

Lemma falsy_filters_are_absent_witness :
  q_userId (buildQuery (onlyUser 0)) = None
  /\ map (fun d => (Alert.alertId (alert d), Alert.userId (alert d)))
         (getAlertHistory connected (onlyUser 0) 100)
     = [("a2", 7); ("a3", 5); ("a1", 5)].
Proof.
  destruct (falsy_filters_are_absent connected (onlyUser 0) 100)
    as (Huser & _ & _).
  destruct (Huser eq_refl) as [Hq Hsame].
  split; [exact Hq|]. rewrite Hsame. reflexivity.
Defined.

End AlertHistoryServiceFacts.


(** * Further properties

    ** PlantsService: the retry loop in general, the success path, latency *)

Module PlantsServiceMore.
Import PlantsService PlantsServiceFacts.

(** The latencies handed to the [recordLatency] callback, in order. *)
Definition latencies (evs : list Event) : list Z :=
  omap (fun e => match e with LatencyRecorded ms => Some ms | _ => None end) evs.

(** The number of requests among the events. *)
Definition fetches (evs : list Event) : nat :=
  length (List.filter (fun e => match e with Fetched _ => true | _ => false end)
                      evs).

Section Retry.
Context {T : Type}.
Variable backend : string -> nat -> Exchange T.

(** What a run of the loop does from attempt [attempt] on when every attempt
    fails: a request, then the backoff wait unless the attempt is the last. *)
Fixpoint failTrace (url : string) (maxRetries attempt left : nat) : list Event :=
  match left with
  | O => []
  | S left' =>
      Fetched url
        :: (if (attempt <? maxRetries - 1)%nat
            then [Slept (2 ^ Z.of_nat attempt * 1000)] else [])
        ++ failTrace url maxRetries (S attempt) left'
  end.

(** The system after a failed attempt: the request, then the backoff wait
    unless the attempt is the last one. *)
Definition afterFailure (url : string) (maxRetries attempt : nat) (s : Sys)
  : Sys :=
  if (attempt <? maxRetries - 1)%nat
  then afterSleep (2 ^ Z.of_nat attempt * 1000) (afterFetch backend url s)
  else afterFetch backend url s.

Lemma retryLoop_failure left url maxRetries attempt lastError s e :
  (attempt < maxRetries)%nat ->
  attemptResult (backend url (requests s)) = Throw e ->
  retryLoop backend (S left) url maxRetries attempt lastError s
  = retryLoop backend left url maxRetries (S attempt) (Some e)
      (afterFailure url maxRetries attempt s).
Proof.
  intros Hlt He. cbn [retryLoop].
  destruct (Nat.ltb_spec attempt maxRetries) as [_|Hge]; [|lia].
  unfold try_catch. rewrite attemptOnce_run, He. unfold bind, afterFailure.
  destruct (attempt <? maxRetries - 1)%nat; reflexivity.
Qed.

Lemma retryLoop_success left url maxRetries attempt lastError s v :
  (attempt < maxRetries)%nat ->
  attemptResult (backend url (requests s)) = Return v ->
  retryLoop backend (S left) url maxRetries attempt lastError s
  = (Return v, afterFetch backend url s).
Proof.
  intros Hlt Hv. cbn [retryLoop].
  destruct (Nat.ltb_spec attempt maxRetries) as [_|Hge]; [|lia].
  unfold try_catch. rewrite attemptOnce_run, Hv. reflexivity.
Qed.

Lemma afterFailure_fields url maxRetries attempt s :
  requests (afterFailure url maxRetries attempt s) = S (requests s)
  /\ service (afterFailure url maxRetries attempt s) = service s
  /\ events (afterFailure url maxRetries attempt s)
     = events s ++ Fetched url
         :: (if (attempt <? maxRetries - 1)%nat
             then [Slept (2 ^ Z.of_nat attempt * 1000)] else []).
Proof.
  unfold afterFailure. destruct (attempt <? maxRetries - 1)%nat; cbn;
    rewrite <- ?app_assoc; repeat split.
Qed.

Lemma retryLoop_all_failed url maxRetries :
  forall left attempt lastError s,
    (attempt + left = maxRetries)%nat ->
    (forall k, (k < left)%nat -> failed (backend url (requests s + k)%nat)) ->
    let out := retryLoop backend left url maxRetries attempt lastError s in
    requests (snd out) = (requests s + left)%nat
    /\ events (snd out) = events s ++ failTrace url maxRetries attempt left
    /\ service (snd out) = service s
    /\ fst out
       = match left with
         | O => Throw (default (MkError "Failed to fetch after all retries")
                               lastError)
         | S m => attemptResult (backend url (requests s + m)%nat)
         end.
Proof.
  induction left as [|left IH]; intros attempt lastError s Hsum Hfail; cbn zeta.
  - cbn. rewrite Nat.add_0_r, app_nil_r. repeat split; reflexivity.
  - pose proof (Hfail 0%nat ltac:(lia)) as H0. rewrite Nat.add_0_r in H0.
    destruct (failed_throws _ H0) as [e0 He0].
    rewrite (retryLoop_failure left url maxRetries attempt lastError s e0)
      by (lia || exact He0).
    destruct (afterFailure_fields url maxRetries attempt s)
      as (Hreq & Hsvc & Hev).
    destruct (IH (S attempt) (Some e0) (afterFailure url maxRetries attempt s))
      as (IHreq & IHev & IHsvc & IHres); [lia| |].
    { intros k Hk. rewrite Hreq.
      replace (S (requests s) + k)%nat with (requests s + S k)%nat by lia.
      apply Hfail. lia. }
    rewrite IHreq, IHev, IHsvc, IHres, Hreq, Hsvc, Hev.
    repeat split.
    + lia.
    + cbn [failTrace]. rewrite <- app_assoc. reflexivity.
    + destruct left as [|m].
      * cbn. rewrite Nat.add_0_r. symmetry. exact He0.
      * f_equal. f_equal. lia.
Qed.

Lemma retryLoop_requests url maxRetries :
  forall left attempt lastError s,
    (requests (snd (retryLoop backend left url maxRetries attempt lastError s))
     <= requests s + left)%nat
    /\ service (snd (retryLoop backend left url maxRetries attempt lastError s))
       = service s.
Proof.
  induction left as [|left IH]; intros attempt lastError s.
  - cbn. split; [lia|reflexivity].
  - destruct (Nat.ltb_spec attempt maxRetries) as [Hlt|Hge].
    + destruct (attemptResult (backend url (requests s))) as [v|e] eqn:Hr.
      * rewrite (retryLoop_success left url maxRetries attempt lastError s v)
          by assumption.
        cbn. split; [lia|reflexivity].
      * rewrite (retryLoop_failure left url maxRetries attempt lastError s e)
          by assumption.
        destruct (afterFailure_fields url maxRetries attempt s)
          as (Hreq & Hsvc & _).
        destruct (IH (S attempt) (Some e)
                    (afterFailure url maxRetries attempt s)) as [Hle Hs].
        rewrite Hreq in Hle. rewrite Hsvc in Hs. split; [lia|exact Hs].
    + rewrite retryLoop_exit by lia. cbn. split; [lia|reflexivity].
Qed.

Lemma failTrace_waits url maxRetries :
  forall left attempt,
    (attempt + left = maxRetries)%nat ->
    waits (failTrace url maxRetries attempt left)
    = map (fun k => 2 ^ Z.of_nat k * 1000) (seq attempt (left - 1)).
Proof.
  induction left as [|left IH]; intros attempt Hsum; [reflexivity|].
  cbn [failTrace]. destruct (Nat.ltb_spec attempt (maxRetries - 1)) as [Hlt|Hge].
  - change (waits (Fetched url :: [Slept (2 ^ Z.of_nat attempt * 1000)]
                     ++ failTrace url maxRetries (S attempt) left))
      with (2 ^ Z.of_nat attempt * 1000
              :: waits (failTrace url maxRetries (S attempt) left)).
    rewrite IH by lia.
    replace (S left - 1)%nat with (S (left - 1)) by lia. reflexivity.
  - change (waits (Fetched url :: [] ++ failTrace url maxRetries (S attempt) left))
      with (waits (failTrace url maxRetries (S attempt) left)).
    rewrite IH by lia. replace left with 0%nat by lia. reflexivity.
Qed.

Lemma failTrace_fetches url maxRetries :
  forall left attempt, fetches (failTrace url maxRetries attempt left) = left.
Proof.
  induction left as [|left IH]; intros attempt; [reflexivity|].
  cbn [failTrace]. specialize (IH (S attempt)). unfold fetches in *.
  destruct (attempt <? maxRetries - 1)%nat; cbn; rewrite IH; reflexivity.
Qed.

End Retry.

(** X1. When every attempt fails, [fetchWithRetry(url, maxRetries)] with
    [maxRetries] between 1 and 23 makes exactly [maxRetries] requests,
    waits [2^k] seconds after the failed attempt [k] for every attempt but
    the last, leaves the service untouched and rethrows the error of the
    last attempt. Up to 23 attempts every wait is one that a timer holds,
    at most [2^31 - 1] milliseconds; a longer chain would ask for more,
    and is left out. *)
Theorem fetchWithRetry_exhausted {T} (backend : string -> nat -> Exchange T)
    (url : string) (maxRetries : nat) (s : Sys) :
  (0 < maxRetries <= 23)%nat ->
  (forall k, (k < maxRetries)%nat -> failed (backend url (requests s + k)%nat)) ->
  let out := fetchWithRetry backend url maxRetries s in
  (exists new,
     events (snd out) = events s ++ new
     /\ fetches new = maxRetries
     /\ waits new
        = map (fun k => 2 ^ Z.of_nat k * 1000) (seq 0 (maxRetries - 1))
     /\ Forall (fun ms => 1000 <= ms <= 2 ^ 31 - 1) (waits new))
  /\ requests (snd out) = (requests s + maxRetries)%nat
  /\ service (snd out) = service s
  /\ fst out = attemptResult (backend url (requests s + (maxRetries - 1))%nat)
  /\ exists e, fst out = Throw e.
Proof.
  intros [Hpos Hmax] Hfail out. subst out. unfold fetchWithRetry.
  destruct (retryLoop_all_failed backend url maxRetries maxRetries 0%nat None s
              eq_refl Hfail) as (Hreq & Hev & Hsvc & Hres).
  split; [|split; [exact Hreq|split; [exact Hsvc|]]].
  - exists (failTrace url maxRetries 0 maxRetries). split; [exact Hev|].
    split; [apply failTrace_fetches|].
    rewrite (failTrace_waits url maxRetries maxRetries 0%nat eq_refl).
    split; [reflexivity|].
    apply Forall_forall. intros ms Hin.
    apply list_elem_of_In, in_map_iff in Hin as (k & <- & Hk).
    apply in_seq in Hk.
    assert (H0 : 2 ^ 0 <= 2 ^ Z.of_nat k)
      by (apply Z.pow_le_mono_r; lia).
    assert (H21 : 2 ^ Z.of_nat k <= 2 ^ 21)
      by (apply Z.pow_le_mono_r; lia).
    change (2 ^ 0) with 1 in H0. change (2 ^ 21) with 2097152 in H21.
    change (2 ^ 31 - 1) with 2147483647. lia.
  - destruct maxRetries as [|m]; [lia|].
    replace (S m - 1)%nat with m by lia.
    split; [exact Hres|]. rewrite Hres. apply failed_throws, Hfail. lia.
Qed.

Lemma fetchWithRetry_exhausted_witness :
  let out := fetchWithRetry (T := User.t) down "http://backend/api/users/7" 5
               anHourLater in
  (exists new,
     events (snd out) = events anHourLater ++ new
     /\ fetches new = 5%nat
     /\ waits new = [1000; 2000; 4000; 8000])
  /\ fst out = Throw (MkError "ECONNREFUSED").
Proof.
  destruct (fetchWithRetry_exhausted (T := User.t) down
              "http://backend/api/users/7" 5 anHourLater)
    as ((new & Hev & Hfetches & Hwaits & _) & _ & _ & Hres & _);
    [lia | intros k _; exact I |].
  split; [|exact Hres]. exists new. auto.
Defined.

(** X2. Whatever the backend answers, [fetchWithRetry(url, maxRetries)] makes
    at most [maxRetries] requests and never touches the plant cache; with
    [maxRetries = 0] it makes none and throws "Failed to fetch after all
    retries". *)
Theorem fetchWithRetry_bounded {T} (backend : string -> nat -> Exchange T)
    (url : string) (maxRetries : nat) (s : Sys) :
  let out := fetchWithRetry backend url maxRetries s in
  (requests (snd out) <= requests s + maxRetries)%nat
  /\ service (snd out) = service s
  /\ (maxRetries = 0%nat ->
      out = (Throw (MkError "Failed to fetch after all retries"), s)).
Proof.
  intros out. subst out. unfold fetchWithRetry.
  destruct (retryLoop_requests backend url maxRetries maxRetries 0%nat None s)
    as [Hle Hsvc].
  split; [exact Hle|]. split; [exact Hsvc|]. intros ->. reflexivity.
Qed.

(** *** The two fetch operations, in closed form *)

(** The system after [setCachedPlants] was run on it. *)
Definition afterStore (userId : Z) (ps : list Plant.t) (s : Sys) : Sys :=
  {| clock := clock s; requests := requests s; events := events s;
     service := setCachedPlants (clock s) (service s) userId ps |}.

Definition plantsUrl (s : Sys) (userId : Z) : string :=
  backendUrl (service s) +:+ "/api/plants?userId=" +:+ pretty userId.
Definition userUrl (s : Sys) (userId : Z) : string :=
  backendUrl (service s) +:+ "/api/users/" +:+ pretty userId.

Lemma fetchUserPlants_run
    (backend : string -> nat -> Exchange (list Plant.t))
    (userId : Z) (recordLatency : bool) (s : Sys) :
  fetchUserPlants backend userId recordLatency s
  = let tried := fetchWithRetry backend (plantsUrl s userId) 3 s in
    let s' := afterRecord recordLatency (clock (snd tried) - clock s)
                (snd tried) in
    match fst tried with
    | Return ps => (Return ps, afterStore userId ps s')
    | Throw _ =>
        (match getCachedPlants (clock s') (service s') userId with
         | Some ps => Return ps
         | None => Throw (MkError ("Failed to fetch plants for user "
                                     +:+ pretty userId
                                     +:+ " and no cache available"))
         end, s')
    end.
Proof.
  unfold fetchUserPlants, plantsUrl. cbv zeta.
  unfold bind at 1. unfold Date_now at 1. unfold try_catch at 1.
  unfold bind at 1.
  destruct (fetchWithRetry backend _ 3 s) as [[ps|e] sk]; cbn [fst snd].
  - unfold bind at 1. unfold Date_now at 1. unfold bind at 1.
    rewrite record_run. reflexivity.
  - unfold bind at 1. unfold Date_now at 1. unfold bind at 1.
    rewrite record_run. unfold bind at 1. unfold getCached at 1.
    destruct (getCachedPlants _ _ userId); reflexivity.
Qed.

Lemma fetchUser_run
    (backend : string -> nat -> Exchange User.t)
    (userId : Z) (recordLatency : bool) (s : Sys) :
  fetchUser backend userId recordLatency s
  = let tried := fetchWithRetry backend (userUrl s userId) 3 s in
    (fst tried,
     afterRecord recordLatency (clock (snd tried) - clock s) (snd tried)).
Proof.
  unfold fetchUser, userUrl. cbv zeta.
  unfold bind at 1. unfold Date_now at 1. unfold try_catch at 1.
  unfold bind at 1.
  destruct (fetchWithRetry backend _ 3 s) as [[u|e] sk]; cbn [fst snd];
    unfold bind at 1; unfold Date_now at 1; unfold bind at 1;
    rewrite record_run; reflexivity.
Qed.

Lemma afterRecord_fields recordLatency latency s :
  clock (afterRecord recordLatency latency s) = clock s
  /\ requests (afterRecord recordLatency latency s) = requests s
  /\ service (afterRecord recordLatency latency s) = service s
  /\ events (afterRecord recordLatency latency s)
     = events s ++ (if recordLatency then [LatencyRecorded latency] else []).
Proof.
  unfold afterRecord. destruct recordLatency; cbn; rewrite ?app_nil_r;
    repeat split.
Qed.

(** The retry helper itself reports no latency. *)
Lemma fetchWithRetry_latencies {T} (backend : string -> nat -> Exchange T)
    (url : string) (s : Sys) :
  latencies (events (snd (fetchWithRetry backend url 3 s)))
  = latencies (events s).
Proof.
  rewrite fetchWithRetry_trace.
  destruct (attemptResult (backend url (requests s)));
    [|destruct (attemptResult (backend url (S (requests s))))];
    cbn [snd]; rewrite ?events_after1, ?events_after2, ?events_after3;
    unfold latencies; rewrite omap_app; cbn; apply app_nil_r.
Qed.

(** One of the first three exchanges answers with [v], the ones before it
    having failed. *)
Definition answered {T} (backend : string -> nat -> Exchange T) (url : string)
    (s : Sys) (v : T) : Prop :=
  succeeded (backend url (requests s)) v
  \/ (failed (backend url (requests s))
      /\ succeeded (backend url (S (requests s))) v)
  \/ (failed (backend url (requests s))
      /\ failed (backend url (S (requests s)))
      /\ succeeded (backend url (S (S (requests s)))) v).

Lemma answered_returns {T} (backend : string -> nat -> Exchange T) url s v :
  answered backend url s v -> fst (fetchWithRetry backend url 3 s) = Return v.
Proof.
  rewrite fetchWithRetry_trace.
  intros [H0|[[H0 H1]|(H0 & H1 & H2)]].
  - rewrite (succeeded_returns _ _ H0). reflexivity.
  - destruct (failed_throws _ H0) as [e0 ->].
    rewrite (succeeded_returns _ _ H1). reflexivity.
  - destruct (failed_throws _ H0) as [e0 ->].
    destruct (failed_throws _ H1) as [e1 ->].
    exact (succeeded_returns _ _ H2).
Qed.

(** X3. When one of the three attempts of [fetchUserPlants] succeeds, the
    plants it got are returned and stored in the cache under the user, stamped
    with the time of the write; the entries of the other users are untouched,
    and a read within 24 hours of that time gives the same plants back. *)
Theorem fetchUserPlants_caches_result
    (backend : string -> nat -> Exchange (list Plant.t))
    (userId : Z) (recordLatency : bool) (s : Sys) (ps : list Plant.t) :
  answered backend (plantsUrl s userId) s ps ->
  let out := fetchUserPlants backend userId recordLatency s in
  fst out = Return ps
  /\ cache (service (snd out)) !! userId
     = Some {| plants := ps; timestamp := clock (snd out);
               lastUpdated := clock (snd out) |}
  /\ (forall u, u <> userId ->
        cache (service (snd out)) !! u = cache (service s) !! u)
  /\ (forall now, now - clock (snd out) <= cacheTTL ->
        getCachedPlants now (service (snd out)) userId = Some ps).
Proof.
  intros Hans out. subst out. rewrite fetchUserPlants_run. cbv zeta.
  rewrite (answered_returns _ _ _ _ Hans). cbn [fst snd].
  set (sk := snd (fetchWithRetry backend (plantsUrl s userId) 3 s)).
  destruct (afterRecord_fields recordLatency (clock sk - clock s) sk)
    as (Hclock & _ & Hsvc & _).
  assert (Hsame : service sk = service s).
  { apply (fetchWithRetry_bounded backend (plantsUrl s userId) 3 s). }
  unfold afterStore. cbn [service clock cache setCachedPlants].
  rewrite Hsvc, Hsame. repeat split.
  - apply lookup_insert_eq.
  - intros u Hu. apply lookup_insert_ne. congruence.
  - intros now Hfresh. unfold getCachedPlants, setCachedPlants. cbn [cache].
    rewrite lookup_insert_eq. cbn [lastUpdated plants].
    destruct (Z.gtb_spec (now - clock (afterRecord recordLatency
                                         (clock sk - clock s) sk)) cacheTTL);
      [lia|reflexivity].
Qed.

Lemma fetchUserPlants_caches_result_witness :
  let out := fetchUserPlants flaky 7 true aDayLater in
  fst out = Return [rosa]
  /\ getCachedPlants (clock (snd out) + 86400000) (service (snd out)) 7
     = Some [rosa].
Proof.
  destruct (fetchUserPlants_caches_result flaky 7 true aDayLater [rosa])
    as (Hres & _ & _ & Hread).
  - right. right. split; [|split]; cbn; auto.
  - split; [exact Hres|]. apply Hread. unfold cacheTTL. lia.
Defined.

(** X4. For a backend that answers with arrays of plants, a call of
    [fetchUserPlants] with a callback hands it the latency of the whole
    chain of attempts exactly once: when one of the three attempts gives
    an array of plants, which the call then returns, and when all three
    fail. [fetchUser] hands its callback the latency exactly once in every
    case. The latency is the time that went by since the call started;
    without a callback nothing is reported. *)
Theorem latency_reported_once
    (plantsBackend : string -> nat -> Exchange (list Plant.t))
    (usersBackend : string -> nat -> Exchange User.t)
    (userId : Z) (recordLatency : bool) (s : Sys) :
  let reported (s' : Sys) :=
    latencies (events s)
      ++ (if recordLatency then [clock s' - clock s] else []) in
  let url := plantsUrl s userId in
  let outP := fetchUserPlants plantsBackend userId recordLatency s in
  let outU := fetchUser usersBackend userId recordLatency s in
  (forall ps : list Plant.t,
      answered plantsBackend url s ps ->
      fst outP = Return ps
      /\ latencies (events (snd outP)) = reported (snd outP))
  /\ (failed (plantsBackend url (requests s)) ->
      failed (plantsBackend url (S (requests s))) ->
      failed (plantsBackend url (S (S (requests s)))) ->
      (exists e, fst (fetchWithRetry plantsBackend url 3 s) = Throw e)
      /\ latencies (events (snd outP)) = reported (snd outP))
  /\ latencies (events (snd outU)) = reported (snd outU).
Proof.
  intros reported url outP outU. subst reported url outP outU. cbv beta.
  assert (HP : latencies
                 (events (snd (fetchUserPlants plantsBackend userId
                                 recordLatency s)))
               = latencies (events s)
                   ++ (if recordLatency
                       then [clock (snd (fetchUserPlants plantsBackend userId
                                           recordLatency s)) - clock s]
                       else [])).
  { rewrite fetchUserPlants_run. cbv zeta.
    set (tried := fetchWithRetry plantsBackend (plantsUrl s userId) 3 s).
    destruct (afterRecord_fields recordLatency (clock (snd tried) - clock s)
                (snd tried)) as (Hclock & _ & _ & Hev).
    assert (Hlat : latencies (events (snd tried)) = latencies (events s))
      by apply fetchWithRetry_latencies.
    destruct (fst tried) as [ps|e]; cbn [snd afterStore events clock];
      rewrite Hev, Hclock; unfold latencies in *; rewrite omap_app, Hlat;
      destruct recordLatency; reflexivity. }
  split; [|split].
  - intros ps Hans. split; [|exact HP].
    rewrite fetchUserPlants_run. cbv zeta.
    rewrite (answered_returns _ _ _ _ Hans). reflexivity.
  - intros H0 H1 H2. split; [|exact HP].
    rewrite fetchWithRetry_trace.
    destruct (failed_throws _ H0) as [e0 ->].
    destruct (failed_throws _ H1) as [e1 ->].
    destruct (failed_throws _ H2) as [e2 ->]. eauto.
  - rewrite fetchUser_run. cbv zeta.
    set (tried := fetchWithRetry usersBackend (userUrl s userId) 3 s).
    destruct (afterRecord_fields recordLatency (clock (snd tried) - clock s)
                (snd tried)) as (Hclock & _ & _ & Hev).
    assert (Hlat : latencies (events (snd tried)) = latencies (events s))
      by apply fetchWithRetry_latencies.
    cbn [snd]. rewrite Hev, Hclock. unfold latencies in *.
    rewrite omap_app, Hlat. destruct recordLatency; reflexivity.
Qed.

Lemma latency_reported_once_witness :
  fst (fetchUserPlants flaky 7 true aDayLater) = Return [rosa]
  /\ latencies (events (snd (fetchUserPlants flaky 7 true aDayLater)))
     = [3030]
  /\ latencies (events (snd (fetchUserPlants down 7 true anHourLater)))
     = [3030].
Proof.
  destruct (latency_reported_once flaky (down (T := User.t)) 7 true aDayLater)
    as (Hok & _ & _).
  destruct (latency_reported_once down (down (T := User.t)) 7 true anHourLater)
    as (_ & Hdown & _).
  destruct (Hok [rosa]) as [Hres Hlat].
  - right. right. split; [|split]; cbn; auto.
  - destruct Hdown as [_ Hlat']; [exact I | exact I | exact I |].
    split; [exact Hres|]. split.
    + rewrite Hlat. reflexivity.
    + rewrite Hlat'. reflexivity.
Defined.

(** X5. [fetchUser] completes as the retry helper does: it returns the user
    of the first attempt that succeeds and, when all three attempts fail,
    rethrows the error of the last one; unlike [fetchUserPlants] it has no
    fallback, and it never changes the plant cache. *)
Theorem fetchUser_no_fallback
    (backend : string -> nat -> Exchange User.t)
    (userId : Z) (recordLatency : bool) (s : Sys) :
  let url := userUrl s userId in
  let out := fetchUser backend userId recordLatency s in
  service (snd out) = service s
  /\ (forall user, answered backend url s user -> fst out = Return user)
  /\ (failed (backend url (requests s)) ->
      failed (backend url (S (requests s))) ->
      failed (backend url (S (S (requests s)))) ->
      exists e, fst out = Throw e
                /\ attemptResult (backend url (S (S (requests s)))) = Throw e).
Proof.
  intros url out. subst url out. rewrite fetchUser_run. cbv zeta. cbn [fst snd].
  split; [|split].
  - destruct (afterRecord_fields recordLatency
                (clock (snd (fetchWithRetry backend (userUrl s userId) 3 s))
                 - clock s)
                (snd (fetchWithRetry backend (userUrl s userId) 3 s)))
      as (_ & _ & -> & _).
    apply (fetchWithRetry_bounded backend (userUrl s userId) 3 s).
  - intros user Hans. exact (answered_returns _ _ _ _ Hans).
  - intros H0 H1 H2. rewrite fetchWithRetry_trace.
    destruct (failed_throws _ H0) as [e0 ->].
    destruct (failed_throws _ H1) as [e1 ->].
    destruct (failed_throws _ H2) as [e2 He2].
    exists e2. cbn [fst]. split; exact He2.
Qed.

Lemma fetchUser_no_fallback_witness :
  exists e, fst (fetchUser down 7 true anHourLater) = Throw e
            /\ e = MkError "ECONNREFUSED".
Proof.
  destruct (fetchUser_no_fallback down 7 true anHourLater)
    as (_ & _ & Hfail).
  destruct (Hfail I I I) as (e & He & Hlast).
  exists e. split; [exact He|]. cbn in Hlast. congruence.
Defined.

(** X6. Cache entries are kept per user: writing the plants of one user
    changes no read for another user, a second write for the same user
    replaces the first, and a user never written is read as [null]. *)
Theorem cache_entries_per_user (this : t) (u u' : Z) (ps ps' : list Plant.t)
    (t0 t1 now : Z) :
  (u <> u' ->
   getCachedPlants now (setCachedPlants t0 this u ps) u'
   = getCachedPlants now this u')
  /\ getCachedPlants now (setCachedPlants t1 (setCachedPlants t0 this u ps) u ps') u
     = getCachedPlants now (setCachedPlants t1 this u ps') u
  /\ getCachedPlants now (new (backendUrl this)) u = None.
Proof.
  unfold getCachedPlants, setCachedPlants. cbn [cache]. repeat split.
  - intros Hne. rewrite lookup_insert_ne by exact Hne. reflexivity.
  - rewrite !lookup_insert_eq. reflexivity.
Qed.

Lemma cache_entries_per_user_witness :
  getCachedPlants 1000 (setCachedPlants 500 primed 8 []) 7 = Some [rosa].
Proof.
  destruct (cache_entries_per_user primed 8 7 [] [] 500 0 1000) as (Hframe & _).
  rewrite Hframe; [reflexivity | discriminate].
Defined.

(** X7. Expiry is permanent and reads agree: if [getCachedPlants] gives
    [null] at some time, it gives [null] at every later time as long as
    nothing is written; and two reads that both give plants give the same
    plants. *)
Theorem expiry_is_permanent (this : t) (u : Z) (t1 t2 : Z) :
  t1 <= t2 ->
  (getCachedPlants t1 this u = None -> getCachedPlants t2 this u = None)
  /\ (forall ps1 ps2,
        getCachedPlants t1 this u = Some ps1 ->
        getCachedPlants t2 this u = Some ps2 -> ps1 = ps2)
  /\ (forall ps, getCachedPlants t2 this u = Some ps ->
                 getCachedPlants t1 this u = Some ps).
Proof.
  intros Hle. unfold getCachedPlants.
  destruct (cache this !! u) as [entry|]; [|repeat split; congruence].
  cbv zeta.
  destruct (Z.gtb_spec (t1 - lastUpdated entry) cacheTTL);
    destruct (Z.gtb_spec (t2 - lastUpdated entry) cacheTTL);
    repeat split; try congruence; lia.
Qed.

Lemma expiry_is_permanent_witness :
  getCachedPlants 86400001 primed 7 = None
  /\ getCachedPlants 99999999 primed 7 = None.
Proof.
  assert (H1 : getCachedPlants 86400001 primed 7 = None) by reflexivity.
  split; [exact H1|].
  apply (expiry_is_permanent primed 7 86400001 99999999); [lia | exact H1].
Defined.

End PlantsServiceMore.


(** ** WeatherService: no throw, defaults, latency *)

Module WeatherServiceFacts.
Import PlantsService PlantsServiceFacts PlantsServiceMore WeatherService.

Section Fetch.
Variable provider : string -> nat -> Exchange (option Forecast).
Variable buildWeatherUrl : Q -> Q -> string.

(** What [fetchWeather] resolves to, read off the exchange it meets. *)
Definition resolved (now : Z) (x : Exchange (option Forecast))
  : option WeatherData.t :=
  match outcome x with
  | Rejected _ => None
  | Responded r =>
      if ok r then
        match json r with
        | Return (Some forecast) => Some (parseWeatherResponse now forecast)
        | _ => None
        end
      else None
  end.

(** The body could not be used: [json()] rejected, or gave [null]. *)
Definition unusableBody (x : Exchange (option Forecast)) : bool :=
  match outcome x with
  | Rejected _ => false
  | Responded r =>
      ok r && match json r with
              | Return (Some _) => false
              | _ => true
              end
  end.

Lemma fetchWeather_run latitude longitude recordLatency s :
  let x := provider (buildWeatherUrl latitude longitude) (requests s) in
  let s1 := afterFetch provider (buildWeatherUrl latitude longitude) s in
  let s2 := afterRecord recordLatency (elapsed x) s1 in
  fetchWeather provider buildWeatherUrl latitude longitude recordLatency s
  = (Return (resolved (clock s + elapsed x) x),
     if unusableBody x then afterRecord recordLatency (elapsed x) s2 else s2).
Proof.
  cbv zeta. unfold fetchWeather, resolved, unusableBody.
  unfold bind at 1. unfold Date_now at 1. unfold try_catch.
  unfold bind at 1. unfold fetch.
  destruct (outcome (provider _ (requests s))) as [e|r] eqn:Hout.
  - unfold bind at 1. unfold Date_now at 1. unfold bind at 1.
    rewrite record_run. cbn [clock]. unfold ret.
    replace (clock s + elapsed (provider (buildWeatherUrl latitude longitude)
                                  (requests s)) - clock s)
      with (elapsed (provider (buildWeatherUrl latitude longitude)
                       (requests s))) by lia.
    reflexivity.
  - unfold bind at 1. unfold Date_now at 1. unfold bind at 1.
    rewrite record_run. cbn [clock].
    replace (clock s + elapsed (provider (buildWeatherUrl latitude longitude)
                                  (requests s)) - clock s)
      with (elapsed (provider (buildWeatherUrl latitude longitude)
                       (requests s))) by lia.
    fold (afterFetch provider (buildWeatherUrl latitude longitude) s).
    set (s1 := afterFetch provider (buildWeatherUrl latitude longitude) s).
    set (l := elapsed (provider (buildWeatherUrl latitude longitude) (requests s))).
    assert (Hclock : clock (afterRecord recordLatency l s1) = clock s + l).
    { destruct (afterRecord_fields recordLatency l s1) as (-> & _).
      reflexivity. }
    destruct (ok r); cbn [negb andb]; [|reflexivity].
    unfold bind at 1.
    destruct (json r) as [[forecast|]|e].
    + unfold bind at 1. unfold Date_now at 1. unfold ret.
      rewrite Hclock. reflexivity.
    + unfold throw. unfold bind at 1. unfold Date_now at 1. unfold bind at 1.
      rewrite record_run, Hclock. unfold ret.
      replace (clock s + l - clock s) with l by lia. reflexivity.
    + unfold bind at 1. unfold Date_now at 1. unfold bind at 1.
      rewrite record_run, Hclock. unfold ret.
      replace (clock s + l - clock s) with l by lia. reflexivity.
Qed.

(** X8. [fetchWeather] never throws. It makes one request and resolves to
    [null] when the request is rejected, when the status is outside 200-299
    and when the body cannot be read or is [null]; otherwise it resolves to
    the parsed body, stamped with the time of the answer. The plant cache is
    not touched. *)
Theorem fetchWeather_never_throws (latitude longitude : Q)
    (recordLatency : bool) (s : Sys) :
  let x := provider (buildWeatherUrl latitude longitude) (requests s) in
  let out :=
    fetchWeather provider buildWeatherUrl latitude longitude recordLatency s in
  (exists w, fst out = Return w)
  /\ requests (snd out) = S (requests s)
  /\ service (snd out) = service s
  /\ (forall e, outcome x = Rejected e -> fst out = Return None)
  /\ (forall r, outcome x = Responded r -> ok r = false ->
        fst out = Return None)
  /\ (forall r e, outcome x = Responded r -> json r = Throw e ->
        fst out = Return None)
  /\ (forall r, outcome x = Responded r -> json r = Return None ->
        fst out = Return None)
  /\ (forall r forecast,
        outcome x = Responded r -> ok r = true ->
        json r = Return (Some forecast) ->
        fst out
        = Return (Some (parseWeatherResponse (clock s + elapsed x) forecast))).
Proof.
  intros x out. subst x out. rewrite fetchWeather_run. cbv zeta. cbn [fst snd].
  set (x := provider (buildWeatherUrl latitude longitude) (requests s)).
  split; [eexists; reflexivity|].
  assert (Hfields : forall s' : Sys,
             requests (afterRecord recordLatency (elapsed x) s') = requests s'
             /\ service (afterRecord recordLatency (elapsed x) s') = service s').
  { intros s'. destruct (afterRecord_fields recordLatency (elapsed x) s')
      as (_ & Hr & Hs & _). split; assumption. }
  split; [|split].
  - destruct (unusableBody x); rewrite ?(proj1 (Hfields _)); reflexivity.
  - destruct (unusableBody x); rewrite ?(proj2 (Hfields _)); reflexivity.
  - unfold resolved. repeat split.
    + intros e ->. reflexivity.
    + intros r -> ->. reflexivity.
    + intros r e -> ->. destruct (ok r); reflexivity.
    + intros r -> ->. destruct (ok r); reflexivity.
    + intros r forecast -> -> ->. reflexivity.
Qed.

(** X9. With a callback, [fetchWeather] reports the latency once when the
    request is rejected, when the status is not 2xx and when the body is
    parsed; when the body of a 2xx answer cannot be read or is [null], the
    latency is reported twice, once after the request and once more in the
    [catch]. Without a callback nothing is reported. *)
Theorem fetchWeather_latency_reports (latitude longitude : Q)
    (recordLatency : bool) (s : Sys) :
  let x := provider (buildWeatherUrl latitude longitude) (requests s) in
  let out :=
    fetchWeather provider buildWeatherUrl latitude longitude recordLatency s in
  exists reported,
    latencies (events (snd out)) = latencies (events s) ++ reported
    /\ length reported
       = if recordLatency then (if unusableBody x then 2%nat else 1%nat)
         else 0%nat.
Proof.
  intros x out. subst x out. rewrite fetchWeather_run. cbv zeta. cbn [snd].
  set (x := provider (buildWeatherUrl latitude longitude) (requests s)).
  set (s1 := afterFetch provider (buildWeatherUrl latitude longitude) s).
  assert (H1 : latencies (events s1) = latencies (events s)).
  { subst s1. cbn [afterFetch events]. unfold latencies.
    rewrite omap_app. cbn. apply app_nil_r. }
  assert (Hrec : forall s' : Sys,
             latencies (events (afterRecord recordLatency (elapsed x) s'))
             = latencies (events s')
                 ++ (if recordLatency then [elapsed x] else [])).
  { intros s'. destruct (afterRecord_fields recordLatency (elapsed x) s')
      as (_ & _ & _ & ->).
    unfold latencies. rewrite omap_app. destruct recordLatency; reflexivity. }
  destruct (unusableBody x).
  - exists ((if recordLatency then [elapsed x] else [])
            ++ (if recordLatency then [elapsed x] else [])).
    rewrite !Hrec, H1, <- app_assoc. split; [reflexivity|].
    destruct recordLatency; reflexivity.
  - exists (if recordLatency then [elapsed x] else []).
    rewrite Hrec, H1. split; [reflexivity|].
    destruct recordLatency; reflexivity.
Qed.

End Fetch.

(** *** Fixtures *)

Definition openMeteoUrl (latitude longitude : Q) : string :=
  "https://api.open-meteo.com/v1/forecast".

(** A provider that answers 200 with an empty object after 120 ms. *)
Definition emptyAnswer : string -> nat -> Exchange (option Forecast) :=
  fun _ _ =>
    {| elapsed := 120;
       outcome := Responded {| status := 200; statusText := "OK";
                               json := Return (Some {| current := None;
                                                       daily := None |}) |} |}.

(** A provider that answers 200 with a body that is not JSON. *)
Definition garbled : string -> nat -> Exchange (option Forecast) :=
  fun _ _ =>
    {| elapsed := 120;
       outcome := Responded {| status := 200; statusText := "OK";
                               json := Throw (MkError "Unexpected token") |} |}.

Example fetchWeather_empty_body :
  fst (fetchWeather emptyAnswer openMeteoUrl 40 (-3) true anHourLater)
  = Return (Some (WeatherData.mk 0 0 0 0 0 3600120)).
Proof. reflexivity. Qed.

Example fetchWeather_garbled_body :
  let out := fetchWeather garbled openMeteoUrl 40 (-3) true anHourLater in
  fst out = Return None /\ latencies (events (snd out)) = [120; 120].
Proof. split; reflexivity. Qed.

Lemma fetchWeather_never_throws_witness :
  fst (fetchWeather garbled openMeteoUrl 40 (-3) true anHourLater) = Return None.
Proof.
  destruct (fetchWeather_never_throws garbled openMeteoUrl 40 (-3) true
              anHourLater) as (_ & _ & _ & _ & _ & Hbody & _).
  exact (Hbody _ _ eq_refl eq_refl).
Defined.

End WeatherServiceFacts.


(** ** AlertEngine: plant types, alert fields, evaluation end to end *)

Module AlertEngineMore.
Import SensitivityProfile WeatherData AlertEngine AlertEngineFacts.

(** An alert of rule [R] is pushed exactly when some profile breaches [R]. *)
Lemma alert_iff_breach generateAlertId plantsService now weather profiles
    garden R :
  (exists a,
      In a (checkThresholds generateAlertId plantsService now weather profiles
              garden)
      /\ Alert.alertType a = R)
  <-> (exists p, In p profiles /\ breaches R weather p).
Proof.
  rewrite <- affected_nonempty. split.
  - intros (a & Hin & <-).
    destruct (alert_wellFormed _ _ _ _ _ _ _ Hin) as (_ & _ & _ & Hrestr).
    intros Hnil. rewrite Hnil in Hrestr.
    destruct (Alert.alertType a); destruct Hrestr as [[] _].
  - intros Hne.
    destruct (alert_emitted generateAlertId plantsService now weather
                profiles garden R Hne) as (a & Hin & Ht & _).
    exists a. split; assumption.
Qed.

(** *** The set of plant types *)

Lemma Set_add_elem (s : list string) (x y : string) :
  y ∈ Set_add s x <-> y ∈ s \/ y = x.
Proof.
  unfold Set_add. case_bool_decide as Hin.
  - split; [auto|]. intros [H| ->]; assumption.
  - rewrite elem_of_app, list_elem_of_singleton. reflexivity.
Qed.

Lemma Set_add_NoDup (s : list string) (x : string) :
  NoDup s -> NoDup (Set_add s x).
Proof.
  intros Hs. unfold Set_add. case_bool_decide as Hin; [exact Hs|].
  apply NoDup_app. split; [exact Hs|]. split.
  - intros y Hy Hyx. apply list_elem_of_singleton in Hyx. subst y. contradiction.
  - apply NoDup_singleton.
Qed.

Lemma plantTypes_fold (plants : list Plant.t) : forall acc,
  NoDup acc ->
  let types := fold_left (fun plantTypes plant =>
                            Set_add plantTypes (Plant.type plant)) plants acc in
  NoDup types
  /\ forall t, t ∈ types
               <-> t ∈ acc \/ exists plant, plant ∈ plants /\ Plant.type plant = t.
Proof.
  induction plants as [|plant plants IH]; intros acc Hacc; cbn zeta.
  - cbn. split; [exact Hacc|]. intros t. split; [auto|].
    intros [H|(plant & Hin & _)]; [exact H|]. inversion Hin.
  - cbn [fold_left].
    destruct (IH (Set_add acc (Plant.type plant)) (Set_add_NoDup _ _ Hacc))
      as [Hnd Hel].
    split; [exact Hnd|]. intros t. rewrite Hel, Set_add_elem. split.
    + intros [[H|H]|(q & Hq & Ht)].
      * left. exact H.
      * right. exists plant. split; [left|symmetry; exact H].
      * right. exists q. split; [right; exact Hq|exact Ht].
    + intros [H|(q & Hq & Ht)]; [left; left; exact H|].
      apply elem_of_cons in Hq as [-> | Hq].
      * left. right. symmetry. exact Ht.
      * right. exists q. split; assumption.
Qed.

(** X10. [getPlantTypesFromCache] gives each plant type of the user's cached
    plants exactly once: the result has no repetition and holds a type if and
    only if some cached plant has it; it is empty when the cache has no
    fresh entry for the user. *)
Theorem plant_types_are_unique (now : Z) (plantsService : PlantsService.t)
    (userId : Z) :
  let types := getPlantTypesFromCache now plantsService userId in
  NoDup types
  /\ (forall plants,
        PlantsService.getCachedPlants now plantsService userId = Some plants ->
        forall t, t ∈ types
                  <-> exists plant, plant ∈ plants /\ Plant.type plant = t)
  /\ (PlantsService.getCachedPlants now plantsService userId = None ->
      types = []).
Proof.
  cbv zeta. unfold getPlantTypesFromCache.
  destruct (PlantsService.getCachedPlants now plantsService userId)
    as [plants|];
    [|split; [apply NoDup_nil_2|split; [discriminate|reflexivity]]].
  destruct plants as [|plant plants].
  - cbn. split; [apply NoDup_nil_2|]. split; [|discriminate].
    intros ps [= <-] t. split; [intros H; inversion H|].
    intros (q & Hq & _). inversion Hq.
  - cbn [length Nat.eqb].
    destruct (plantTypes_fold (plant :: plants) [] (NoDup_nil_2)) as [Hnd Hel].
    split; [exact Hnd|]. split; [|discriminate].
    intros ps [= <-] t. rewrite Hel. split; [|auto].
    intros [H|H]; [inversion H|exact H].
Qed.

(** *** The fields of an alert *)

Lemma checkThresholds_alertFor generateAlertId plantsService now weather
    profiles garden a :
  In a (checkThresholds generateAlertId plantsService now weather profiles
          garden) ->
  exists alerts R p ps,
    affected R weather profiles = p :: ps
    /\ a = alertFor generateAlertId garden now alerts R (metricName R)
             (reading R weather) (extremum R p ps) (p :: ps)
             (default [] (PlantsService.getCachedPlants now plantsService
                            (Garden.userId garden))).
Proof.
  rewrite checkThresholds_blocks. cbv zeta. rewrite !in_app_iff.
  assert (Hblock : forall R alerts,
             In a (blockFor generateAlertId plantsService now weather profiles
                     garden R alerts) ->
             exists p ps,
               affected R weather profiles = p :: ps
               /\ a = alertFor generateAlertId garden now alerts R
                        (metricName R) (reading R weather) (extremum R p ps)
                        (p :: ps)
                        (default [] (PlantsService.getCachedPlants now
                                       plantsService (Garden.userId garden)))).
  { intros R alerts. unfold blockFor.
    destruct (affected R weather profiles) as [|p ps]; [intros []|].
    intros [<-|[]]. exists p, ps. split; reflexivity. }
  intros [H|[H|[H|H]]]; apply Hblock in H as (p & ps & Haff & Ha); eauto 6.
Qed.

(** X11. Every alert pushed by [checkThresholds] carries the garden's id,
    user and name and the time of the check; its metric and current value
    are those of its rule; it names at least one plant type, namely the
    [plantType] of every affected profile; and its plant names are the names
    of the user's cached plants whose type is among those types, in cache
    order. *)
Theorem alert_fields (generateAlertId : nat -> string)
    (plantsService : PlantsService.t) (now : Z) (weather : WeatherData.t)
    (profiles : list SensitivityProfile.t) (garden : Garden.t) (a : Alert.t) :
  In a (checkThresholds generateAlertId plantsService now weather profiles
          garden) ->
  let cached :=
    default [] (PlantsService.getCachedPlants now plantsService
                  (Garden.userId garden)) in
  Alert.gardenId a = Garden.gardenId garden
  /\ Alert.userId a = Garden.userId garden
  /\ Alert.gardenName a = Garden.name garden
  /\ Alert.timestamp a = now
  /\ Alert.metric a = metricName (Alert.alertType a)
  /\ Alert.currentValue a = reading (Alert.alertType a) weather
  /\ Alert.affectedPlantTypes a <> []
  /\ Alert.affectedPlantTypes a
     = map plantType (affected (Alert.alertType a) weather profiles)
  /\ Alert.affectedPlantNames a
     = map Plant.name
         (List.filter
            (fun plant =>
               bool_decide (Plant.type plant ∈ Alert.affectedPlantTypes a))
            cached).
Proof.
  intros Hin cached.
  destruct (checkThresholds_alertFor _ _ _ _ _ _ _ Hin)
    as (alerts & R & p & ps & Haff & ->).
  cbn [alertFor Alert.gardenId Alert.userId Alert.gardenName Alert.timestamp
       Alert.metric Alert.currentValue Alert.affectedPlantTypes
       Alert.affectedPlantNames Alert.alertType].
  rewrite Haff. repeat split. discriminate.
Qed.

Lemma alert_fields_witness :
  let a := Alert.mk "alert-0" "g1" 1 "G1" 1000 HIGH_TEMPERATURE "temperature"
             40 25 ["tomato"; "lettuce"] ["T1"; "L1"] in
  In a (checkThresholds ids mixed 1000 (weatherAt 40 0 0) [tomato; lettuce] g1)
  /\ Alert.affectedPlantTypes a <> [].
Proof.
  intros a.
  assert (Hin : In a (checkThresholds ids mixed 1000 (weatherAt 40 0 0)
                        [tomato; lettuce] g1)) by (left; reflexivity).
  split; [exact Hin|].
  apply (alert_fields ids mixed 1000 (weatherAt 40 0 0) [tomato; lettuce] g1 a
           Hin).
Defined.

(** *** Evaluation end to end *)

(** The profile a plant type resolves to when the registry has a default. *)
Definition resolve (registry : gmap string SensitivityProfile.t)
    (d : SensitivityProfile.t) (plantType : string) : SensitivityProfile.t :=
  default d (registry !! plantType).

Lemma profilesFor_with_default registry d (types : list string) :
  registry !! "default" = Some d ->
  profilesFor types registry = Return (map (resolve registry d) types).
Proof.
  intros Hd. induction types as [|t types IH]; [reflexivity|].
  cbn [profilesFor map]. rewrite IH.
  unfold ConfigLoader.getProfileForPlantType, resolve. rewrite Hd.
  destruct (registry !! t); reflexivity.
Qed.

Lemma profilesFor_without_default registry (types : list string) t :
  registry !! "default" = None ->
  t ∈ types -> registry !! t = None ->
  exists e, profilesFor types registry = Throw e.
Proof.
  intros Hd Hin Ht. induction types as [|t' types IH]; [inversion Hin|].
  cbn [profilesFor]. unfold ConfigLoader.getProfileForPlantType.
  apply elem_of_cons in Hin as [<- | Hin].
  - rewrite Ht, Hd. eauto.
  - destruct (IH Hin) as [e He]. rewrite He.
    destruct (registry !! t'); [eauto|]. rewrite Hd. eauto.
Qed.

(** X12. With weather at hand, a fresh non-empty cache entry and a default
    profile in the registry, [evaluateGarden] emits an alert of a rule if
    and only if the profile of some cached plant (the one registered for its
    type, or else the default one) is strictly breached by the weather. *)
Theorem evaluateGarden_alert_iff (generateAlertId : nat -> string)
    (plantsService : PlantsService.t)
    (registry : gmap string SensitivityProfile.t) (d : SensitivityProfile.t)
    (weather : WeatherData.t) (tTypes tCheck : Z) (garden : Garden.t)
    (plants : list Plant.t) (R : AlertType) :
  PlantsService.getCachedPlants tTypes plantsService (Garden.userId garden)
    = Some plants ->
  plants <> [] ->
  registry !! "default" = Some d ->
  ((exists a,
       In a (evaluateGarden generateAlertId plantsService registry
               (Some weather) tTypes tCheck garden)
       /\ Alert.alertType a = R)
   <-> (exists plant,
          plant ∈ plants
          /\ breaches R weather (resolve registry d (Plant.type plant)))).
Proof.
  intros Hcache Hne Hd.
  destruct (plant_types_are_unique tTypes plantsService (Garden.userId garden))
    as (_ & Htypes & _).
  specialize (Htypes plants Hcache).
  unfold evaluateGarden.
  set (types := getPlantTypesFromCache tTypes plantsService
                  (Garden.userId garden)) in *.
  assert (Hlen : (length types =? 0)%nat = false).
  { destruct plants as [|plant rest]; [congruence|].
    assert (Hin : Plant.type plant ∈ types)
      by (apply Htypes; exists plant; split; [left|reflexivity]).
    destruct types; [inversion Hin|reflexivity]. }
  rewrite Hlen, (profilesFor_with_default registry d types Hd).
  rewrite alert_iff_breach. split.
  - intros (p & Hin & Hb). apply in_map_iff in Hin as (t & <- & Ht).
    apply list_elem_of_In, Htypes in Ht as (plant & Hplant & <-).
    exists plant. split; assumption.
  - intros (plant & Hplant & Hb).
    exists (resolve registry d (Plant.type plant)). split; [|exact Hb].
    apply in_map. apply list_elem_of_In, Htypes. exists plant.
    split; [exact Hplant|reflexivity].
Qed.

Lemma evaluateGarden_alert_iff_witness :
  exists a,
    In a (evaluateGarden ids mixed registry (Some (weatherAt 30 0 0)) 1000 1000
            g1)
    /\ Alert.alertType a = HIGH_TEMPERATURE.
Proof.
  apply (evaluateGarden_alert_iff ids mixed registry fallback (weatherAt 30 0 0)
           1000 1000 g1 [T1; L1] HIGH_TEMPERATURE);
    [reflexivity | discriminate | reflexivity |].
  exists L1. split; [right; left|reflexivity].
Defined.

(** X13. [evaluateGarden] stays silent, whatever the thresholds, when the
    weather could not be fetched, and also when the registry has no default
    profile and some cached plant has a type that is not registered: the
    throw of the profile lookup is caught and no alert at all is emitted,
    not even for the plants whose profile is known. *)
Theorem evaluateGarden_silenced (generateAlertId : nat -> string)
    (plantsService : PlantsService.t)
    (registry : gmap string SensitivityProfile.t)
    (fetched : option WeatherData.t) (tTypes tCheck : Z) (garden : Garden.t) :
  (fetched = None ->
   evaluateGarden generateAlertId plantsService registry fetched tTypes tCheck
     garden = [])
  /\ (forall plants plant,
        registry !! "default" = None ->
        PlantsService.getCachedPlants tTypes plantsService
          (Garden.userId garden) = Some plants ->
        plant ∈ plants ->
        registry !! Plant.type plant = None ->
        evaluateGarden generateAlertId plantsService registry fetched tTypes
          tCheck garden = []).
Proof.
  split; [intros ->; reflexivity|].
  intros plants plant Hd Hcache Hplant Hunknown.
  destruct (plant_types_are_unique tTypes plantsService (Garden.userId garden))
    as (_ & Htypes & _).
  specialize (Htypes plants Hcache).
  unfold evaluateGarden. destruct fetched as [weather|]; [|reflexivity].
  set (types := getPlantTypesFromCache tTypes plantsService
                  (Garden.userId garden)) in *.
  destruct (length types =? 0)%nat; [reflexivity|].
  destruct (profilesFor_without_default registry types (Plant.type plant) Hd)
    as [e ->]; [|exact Hunknown|reflexivity].
  apply Htypes. exists plant. split; [exact Hplant|reflexivity].
Qed.

(** A registry without a default profile, and a cache with a tomato and an
    orchid. *)
Definition noDefault : gmap string SensitivityProfile.t :=
  <["tomato" := tomato]> ∅.
Definition O1 : Plant.t := Plant.mk 3 1 "O1" "orchid" "" "" "".
Definition withOrchid : PlantsService.t :=
  PlantsService.setCachedPlants 0 bare 1 [T1; O1].

Lemma evaluateGarden_silenced_witness :
  evaluateGarden ids withOrchid noDefault (Some (weatherAt 40 0 0)) 1000 1000 g1
  = [].
Proof.
  apply (evaluateGarden_silenced ids withOrchid noDefault
           (Some (weatherAt 40 0 0)) 1000 1000 g1) with (plants := [T1; O1])
                                                         (plant := O1);
    [reflexivity | reflexivity | right; left | reflexivity].
Defined.

(** X14. A forecast without a current temperature is read as 0 degrees, and
    the engine treats it as a measurement: a LOW_TEMPERATURE alert is pushed
    exactly when some profile has a positive [minTemperature], and a
    HIGH_TEMPERATURE alert exactly when some profile has a negative
    [maxTemperature]. *)
Theorem missing_temperature_is_zero (generateAlertId : nat -> string)
    (plantsService : PlantsService.t) (now parsedAt : Z)
    (profiles : list SensitivityProfile.t) (garden : Garden.t)
    (forecast : WeatherService.Forecast) :
  WeatherService.current forecast = None
  \/ (exists c, WeatherService.current forecast = Some c
                /\ WeatherService.temperature_2m c = None) ->
  let weather := WeatherService.parseWeatherResponse parsedAt forecast in
  let alerts :=
    checkThresholds generateAlertId plantsService now weather profiles garden in
  temperature weather = 0%Q
  /\ ((exists a, In a alerts /\ Alert.alertType a = LOW_TEMPERATURE)
      <-> (exists p, In p profiles /\ (0 < minTemperature p)%Q))
  /\ ((exists a, In a alerts /\ Alert.alertType a = HIGH_TEMPERATURE)
      <-> (exists p, In p profiles /\ (maxTemperature p < 0)%Q)).
Proof.
  intros Hmissing weather alerts.
  assert (Hzero : temperature weather = 0%Q).
  { subst weather. unfold WeatherService.parseWeatherResponse.
    cbn [temperature].
    destruct Hmissing as [-> | (c & -> & Hc)]; cbn; [|rewrite Hc]; reflexivity. }
  split; [exact Hzero|]. subst alerts. rewrite !alert_iff_breach.
  cbn [breaches reading limit]. rewrite Hzero. split; reflexivity.
Qed.

Lemma missing_temperature_is_zero_witness :
  exists a,
    In a (checkThresholds ids single 1000
            (WeatherService.parseWeatherResponse 1000
               {| WeatherService.current := None;
                  WeatherService.daily := None |})
            [tomato] g1)
    /\ Alert.alertType a = LOW_TEMPERATURE.
Proof.
  apply (missing_temperature_is_zero ids single 1000 1000 [tomato] g1
           {| WeatherService.current := None; WeatherService.daily := None |});
    [left; reflexivity|].
  exists tomato. split; [left; reflexivity|reflexivity].
Defined.

End AlertEngineMore.

(** ** ConfigLoader: what the two loaders accept, and what they report *)

Module ConfigFilesFacts.
Import SensitivityProfile ConfigFiles AlertEngine AlertEngineFacts.

Lemma geb_le (a b : Q) : geb a b = false <-> (a < b)%Q.
Proof.
  unfold geb. rewrite <- not_true_iff_false, Qle_bool_iff.
  split; [apply Qnot_le_lt | apply Qlt_not_le].
Qed.

Lemma within (x lo hi : Q) :
  ltb x lo || gtb x hi = false <-> (lo <= x /\ x <= hi)%Q.
Proof.
  rewrite orb_false_iff, <- !not_true_iff_false, ltb_lt, gtb_lt.
  split; intros [H1 H2]; split;
    solve [apply Qnot_lt_le; assumption | apply Qle_not_lt; assumption].
Qed.

(** A garden entry that [validateGarden] lets through. *)
Definition validGarden (garden : Json) : Prop :=
  exists gardenId userId name latitude longitude,
    prop garden "gardenId" = Some (JString gardenId)
    /\ prop garden "userId" = Some (JNumber userId)
    /\ prop garden "name" = Some (JString name)
    /\ prop garden "latitude" = Some (JNumber latitude)
    /\ prop garden "longitude" = Some (JNumber longitude)
    /\ (-90 <= latitude /\ latitude <= 90)%Q
    /\ (-180 <= longitude /\ longitude <= 180)%Q.

Lemma prop_object garden key v :
  prop garden key = Some v -> exists entries, garden = JObject entries.
Proof. destruct garden; try discriminate. eauto. Qed.

Lemma validateGarden_accepts garden index :
  validateGarden garden index = Return tt <-> validGarden garden.
Proof.
  split.
  - destruct garden as [| | | | |entries]; try discriminate.
    unfold validateGarden, validGarden.
    cbn [requireFields hasField prop].
    destruct (assoc "gardenId" entries) as [v1|]; cbn; [|discriminate].
    destruct (assoc "userId" entries) as [v2|]; cbn; [|discriminate].
    destruct (assoc "name" entries) as [v3|]; cbn; [|discriminate].
    destruct (assoc "latitude" entries) as [v4|]; cbn; [|discriminate].
    destruct (assoc "longitude" entries) as [v5|]; cbn; [|discriminate].
    destruct v1; cbn; try discriminate.
    destruct v2; cbn; try discriminate.
    destruct v3; cbn; try discriminate.
    destruct v4 as [| |lat| | |]; cbn; try discriminate.
    destruct v5 as [| |lon| | |]; cbn; try discriminate.
    destruct (ltb lat (-90) || gtb lat 90) eqn:Hlat; [discriminate|].
    destruct (ltb lon (-180) || gtb lon 180) eqn:Hlon; [discriminate|].
    intros _. apply within in Hlat, Hlon. eauto 12.
  - intros (gardenId & userId & name & lat & lon
            & H1 & H2 & H3 & H4 & H5 & Hlat & Hlon).
    destruct (prop_object _ _ _ H1) as [entries ->].
    unfold validateGarden. cbn [requireFields hasField prop] in *.
    rewrite H1, H2, H3, H4, H5. cbn.
    apply within in Hlat, Hlon. rewrite Hlat, Hlon. reflexivity.
Qed.

Lemma validateGardens_accepts gardens i validated :
  validateGardens gardens i = Return validated
  <-> validated = gardens /\ Forall validGarden gardens.
Proof.
  revert i validated. induction gardens as [|g gardens IH]; intros i validated.
  - cbn. split; [intros [= <-]; auto | intros [-> _]; reflexivity].
  - cbn [validateGardens].
    destruct (validateGarden g i) as [[]|e] eqn:Hg.
    + apply validateGarden_accepts in Hg.
      destruct (validateGardens gardens (S i)) as [rest|e] eqn:Hrest.
      * apply IH in Hrest as [-> Hall].
        split; [intros [= <-]; auto | intros [-> _]; reflexivity].
      * split; [discriminate|]. intros [_ Hall].
        apply Forall_cons in Hall as [_ Hall].
        assert (validateGardens gardens (S i) = Return gardens) as Hok
          by (apply IH; auto).
        congruence.
    + split; [discriminate|]. intros [_ Hall].
      apply Forall_cons in Hall as [Hv _].
      apply (validateGarden_accepts g i) in Hv. congruence.
Qed.

(** The loop stops at the first entry that is rejected, with the error of
    that entry at its own index. *)
Lemma validateGardens_first_invalid before garden after i e :
  Forall validGarden before ->
  validateGarden garden (i + length before) = Throw e ->
  validateGardens (before ++ garden :: after) i = Throw e.
Proof.
  revert i. induction before as [|g before IH]; intros i Hall Hbad.
  - cbn in *. rewrite Nat.add_0_r in Hbad. rewrite Hbad. reflexivity.
  - apply Forall_cons in Hall as [Hg Hall].
    cbn [app validateGardens].
    apply (validateGarden_accepts g i) in Hg. rewrite Hg.
    rewrite (IH (S i)); [reflexivity | assumption |].
    cbn [length] in Hbad. rewrite Nat.add_succ_r in Hbad. exact Hbad.
Qed.

(** X15. [loadGardens] returns exactly when the file parses to a value whose
    [gardens] property is an array of objects that each carry a string
    [gardenId], a number [userId], a string [name], a [latitude] within
    [-90, 90] and a [longitude] within [-180, 180], both ends included; it
    then returns the entries of that array, unchanged and in order. *)
Theorem loadGardens_accepts (filePath : string) (file : File)
    (gardens : list Json) :
  loadGardens filePath file = Return gardens
  <-> exists data,
        file = Parsed data
        /\ prop data "gardens" = Some (JArray gardens)
        /\ Forall validGarden gardens.
Proof.
  split.
  - destruct file as [|e|m|data]; try discriminate.
    unfold loadGardens.
    destruct data as [| | | | |entries]; try discriminate.
    destruct (prop (JObject entries) "gardens") as [[| | | |items|]|] eqn:Hp;
      try discriminate.
    intros H. apply validateGardens_accepts in H as [-> Hall]. eauto.
  - intros (data & -> & Hp & Hall).
    destruct (prop_object _ _ _ Hp) as [entries ->].
    unfold loadGardens. rewrite Hp.
    apply validateGardens_accepts. auto.
Qed.

(** X16. When every entry before position [i] of the [gardens] array is
    acceptable and the entry at [i] is not, [loadGardens] throws what
    [validateGarden] throws for that entry with index [i]: the first bad
    entry decides the error, and later entries are not looked at. *)
Theorem loadGardens_first_invalid (filePath : string) (data : Json)
    (before after : list Json) (garden : Json) (e : Error) :
  prop data "gardens" = Some (JArray (before ++ garden :: after)) ->
  Forall validGarden before ->
  validateGarden garden (length before) = Throw e ->
  loadGardens filePath (Parsed data) = Throw e.
Proof.
  intros Hp Hall Hbad.
  destruct (prop_object _ _ _ Hp) as [entries ->].
  unfold loadGardens. rewrite Hp.
  apply validateGardens_first_invalid; assumption.
Qed.

Definition madrid : Json :=
  JObject [("gardenId", JString "garden-001"); ("userId", JNumber 1);
           ("name", JString "Madrid"); ("latitude", JNumber (404168 # 10000));
           ("longitude", JNumber (-37038 # 10000))].

Definition northOfThePole : Json :=
  JObject [("gardenId", JString "garden-002"); ("userId", JNumber 2);
           ("name", JString "Nowhere"); ("latitude", JNumber 91);
           ("longitude", JNumber 0)].

Definition nameless : Json :=
  JObject [("gardenId", JString "garden-003")].

Lemma madrid_valid : validGarden madrid.
Proof.
  exists "garden-001", 1%Q, "Madrid", (404168 # 10000)%Q, (-37038 # 10000)%Q.
  repeat split; reflexivity || (intros H; discriminate H).
Qed.

Lemma loadGardens_first_invalid_witness :
  loadGardens "config/gardens.config.json"
    (Parsed (JObject [("gardens", JArray [madrid; northOfThePole; nameless])]))
  = Throw (MkError "Garden at index 1: latitude must be between -90 and 90").
Proof.
  apply (loadGardens_first_invalid _ _ [madrid] [nameless] northOfThePole).
  - reflexivity.
  - constructor; [exact madrid_valid | constructor].
  - vm_compute. reflexivity.
Defined.

Lemma loadGardens_accepts_witness :
  loadGardens "config/gardens.config.json"
    (Parsed (JObject [("gardens", JArray [madrid])])) = Return [madrid].
Proof.
  apply loadGardens_accepts. eexists. split; [reflexivity|].
  split; [reflexivity|]. constructor; [exact madrid_valid | constructor].
Defined.

Example loadGardens_test_missing_fields :
  loadGardens "config/gardens.config.json"
    (Parsed (JObject [("gardens", JArray [nameless])]))
  = Throw (MkError "Garden at index 0 missing required field: userId").
Proof. vm_compute. reflexivity. Qed.

Example loadGardens_test_no_array :
  loadGardens "config/gardens.config.json"
    (Parsed (JObject [("notGardens", JArray [])]))
  = Throw (MkError "Invalid gardens.config.json: missing 'gardens' array").
Proof. reflexivity. Qed.

(** A profile entry that [validateSensitivityProfile] lets through, and the
    profile it is read as. *)
Definition validProfile (profile : Json) (p : SensitivityProfile.t) : Prop :=
  prop profile "plantType" = Some (JString (plantType p))
  /\ prop profile "maxTemperature" = Some (JNumber (maxTemperature p))
  /\ prop profile "minTemperature" = Some (JNumber (minTemperature p))
  /\ prop profile "maxPrecipitation" = Some (JNumber (maxPrecipitation p))
  /\ prop profile "maxWindSpeed" = Some (JNumber (maxWindSpeed p))
  /\ (minTemperature p < maxTemperature p)%Q.

Lemma validateSensitivityProfile_accepts profile key p :
  validateSensitivityProfile profile key = Return p <-> validProfile profile p.
Proof.
  split.
  - destruct profile as [| | | | |entries]; try discriminate.
    unfold validateSensitivityProfile, validProfile.
    cbn [requireFields hasField prop].
    destruct (assoc "plantType" entries) as [v1|]; cbn; [|discriminate].
    destruct (assoc "maxTemperature" entries) as [v2|]; cbn; [|discriminate].
    destruct (assoc "minTemperature" entries) as [v3|]; cbn; [|discriminate].
    destruct (assoc "maxPrecipitation" entries) as [v4|]; cbn; [|discriminate].
    destruct (assoc "maxWindSpeed" entries) as [v5|]; cbn; [|discriminate].
    destruct v1; cbn; try discriminate.
    destruct v2 as [| |hi| | |]; cbn; try discriminate.
    destruct v3 as [| |lo| | |]; cbn; try discriminate.
    destruct v4; cbn; try discriminate.
    destruct v5; cbn; try discriminate.
    destruct (geb lo hi) eqn:Hb; [discriminate|].
    intros [= <-]. cbn. apply geb_le in Hb. auto 10.
  - intros (H1 & H2 & H3 & H4 & H5 & Hlt).
    destruct (prop_object _ _ _ H1) as [entries ->].
    unfold validateSensitivityProfile. cbn [requireFields hasField prop] in *.
    rewrite H1, H2, H3, H4, H5. cbn.
    apply geb_le in Hlt. rewrite Hlt. destruct p; reflexivity.
Qed.

Definition acceptable (entry : string * Json) : Prop :=
  exists p, validProfile entry.2 p.

Lemma validateProfiles_rejects entries m :
  ~ Forall acceptable entries -> exists e, validateProfiles entries m = Throw e.
Proof.
  revert m. induction entries as [|[k profile] entries IH]; intros m Hno.
  - destruct Hno. constructor.
  - cbn [validateProfiles].
    destruct (validateSensitivityProfile profile k) as [p|e] eqn:Hp; [|eauto].
    apply validateSensitivityProfile_accepts in Hp.
    apply IH. intros Hall. apply Hno. constructor; [exists p; exact Hp | exact Hall].
Qed.

(** What the loop leaves in the map: the entries it started with, and one
    profile under each key of the object. *)
Lemma validateProfiles_returns entries m :
  Forall acceptable entries ->
  exists m',
    validateProfiles entries m = Return m'
    /\ (forall k, is_Some (m' !! k) <-> is_Some (m !! k) \/ k ∈ entries.*1)
    /\ (forall k p, m' !! k = Some p ->
          m !! k = Some p
          \/ exists profile, (k, profile) ∈ entries /\ validProfile profile p).
Proof.
  revert m. induction entries as [|[k profile] entries IH]; intros m Hall.
  - exists m. cbn. split; [reflexivity|]. split.
    + intros k. rewrite elem_of_nil. tauto.
    + auto.
  - apply Forall_cons in Hall as [[p Hp] Hall].
    cbn [validateProfiles].
    pose proof Hp as Hrun. cbn in Hrun.
    apply (validateSensitivityProfile_accepts profile k) in Hrun.
    rewrite Hrun.
    destruct (IH (<[k := p]> m) Hall) as (m' & Hm' & Hkeys & Hvals).
    exists m'. split; [exact Hm'|]. split.
    + intros k'. rewrite Hkeys. cbn [fmap list_fmap fst]. rewrite elem_of_cons.
      destruct (decide (k' = k)) as [->|Hne].
      * rewrite lookup_insert_eq. split; [auto|]. intros _. left. eauto.
      * rewrite lookup_insert_ne by congruence. tauto.
    + intros k' p' Hlook. destruct (Hvals k' p' Hlook) as [Hin | (pr & Hin & Hv)].
      * destruct (decide (k' = k)) as [->|Hne].
        -- rewrite lookup_insert_eq in Hin. injection Hin as <-.
           right. exists profile. split; [left | exact Hp].
        -- rewrite lookup_insert_ne in Hin by congruence. auto.
      * right. exists pr. split; [right; exact Hin | exact Hv].
Qed.

Lemma acceptable_dec entries :
  Forall acceptable entries \/ ~ Forall acceptable entries.
Proof.
  induction entries as [|[k profile] entries IH]; [left; constructor|].
  destruct IH as [Hall | Hno].
  - destruct (validateSensitivityProfile profile k) as [p|e] eqn:Hp.
    + left. constructor; [|exact Hall]. exists p.
      apply (validateSensitivityProfile_accepts profile k), Hp.
    + right. intros H. apply Forall_cons in H as [[p Hv] _].
      apply (validateSensitivityProfile_accepts profile k) in Hv. cbn in Hv.
      congruence.
  - right. intros H. apply Forall_cons in H as [_ H]. auto.
Qed.

(** X17. For a file whose [profiles] property is an object,
    [loadSensitivityProfiles] returns exactly when every entry of that object
    carries a string [plantType] and numbers [maxTemperature],
    [minTemperature], [maxPrecipitation] and [maxWindSpeed] with
    [minTemperature] strictly below [maxTemperature], and one of the keys is
    [default]. *)
Theorem loadSensitivityProfiles_accepts (filePath : string) (data : Json)
    (entries : list (string * Json)) :
  prop data "profiles" = Some (JObject entries) ->
  ((exists profiles,
      loadSensitivityProfiles filePath (Parsed data) = Return profiles)
   <-> Forall acceptable entries /\ "default" ∈ entries.*1).
Proof.
  intros Hp. destruct (prop_object _ _ _ Hp) as [fields ->].
  unfold loadSensitivityProfiles. rewrite Hp. cbn [falsy typeofObject negb orb entriesOf].
  destruct (acceptable_dec entries) as [Hall | Hno].
  - destruct (validateProfiles_returns entries ∅ Hall) as (m & -> & Hkeys & _).
    destruct (bool_decide (is_Some (m !! "default"))) eqn:Hd.
    + apply bool_decide_eq_true in Hd. apply Hkeys in Hd as [Hd | Hd].
      * rewrite lookup_empty in Hd. destruct Hd; discriminate.
      * split; eauto.
    + apply bool_decide_eq_false in Hd.
      split; [intros [? ?]; discriminate|].
      intros [_ Hin]. destruct Hd. apply Hkeys. auto.
  - destruct (validateProfiles_rejects entries ∅ Hno) as [e ->].
    split; [intros [? ?]; discriminate | intros [? _]; contradiction].
Qed.

(** X18. Whatever [loadSensitivityProfiles] returns holds a [default]
    profile, holds only profiles whose [minTemperature] is strictly below
    their [maxTemperature], and makes [getProfileForPlantType] return for
    every plant type: the profile stored under that type, or the default
    one. *)
Theorem loadSensitivityProfiles_usable (filePath : string) (file : File)
    (profiles : gmap string SensitivityProfile.t) :
  loadSensitivityProfiles filePath file = Return profiles ->
  (exists d,
      profiles !! "default" = Some d
      /\ forall plantType,
           ConfigLoader.getProfileForPlantType plantType profiles
           = Return (default d (profiles !! plantType)))
  /\ (forall plantType p,
        profiles !! plantType = Some p ->
        (minTemperature p < maxTemperature p)%Q).
Proof.
  destruct file as [|e|m|data]; try discriminate.
  unfold loadSensitivityProfiles.
  destruct data as [| | | | |fields]; try discriminate;
    (destruct (prop _ "profiles") as [profs|] eqn:Hp; [|discriminate]);
    try discriminate.
  destruct (falsy profs || negb (typeofObject profs)); [discriminate|].
  destruct (acceptable_dec (entriesOf profs)) as [Hall | Hno].
  - destruct (validateProfiles_returns _ ∅ Hall) as (m & -> & _ & Hvals).
    destruct (bool_decide (is_Some (m !! "default"))) eqn:Hd; [|discriminate].
    apply bool_decide_eq_true in Hd. destruct Hd as [d Hd].
    intros [= <-]. split.
    + exists d. split; [exact Hd|]. intros plantType.
      unfold ConfigLoader.getProfileForPlantType. rewrite Hd.
      destruct (m !! plantType); reflexivity.
    + intros plantType p Hlook.
      destruct (Hvals _ _ Hlook) as [Hin | (pr & _ & Hv)].
      * rewrite lookup_empty in Hin. discriminate.
      * apply Hv.
  - destruct (validateProfiles_rejects _ ∅ Hno) as [e ->]. discriminate.
Qed.

Definition profileEntry (plantType : string) (hi lo rain wind : Q) : Json :=
  JObject [("plantType", JString plantType); ("maxTemperature", JNumber hi);
           ("minTemperature", JNumber lo); ("maxPrecipitation", JNumber rain);
           ("maxWindSpeed", JNumber wind)].

Definition profilesFile : Json :=
  JObject [("profiles",
            JObject [("tomato", profileEntry "tomato" 35 10 20 50);
                     ("default", profileEntry "default" 30 8 18 45)])].

Definition loaded : gmap string SensitivityProfile.t :=
  <["default" := SensitivityProfile.mk "default" 30 8 18 45]>
    (<["tomato" := SensitivityProfile.mk "tomato" 35 10 20 50]> ∅).

Lemma profileEntry_valid plantType hi lo rain wind :
  (lo < hi)%Q ->
  validProfile (profileEntry plantType hi lo rain wind)
    (SensitivityProfile.mk plantType hi lo rain wind).
Proof. intros H. repeat split; try reflexivity. exact H. Qed.

Lemma loadSensitivityProfiles_accepts_witness :
  exists profiles,
    loadSensitivityProfiles "config/plant-sensitivity-profiles.json"
      (Parsed profilesFile) = Return profiles.
Proof.
  apply (loadSensitivityProfiles_accepts _ profilesFile
           [("tomato", profileEntry "tomato" 35 10 20 50);
            ("default", profileEntry "default" 30 8 18 45)]).
  - reflexivity.
  - split.
    + constructor; [|constructor; [|constructor]].
      * eexists. apply profileEntry_valid. reflexivity.
      * eexists. apply profileEntry_valid. reflexivity.
    + cbn. right. left.
Defined.

Lemma loadSensitivityProfiles_usable_witness :
  ConfigLoader.getProfileForPlantType "unknown-plant" loaded
  = Return (SensitivityProfile.mk "default" 30 8 18 45).
Proof.
  destruct (loadSensitivityProfiles_usable
              "config/plant-sensitivity-profiles.json" (Parsed profilesFile)
              loaded) as [(d & Hd & Hget) _].
  - vm_compute. reflexivity.
  - rewrite Hget. unfold loaded in Hd. rewrite lookup_insert_eq in Hd.
    injection Hd as <-. reflexivity.
Defined.

Example loadSensitivityProfiles_test_no_default :
  loadSensitivityProfiles "config/plant-sensitivity-profiles.json"
    (Parsed (JObject [("profiles",
                       JObject [("tomato", profileEntry "tomato" 35 10 20 50)])]))
  = Throw (MkError
             "Invalid plant-sensitivity-profiles.json: missing 'default' profile").
Proof. vm_compute. reflexivity. Qed.

End ConfigFilesFacts.

(** ** HealthCheckService and [/health]: what the reported status means *)

Module HealthCheckServiceFacts.
Import HealthCheckService.

(** The request was answered with a status in 200-299. *)
Definition answered2xx (x : PlantsService.Exchange unit) : Prop :=
  exists response,
    PlantsService.outcome x = PlantsService.Responded response
    /\ PlantsService.ok response = true.

(** Client construction, connection and ping all went through. *)
Definition reachable (probe : MongoProbe) : Prop :=
  construct probe = Return tt /\ connect probe = Return tt
  /\ ping probe = Return tt.

(** The configuration names an account, a token and a sender, and the
    client factory accepts them. *)
Definition usable (Twilio : string -> string -> Completion NotificationService.TwilioClient)
    (cfg : option SMSConfig.t) : Prop :=
  exists c client,
    cfg = Some c
    /\ SMSConfig.accountSid c <> "" /\ SMSConfig.authToken c <> ""
    /\ SMSConfig.fromNumber c <> ""
    /\ Twilio (SMSConfig.accountSid c) (SMSConfig.authToken c) = Return client.

Lemma probed_status x :
  (status (probed x) = ServiceStatus.ok /\ answered2xx x)
  \/ (status (probed x) = ServiceStatus.error /\ ~ answered2xx x).
Proof.
  unfold probed, answered2xx.
  destruct (PlantsService.outcome x) as [e|r].
  - right. split; [reflexivity|]. intros (r & H & _). discriminate H.
  - destruct (PlantsService.ok r) eqn:Hok.
    + left. split; [reflexivity|]. eauto.
    + right. split; [reflexivity|]. intros (r' & [= <-] & H). congruence.
Qed.

Lemma checkMongoDB_status mongo this :
  (status (checkMongoDB mongo this) = ServiceStatus.ok
   /\ reachable (mongo (mongoUrl this)))
  \/ (status (checkMongoDB mongo this) = ServiceStatus.error
      /\ ~ reachable (mongo (mongoUrl this))).
Proof.
  unfold checkMongoDB, reachable.
  destruct (construct _) as [[]|e1];
    [|right; split; [reflexivity | intros (H & _); discriminate H]].
  destruct (connect _) as [[]|e2];
    [|right; split; [reflexivity | intros (_ & H & _); discriminate H]].
  destruct (ping _) as [[]|e3];
    [|right; split; [reflexivity | intros (_ & _ & H); discriminate H]].
  left. auto.
Qed.

Lemma checkTwilio_status this :
  (status (checkTwilio this) = ServiceStatus.ok
   /\ NotificationService.isEnabled (notificationService this) = true)
  \/ (status (checkTwilio this) = ServiceStatus.degraded
      /\ NotificationService.isEnabled (notificationService this) = false).
Proof.
  unfold checkTwilio.
  destruct (NotificationService.isEnabled _); [left | right]; auto.
Qed.

Lemma isEnabled_new Twilio cfg :
  NotificationService.isEnabled (NotificationService.new Twilio cfg) = true
  <-> usable Twilio cfg.
Proof.
  unfold NotificationService.isEnabled, NotificationService.new, usable.
  destruct cfg as [c|].
  - unfold NotificationService.truthy.
    destruct (String.eqb_spec (SMSConfig.accountSid c) "") as [H1|H1];
      cbn [negb orb NotificationService.enabled].
    { split; [discriminate|]. intros (c' & cl & [= <-] & ? & _). contradiction. }
    destruct (String.eqb_spec (SMSConfig.authToken c) "") as [H2|H2];
      cbn [negb orb NotificationService.enabled].
    { split; [discriminate|].
      intros (c' & cl & [= <-] & _ & ? & _). contradiction. }
    destruct (String.eqb_spec (SMSConfig.fromNumber c) "") as [H3|H3];
      cbn [negb orb NotificationService.enabled].
    { split; [discriminate|].
      intros (c' & cl & [= <-] & _ & _ & ? & _). contradiction. }
    destruct (Twilio _ _) as [client|e] eqn:Hf; cbn.
    + split; [|reflexivity]. intros _. exists c, client. auto.
    + split; [discriminate|].
      intros (c' & cl & [= <-] & _ & _ & _ & H). congruence.
  - cbn. split; [discriminate|]. intros (c & cl & H & _). discriminate H.
Qed.

Section Probes.
Variable fetch : string -> PlantsService.Exchange unit.
Variable mongo : string -> MongoProbe.

Definition backendProbe (this : t) : PlantsService.Exchange unit :=
  fetch (backendUrl this +:+ "/api/health").
Definition weatherProbe : PlantsService.Exchange unit :=
  fetch
    "https://api.open-meteo.com/v1/forecast?latitude=40.4168&longitude=-3.7038&current=temperature_2m".

(** [checkHealth] reports [healthy] when all four checks are fine, and only
    then. *)
Lemma checkHealth_healthy (now : Z) (this : t) :
  systemStatus (checkHealth fetch mongo now this) = SystemStatus.healthy
  <-> (answered2xx (backendProbe this) /\ answered2xx weatherProbe)
      /\ reachable (mongo (mongoUrl this))
      /\ NotificationService.isEnabled (notificationService this) = true.
Proof.
  unfold checkHealth, determineSystemStatus.
  cbn [systemStatus postgres mongodb openmeteo twilio map].
  unfold checkPostgres, checkOpenMeteo. fold (backendProbe this). fold weatherProbe.
  destruct (probed_status (backendProbe this)) as [[-> Hb]|[-> Hb]];
    destruct (probed_status weatherProbe) as [[-> Hw]|[-> Hw]];
    destruct (checkMongoDB_status mongo this) as [[-> Hm]|[-> Hm]];
    destruct (checkTwilio_status this) as [[-> Ht]|[-> Ht]];
    cbn; (split; [try discriminate; intros _ | try tauto]);
    try tauto; try (intros [_ [_ H]]; congruence).
Qed.

(** X19. The status that [checkHealth] reports is [unhealthy] exactly when
    the backend or Open-Meteo did not answer its probe with a 2xx status,
    whatever MongoDB and the SMS service do; it is [healthy] exactly when
    both answered with a 2xx status, MongoDB could be connected to and
    pinged, and the SMS service is enabled; and [degraded] in the remaining
    case, where the two probes are fine and MongoDB or SMS is not. *)
Theorem checkHealth_status (now : Z) (this : t) :
  let result := checkHealth fetch mongo now this in
  let critical := answered2xx (backendProbe this) /\ answered2xx weatherProbe in
  let optional :=
    reachable (mongo (mongoUrl this))
    /\ NotificationService.isEnabled (notificationService this) = true in
  (systemStatus result = SystemStatus.unhealthy <-> ~ critical)
  /\ (systemStatus result = SystemStatus.healthy <-> critical /\ optional)
  /\ (systemStatus result = SystemStatus.degraded <-> critical /\ ~ optional).
Proof.
  cbv zeta. unfold checkHealth, determineSystemStatus.
  cbn [systemStatus postgres mongodb openmeteo twilio map].
  unfold checkPostgres, checkOpenMeteo. fold (backendProbe this). fold weatherProbe.
  destruct (probed_status (backendProbe this)) as [[-> Hb]|[-> Hb]];
    destruct (probed_status weatherProbe) as [[-> Hw]|[-> Hw]];
    destruct (checkMongoDB_status mongo this) as [[-> Hm]|[-> Hm]];
    destruct (checkTwilio_status this) as [[-> Ht]|[-> Ht]];
    cbn; (split; [|split]); (split; [try discriminate; intros _ | try tauto]);
    try tauto; try (intros [_ [_ H]]; congruence);
    try (intros [_ H]; exfalso; apply H; tauto);
    try (split; [tauto|]; intros [? ?]; congruence || tauto).
Qed.

(** The route answers 200 when the health service is there and all four
    checks are fine, and 503 otherwise. *)
Lemma health_code (now : Z) (healthCheckService : option t) :
  let code := (health fetch mongo now healthCheckService).1 in
  (code = 200
   <-> exists this,
         healthCheckService = Some this
         /\ answered2xx (backendProbe this) /\ answered2xx weatherProbe
         /\ reachable (mongo (mongoUrl this))
         /\ NotificationService.isEnabled (notificationService this) = true)
  /\ (code = 200 \/ code = 503).
Proof.
  cbv zeta. unfold health.
  destruct healthCheckService as [this|]; cbn [fst].
  - pose proof (checkHealth_healthy now this) as Hh.
    destruct (systemStatus (checkHealth fetch mongo now this)) eqn:Hs.
    + split; [|auto]. split; [|reflexivity]. intros _. exists this.
      destruct Hh as [Hh _]. specialize (Hh eq_refl). tauto.
    + split; [|auto]. split; [discriminate|].
      intros (this' & [= <-] & H). destruct Hh as [_ Hh].
      discriminate Hh. tauto.
    + split; [|auto]. split; [discriminate|].
      intros (this' & [= <-] & H). destruct Hh as [_ Hh].
      discriminate Hh. tauto.
  - split; [|auto]. split; [discriminate|]. intros (this & H & _). discriminate H.
Qed.

(** X20. With the SMS service built by its constructor from the configured
    credentials, [GET /health] answers 200 exactly when the health service
    has been set up, the backend and Open-Meteo answered their probes with a
    2xx status, MongoDB could be connected to and pinged, and the
    credentials are complete and accepted by the Twilio client; in every
    other case it answers 503. *)
Theorem health_status_code (now : Z) (healthCheckService : option t)
    (Twilio : string -> string -> Completion NotificationService.TwilioClient)
    (cfg : option SMSConfig.t) :
  (forall this, healthCheckService = Some this ->
                notificationService this = NotificationService.new Twilio cfg) ->
  let code := (health fetch mongo now healthCheckService).1 in
  (code = 200
   <-> exists this,
         healthCheckService = Some this
         /\ answered2xx (backendProbe this) /\ answered2xx weatherProbe
         /\ reachable (mongo (mongoUrl this)) /\ usable Twilio cfg)
  /\ (code = 200 \/ code = 503).
Proof.
  intros Hsms. cbv zeta.
  destruct (health_code now healthCheckService) as [Hiff Hcodes].
  split; [|exact Hcodes]. rewrite Hiff.
  split; intros (this & Hs & Hb & Hw & Hm & Ht); exists this;
    (split; [exact Hs|]); (split; [exact Hb|]); (split; [exact Hw|]);
    (split; [exact Hm|]); rewrite (Hsms this Hs), isEnabled_new in *;
    exact Ht.
Qed.

End Probes.

(** *** Fixtures: everything up, but no SMS credentials *)

Definition allUp (url : string) : PlantsService.Exchange unit :=
  {| PlantsService.elapsed := 12;
     PlantsService.outcome :=
       PlantsService.Responded
         {| PlantsService.status := 200; PlantsService.statusText := "OK";
            PlantsService.json := Return tt |} |}.

Definition mongoUp (url : string) : MongoProbe :=
  {| construct := Return tt; connect := Return tt; ping := Return tt;
     close := Return tt; took := 7 |}.

Definition withoutSms : t :=
  {| backendUrl := "http://localhost:3001";
     mongoUrl := "mongodb://localhost:27017";
     notificationService :=
       NotificationService.new NotificationServiceFacts.twilio None |}.

Lemma checkHealth_status_witness :
  systemStatus (checkHealth allUp mongoUp 0 withoutSms) = SystemStatus.degraded.
Proof.
  apply (checkHealth_status allUp mongoUp 0 withoutSms).
  split.
  - split; eexists; (split; [reflexivity|reflexivity]).
  - intros [_ H]. discriminate H.
Defined.

Lemma health_status_code_witness :
  (health allUp mongoUp 0 (Some withoutSms)).1 = 503.
Proof.
  destruct (health_status_code allUp mongoUp 0 (Some withoutSms)
              NotificationServiceFacts.twilio None) as [Hiff [H|H]].
  - intros this [= <-]. reflexivity.
  - apply Hiff in H as (this & _ & _ & _ & _ & (c & cl & Hc & _)).
    discriminate Hc.
  - exact H.
Defined.

End HealthCheckServiceFacts.

(** ** WebSocketServer: who is a client, and who gets a broadcast *)

Module WebSocketServerFacts.
Import WebSocketServer.

(** What the socket handlers of the server do to the alert server. *)
Inductive SocketEvent : Type :=
| Opened (ws : WebSocket)
| Closed (ws : WebSocket).

Definition handle (this : t) (event : SocketEvent) : t :=
  match event with
  | Opened ws => onConnection ws this
  | Closed ws => onDisconnection ws this
  end.

Definition after (events : list SocketEvent) : t := fold_left handle events new.

Lemma clients_add_elem s ws x : x ∈ Set_add s ws <-> x ∈ s \/ x = ws.
Proof.
  unfold Set_add. case_bool_decide as Hin.
  - split; [auto|]. intros [H | ->]; assumption.
  - rewrite elem_of_app, list_elem_of_singleton. tauto.
Qed.

Lemma clients_add_NoDup s ws : NoDup s -> NoDup (Set_add s ws).
Proof.
  intros Hs. unfold Set_add. case_bool_decide as Hin; [exact Hs|].
  apply NoDup_app. split; [exact Hs|]. split.
  - intros x Hx Hx'. apply list_elem_of_singleton in Hx'. subst. auto.
  - apply NoDup_singleton.
Qed.

Lemma clients_delete_elem s ws x : x ∈ Set_delete s ws <-> x ∈ s /\ x <> ws.
Proof.
  unfold Set_delete. rewrite !list_elem_of_In, filter_In.
  rewrite negb_true_iff, Nat.eqb_neq. tauto.
Qed.

Lemma clients_delete_NoDup s ws : NoDup s -> NoDup (Set_delete s ws).
Proof.
  intros Hs. unfold Set_delete. apply NoDup_ListNoDup.
  apply List.NoDup_filter. apply NoDup_ListNoDup. exact Hs.
Qed.

Lemma handle_NoDup this event :
  NoDup (clients this) -> NoDup (clients (handle this event)).
Proof.
  destruct event; cbn; [apply clients_add_NoDup | apply clients_delete_NoDup].
Qed.

Lemma fold_handle_NoDup events : forall this,
  NoDup (clients this) -> NoDup (clients (fold_left handle events this)).
Proof.
  induction events as [|ev events IH]; intros this Hs; [exact Hs|].
  cbn. apply IH, handle_NoDup, Hs.
Qed.

(** No later event is about socket [ws]. *)
Definition quietAbout (ws : WebSocket) (events : list SocketEvent) : Prop :=
  Forall (fun event => event <> Opened ws /\ event <> Closed ws) events.

Lemma fold_handle_quiet ws events : forall this,
  quietAbout ws events ->
  (ws ∈ clients (fold_left handle events this) <-> ws ∈ clients this).
Proof.
  induction events as [|ev events IH]; intros this Hq; [reflexivity|].
  apply Forall_cons in Hq as [[Ho Hc] Hq]. cbn [fold_left].
  rewrite (IH _ Hq). destruct ev as [ws'|ws']; cbn.
  - rewrite clients_add_elem. split; [|auto]. intros [H | ->]; [exact H|].
    contradiction.
  - rewrite clients_delete_elem. split; [tauto|]. intros H. split; [exact H|].
    intros ->. contradiction.
Qed.

Lemma after_app events events' :
  after (events ++ events') = fold_left handle events' (after events).
Proof. unfold after. apply fold_left_app. Qed.

(** X21. Through any sequence of connections and disconnections the client
    set holds no socket twice, so [getClientCount] counts sockets and a
    socket opened twice counts once. A socket is a client exactly when the
    last event about it is a connection: it is one after its connection
    until its disconnection, it is none after its disconnection until a new
    connection, and it is none if it never connected. *)
Theorem clients_follow_connections (events later : list SocketEvent)
    (ws : WebSocket) :
  quietAbout ws later ->
  NoDup (clients (after events))
  /\ (ws ∈ clients (after (events ++ Opened ws :: later)))
  /\ (ws ∉ clients (after (events ++ Closed ws :: later)))
  /\ (ws ∉ clients (after later)).
Proof.
  intros Hq. split; [|split; [|split]].
  - apply fold_handle_NoDup. constructor.
  - rewrite after_app. cbn [fold_left]. rewrite (fold_handle_quiet _ _ _ Hq).
    cbn. apply clients_add_elem. auto.
  - rewrite after_app. cbn [fold_left]. rewrite (fold_handle_quiet _ _ _ Hq).
    cbn. rewrite clients_delete_elem. tauto.
  - unfold after. rewrite (fold_handle_quiet _ _ _ Hq). cbn. apply not_elem_of_nil.
Qed.

Lemma clients_follow_connections_witness :
  clients (after [Opened 1%nat; Opened 2%nat; Opened 1%nat; Closed 2%nat;
                  Opened 3%nat]) = [1; 3]%nat
  /\ (1%nat ∈ clients (after ([Opened 2%nat]
                               ++ Opened 1%nat :: [Closed 2%nat; Opened 3%nat]))).
Proof.
  split; [reflexivity|].
  apply (clients_follow_connections [Opened 2%nat]
           [Closed 2%nat; Opened 3%nat] 1%nat).
  repeat constructor; discriminate.
Defined.

Section Sockets.
Variable toISOString : Z -> string.
Variable JSON_stringify : Message -> string.
Variable send : WebSocket -> string -> Completion unit.

(** The socket takes the message. *)
Definition accepts (messageStr : string) (ws : WebSocket) : bool :=
  match send ws messageStr with Return _ => true | Throw _ => false end.

Lemma clients_delete_middle kept ws rest :
  NoDup (kept ++ ws :: rest) -> Set_delete (kept ++ ws :: rest) ws = kept ++ rest.
Proof.
  intros Hnd. apply NoDup_app in Hnd as (_ & Hdis & Hnd).
  apply NoDup_cons in Hnd as [Hnot _].
  unfold Set_delete. rewrite List.filter_app. cbn [List.filter].
  rewrite Nat.eqb_refl. cbn [negb].
  assert (Hid : forall l, ws ∉ l ->
            List.filter (fun client => negb (client =? ws)%nat) l = l).
  { induction l as [|x l IH]; intros Hl; [reflexivity|]. cbn.
    apply not_elem_of_cons in Hl as [Hne Hl].
    destruct (Nat.eqb_spec x ws) as [->|_]; [contradiction|].
    cbn. rewrite (IH Hl). reflexivity. }
  f_equal; apply Hid; [|exact Hnot].
  intros Hin. apply (Hdis ws Hin). left.
Qed.

Lemma sendAll_run messageStr pending : forall kept sent,
  NoDup (kept ++ pending) ->
  sendAll send messageStr pending {| clients := kept ++ pending |} sent
  = ({| clients := kept ++ List.filter (accepts messageStr) pending |},
     sent ++ map (fun ws => (ws, messageStr)) pending).
Proof.
  induction pending as [|ws rest IH]; intros kept sent Hnd.
  - cbn. rewrite !app_nil_r. reflexivity.
  - cbn [sendAll List.filter map]. unfold accepts at 1.
    destruct (send ws messageStr) as [[]|e].
    + replace (kept ++ ws :: rest) with ((kept ++ [ws]) ++ rest) in *
        by (rewrite <- app_assoc; reflexivity).
      rewrite (IH (kept ++ [ws]) _ Hnd). rewrite <- !app_assoc. reflexivity.
    + cbn [clients]. rewrite (clients_delete_middle _ _ _ Hnd).
      rewrite IH.
      * rewrite <- app_assoc. reflexivity.
      * apply NoDup_app in Hnd as (Hk & Hdis & Hr).
        apply NoDup_cons in Hr as [_ Hr].
        apply NoDup_app. split; [exact Hk|]. split; [|exact Hr].
        intros x Hx Hx'. apply (Hdis x Hx). right. exact Hx'.
Qed.

(** X22. [broadcast] calls [send] once for every client, in the order the
    clients connected and with the same text, the serialised alert; a client
    whose [send] throws is dropped, without keeping the message from the
    clients after it. The clients left are those whose [send] returned;
    with no client connected nothing is sent. *)
Theorem broadcast_reaches_every_client (alert : Alert.t) (this : t) :
  NoDup (clients this) ->
  let messageStr := JSON_stringify (formatAlertMessage toISOString alert) in
  let '(this', sent) := broadcast toISOString JSON_stringify send alert this in
  sent = map (fun ws => (ws, messageStr)) (clients this)
  /\ clients this' = List.filter (accepts messageStr) (clients this)
  /\ NoDup (clients this').
Proof.
  intros Hnd. cbv zeta. unfold broadcast.
  destruct this as [cs]. cbn [clients] in *.
  destruct cs as [|c cs]; [cbn; repeat split; constructor|].
  cbn [length Nat.eqb].
  rewrite (sendAll_run _ (c :: cs) [] [] Hnd). cbn [app clients].
  repeat split.
  apply NoDup_ListNoDup, List.NoDup_filter, NoDup_ListNoDup, Hnd.
Qed.

End Sockets.

(** Socket 2 is gone; 1 and 3 take the message. *)
Definition secondGone (ws : WebSocket) (message : string) : Completion unit :=
  if (ws =? 2)%nat then Throw (MkError "socket closed") else Return tt.

Definition isoOf (time : Z) : string := "t" +:+ pretty time.
Definition textOf (m : Message) : string :=
  type m +:+ " " +:+ alertId (data m) +:+ " " +:+ timestamp (data m).

Lemma broadcast_reaches_every_client_witness :
  broadcast isoOf textOf secondGone NotificationServiceFacts.heat
    {| clients := [1; 2; 3]%nat |}
  = ({| clients := [1; 3]%nat |},
     [(1%nat, "WEATHER_ALERT alert-0 t1000");
      (2%nat, "WEATHER_ALERT alert-0 t1000");
      (3%nat, "WEATHER_ALERT alert-0 t1000")]).
Proof.
  pose proof (broadcast_reaches_every_client isoOf textOf secondGone
                NotificationServiceFacts.heat {| clients := [1; 2; 3]%nat |})
    as H.
  cbv zeta in H.
  destruct (broadcast isoOf textOf secondGone NotificationServiceFacts.heat
              {| clients := [1; 2; 3]%nat |}) as [[cs] sent].
  destruct H as (-> & Hcs & _).
  - apply (bool_decide_unpack _). reflexivity.
  - cbn [clients] in Hcs. rewrite Hcs. vm_compute. reflexivity.
Defined.

End WebSocketServerFacts.

(** ** MetricsService: alert counters and latency statistics *)

Module MetricsServiceMore.
Import MetricsService MetricsServiceFacts AlertEngineFacts.

(** The alerts of type [a] among the operations. *)
Definition alertsOf (a : AlertType) (ops : list Op) : nat :=
  length (List.filter
            (fun op => match op with
                       | RecordAlert name =>
                           String.eqb name (AlertHistoryService.AlertType_name a)
                       | _ => false
                       end) ops).

(** Every alert recorded is of one of the four types. *)
Definition typed (ops : list Op) : Prop :=
  Forall (fun op => match op with
                    | RecordAlert name =>
                        exists a, name = AlertHistoryService.AlertType_name a
                    | _ => True
                    end) ops.

Lemma recordAlert_lookup name this key :
  alertCounts (recordAlert name this) !! key
  = if String.eqb name key then S <$> (alertCounts this !! key)
    else alertCounts this !! key.
Proof.
  unfold recordAlert. cbn [alertCounts].
  destruct (String.eqb_spec name key) as [->|Hne].
  - destruct (alertCounts this !! key) as [n|] eqn:Hk.
    + rewrite lookup_insert_eq. reflexivity.
    + rewrite Hk. reflexivity.
  - destruct (alertCounts this !! name) as [n|]; [|reflexivity].
    rewrite lookup_insert_ne by exact Hne. reflexivity.
Qed.

Lemma step_alertCounts this op key :
  alertCounts (step this op) !! key
  = match op with
    | RecordAlert name =>
        if String.eqb name key then S <$> (alertCounts this !! key)
        else alertCounts this !! key
    | _ => alertCounts this !! key
    end.
Proof. destruct op; try reflexivity. apply recordAlert_lookup. Qed.

Lemma run_alertCounts (a : AlertType) (ops : list Op) : forall this n,
  alertCounts this !! AlertHistoryService.AlertType_name a = Some n ->
  alertCounts (run ops this) !! AlertHistoryService.AlertType_name a
  = Some (n + alertsOf a ops)%nat.
Proof.
  unfold run, alertsOf.
  induction ops as [|op ops IH]; intros this n Hn; cbn [fold_left List.filter].
  - cbn. rewrite Nat.add_0_r. exact Hn.
  - pose proof (step_alertCounts this op
                  (AlertHistoryService.AlertType_name a)) as Hstep.
    destruct op as [name| | | |]; try (rewrite (IH _ n); [reflexivity|];
                                       rewrite Hstep; exact Hn).
    destruct (String.eqb name (AlertHistoryService.AlertType_name a)).
    + rewrite (IH _ (S n)); [cbn [length]; f_equal; lia|].
      rewrite Hstep, Hn. reflexivity.
    + rewrite (IH _ n); [reflexivity|]. rewrite Hstep. exact Hn.
Qed.

Lemma new_alertCounts t0 (a : AlertType) :
  alertCounts (new t0) !! AlertHistoryService.AlertType_name a = Some 0%nat.
Proof. destruct a; reflexivity. Qed.

(** X23. After any sequence of recordings since the constructor or the last
    [reset], in which every recorded alert is of one of the four types,
    [getMetrics] shows under each alert type the number of alerts of that
    type recorded; SMS and latency recordings leave these counters alone.
    (For a string that is no alert type the [in] test of [recordAlert] also
    sees inherited property names, which is why the types are asked for.) *)
Theorem getMetrics_alert_counts (t0 now : Z) (ops : list Op) (a : AlertType) :
  typed ops ->
  alerts (getMetrics now (run ops (new t0)))
    !! AlertHistoryService.AlertType_name a
  = Some (alertsOf a ops).
Proof.
  intros _. unfold getMetrics. cbn [alerts].
  rewrite (run_alertCounts a ops (new t0) 0 (new_alertCounts t0 a)).
  reflexivity.
Qed.

Lemma getMetrics_alert_counts_witness :
  alerts (getMetrics 9000
            (run [RecordAlert "HEAVY_RAIN"; RecordSMSFailure;
                  RecordAlert "STRONG_WIND"; RecordAlert "HEAVY_RAIN"]
                 (new 0)))
    !! "HEAVY_RAIN" = Some 2%nat.
Proof.
  refine (getMetrics_alert_counts 0 9000
            [RecordAlert "HEAVY_RAIN"; RecordSMSFailure;
             RecordAlert "STRONG_WIND"; RecordAlert "HEAVY_RAIN"]
            HEAVY_RAIN _).
  repeat constructor.
  - exists HEAVY_RAIN. reflexivity.
  - exists STRONG_WIND. reflexivity.
  - exists HEAVY_RAIN. reflexivity.
Defined.

(** *** Latency statistics *)








Example calculateLatencyStats_sample :
  let stats := calculateLatencyStats [120; 80; (2101 # 10)]%Q in
  minLatency stats = 80 /\ maxLatency stats = 210 /\ totalLatency stats = 410
  /\ (averageLatency stats == 1367 # 10)%Q.
Proof. repeat split. Qed.

End MetricsServiceMore.

(** ** AlertHistoryService: readiness, and life without MongoDB *)

Module AlertHistoryConnectionFacts.
Import AlertHistoryService AlertHistoryConnection.

(** What the owner of the service does with it. *)
Inductive Call : Type :=
| Initialize
| SaveAlert (now : Z) (alert : Alert.t)
| Close.

Section Driver.
Variable MongoClient_new : string -> Completion MongoClient.

(** The service after a call, and the documents the call handed to
    [insertOne]. *)
Definition call (this : t) (c : Call) : t * list AlertDocument :=
  match c with
  | Initialize => ((initialize MongoClient_new this).1, [])
  | SaveAlert now alert => (this, (saveAlert now alert this).2)
  | Close => (close this, [])
  end.

Fixpoint calls (this : t) (cs : list Call) : t * list AlertDocument :=
  match cs with
  | [] => (this, [])
  | c :: rest =>
      let '(this', inserted) := call this c in
      let '(this'', inserted') := calls this' rest in
      (this'', inserted ++ inserted')
  end.

(** The database can be reached: a client can be made and connects. *)
Definition connects (url : string) : Prop :=
  exists mongoClient,
    MongoClient_new url = Return mongoClient
    /\ connect mongoClient = Return tt.

(** X25. [initialize] leaves the service ready exactly when the client
    could be made for the configured URL and its [connect] went through;
    whether the indexes could be created plays no part. A ready service
    reads and writes the [weather_alerts] collection of that client. *)
Theorem initialize_ready (this : t) :
  let this' := (initialize MongoClient_new this).1 in
  (isReady this' = true <-> connects (mongoUrl this))
  /\ (isReady this' = true ->
      exists mongoClient,
        MongoClient_new (mongoUrl this) = Return mongoClient
        /\ collection this' = Some (weather_alerts mongoClient))
  /\ mongoUrl this' = mongoUrl this.
Proof.
  cbv zeta. unfold initialize, connects, isReady.
  destruct (MongoClient_new (mongoUrl this)) as [mc|e] eqn:Hnew.
  - destruct (connect mc) as [[]|e] eqn:Hc; cbn.
    + split; [|split; [|reflexivity]].
      * split; [|reflexivity]. intros _. exists mc. auto.
      * intros _. exists mc. auto.
    + split; [|split; [discriminate|reflexivity]].
      split; [discriminate|]. intros (mc' & [= <-] & H). congruence.
  - cbn. split; [|split; [discriminate|reflexivity]].
    split; [discriminate|]. intros (mc' & H & _). discriminate H.
Qed.

Lemma call_mongoUrl this c : mongoUrl (call this c).1 = mongoUrl this.
Proof.
  destruct c as [|now alert|]; cbn; [|reflexivity|].
  - apply (initialize_ready this).
  - unfold close. destruct (client this) as [mc|]; [|reflexivity].
    destruct (close_ mc); reflexivity.
Qed.

Lemma call_unreachable this c :
  ~ connects (mongoUrl this) -> isReady this = false ->
  isReady (call this c).1 = false /\ (call this c).2 = [].
Proof.
  intros Hno Hoff. destruct c as [|now alert|]; cbn.
  - split; [|reflexivity].
    destruct (initialize_ready this) as (Hiff & _). cbv zeta in Hiff.
    destruct (isReady (initialize MongoClient_new this).1); [|reflexivity].
    destruct Hno. apply Hiff. reflexivity.
  - split; [exact Hoff|]. unfold saveAlert. unfold isReady in Hoff.
    rewrite Hoff. reflexivity.
  - split; [|reflexivity]. unfold close.
    destruct (client this) as [mc|]; [|exact Hoff].
    destruct (close_ mc); [reflexivity | exact Hoff].
Qed.

Lemma calls_unreachable cs : forall this,
  ~ connects (mongoUrl this) -> isReady this = false ->
  isReady (calls this cs).1 = false /\ (calls this cs).2 = [].
Proof.
  induction cs as [|c cs IH]; intros this Hno Hoff; [cbn; auto|].
  cbn [calls].
  destruct (call_unreachable this c Hno Hoff) as [Hoff' Hnone].
  pose proof (call_mongoUrl this c) as Hurl.
  destruct (call this c) as [this' inserted]. cbn [fst snd] in *. subst inserted.
  rewrite <- Hurl in Hno.
  destruct (IH this' Hno Hoff') as [Hoff'' Hnone'].
  destruct (calls this' cs) as [this'' inserted']. cbn [fst snd] in *.
  subst inserted'. auto.
Qed.

(** X26. While MongoDB cannot be reached (no client can be made for the
    URL, or its [connect] throws), a service created by the constructor is
    never ready, through any sequence of [initialize], [saveAlert] and
    [close] calls: no document is ever handed to the driver, every
    [saveAlert] answers [false], and [getAlertHistory] gives the empty
    list. *)
Theorem unreachable_database_is_harmless (url : string) (cs : list Call)
    (now : Z) (alert : Alert.t) (filters : AlertHistoryFilters) (limit : Z) :
  ~ connects url ->
  let '(this, inserted) := calls (new url) cs in
  isReady this = false
  /\ inserted = []
  /\ saveAlert now alert this = (false, [])
  /\ getAlertHistory this filters limit = [].
Proof.
  intros Hno.
  destruct (calls_unreachable cs (new url) Hno eq_refl) as [Hoff Hnone].
  destruct (calls (new url) cs) as [this inserted]. cbn [fst snd] in *.
  unfold isReady in Hoff.
  split; [exact Hoff|]. split; [exact Hnone|]. split.
  - unfold saveAlert. rewrite Hoff. reflexivity.
  - unfold getAlertHistory, AlertHistoryService.getAlertHistory, reader.
    cbn [AlertHistoryService.isConnected]. rewrite Hoff. reflexivity.
Qed.

End Driver.

(** *** Fixtures: a driver whose indexes cannot be created, and no driver *)

Definition noIndexes : Collection :=
  {| find := memoryCollection AlertHistoryServiceFacts.docs;
     insertOne := fun _ => Return tt;
     createIndex := fun _ => Throw (MkError "not authorized") |}.

Definition local (url : string) : Completion MongoClient :=
  Return {| connect := Return tt; weather_alerts := noIndexes;
            close_ := Return tt |}.

Definition refused (url : string) : Completion MongoClient :=
  Return {| connect := Throw (MkError "ECONNREFUSED");
            weather_alerts := noIndexes; close_ := Return tt |}.

Lemma initialize_ready_witness :
  isReady (initialize local (new "mongodb://localhost:27017")).1 = true
  /\ (initialize local (new "mongodb://localhost:27017")).2 = [].
Proof.
  split; [|reflexivity].
  apply (initialize_ready local (new "mongodb://localhost:27017")).
  eexists. split; reflexivity.
Defined.

Lemma unreachable_database_is_harmless_witness :
  (calls refused (new "mongodb://localhost:27017")
     [Initialize; SaveAlert 5 NotificationServiceFacts.heat; Close;
      Initialize; SaveAlert 9 NotificationServiceFacts.heat]).2 = [].
Proof.
  pose proof (unreachable_database_is_harmless refused
                "mongodb://localhost:27017"
                [Initialize; SaveAlert 5 NotificationServiceFacts.heat; Close;
                 Initialize; SaveAlert 9 NotificationServiceFacts.heat]
                0 NotificationServiceFacts.heat
                (AlertHistoryServiceFacts.onlyUser 5) 100) as H.
  destruct (calls refused _ _) as [this inserted].
  apply H. intros (mc & [= <-] & Hc). discriminate Hc.
Defined.

End AlertHistoryConnectionFacts.

(** ** monitorSingleGarden: accounting, and the independence of the channels *)

Module MonitorFacts.
Import PlantsService PlantsServiceFacts PlantsServiceMore Monitor.

(** The alerts that the evaluation of the garden gives in world [w]. *)
Definition evaluated (env : Env)
    (sensitivityProfiles : gmap string SensitivityProfile.t)
    (garden : Garden.t) (w : World) : list Alert.t :=
  match (evaluate env sensitivityProfiles garden (sys w)).1 with
  | Return alerts => alerts
  | Throw _ => []
  end.

(** The alerts of type [a] among [alerts]. *)
Definition ofType (a : AlertType) (alerts : list Alert.t) : nat :=
  length (List.filter
            (fun alert =>
               String.eqb
                 (AlertHistoryService.AlertType_name (Alert.alertType alert))
                 (AlertHistoryService.AlertType_name a)) alerts).

Lemma reported_app before ext :
  reported before (before ++ ext)
  = omap (fun e => match e with LatencyRecorded ms => Some ms | _ => None end)
         ext.
Proof. unfold reported. rewrite drop_app_length. reflexivity. Qed.

(** [fetchUser] with a callback: one to three requests, one latency. *)
Lemma fetchUser_effect backend userId s :
  let out := fetchUser backend userId true s in
  reported (events s) (events out.2) = [clock out.2 - clock s]
  /\ (requests s < requests out.2 <= requests s + 3)%nat.
Proof.
  cbv zeta. rewrite fetchUser_run. cbv zeta. cbn [snd].
  set (tried := fetchWithRetry backend (userUrl s userId) 3 s).
  destruct (afterRecord_fields true (clock tried.2 - clock s) tried.2)
    as (Hclock & Hreq & _ & Hev).
  rewrite Hclock, Hreq, Hev.
  assert (Hext : exists ext,
             events tried.2 = events s ++ ext
             /\ omap (fun e => match e with
                               | LatencyRecorded ms => Some ms
                               | _ => None
                               end) ext = []
             /\ (requests s < requests tried.2 <= requests s + 3)%nat).
  { subst tried. rewrite fetchWithRetry_trace.
    destruct (attemptResult (backend _ (requests s)));
      [|destruct (attemptResult (backend _ (S (requests s))))]; cbn [snd].
    - eexists. rewrite events_after1. split; [reflexivity|].
      split; [reflexivity|]. cbn. lia.
    - eexists. rewrite events_after2. split; [reflexivity|].
      split; [reflexivity|]. cbn. lia.
    - eexists. rewrite events_after3. split; [reflexivity|].
      split; [reflexivity|]. cbn. lia. }
  destruct Hext as (ext & Hevents & Hnone & Hrequests).
  split; [|exact Hrequests].
  rewrite Hevents, <- app_assoc, reported_app, omap_app, Hnone. reflexivity.
Qed.

(** [sendAlert] ends within three rounds, with a boolean. *)
Lemma sendAlert_returns gateway formatAlertMessage this alert user :
  exists sent submitted,
    NotificationService.sendAlert gateway formatAlertMessage 3 this alert user
    = Some (Return sent, submitted)
    /\ (NotificationServiceFacts.submissions submitted <= 3)%nat.
Proof.
  unfold NotificationService.sendAlert.
  destruct (negb (NotificationService.enabled this) || _ || _) eqn:Hguard;
    [exists false, []; split; [reflexivity | cbn; lia]|].
  destruct this as [[client|] [c|] [|]]; try discriminate Hguard.
  destruct (User.phone_number user) as [phone|];
    [|exists false, []; split; [reflexivity | cbn; lia]].
  destruct (NotificationService.truthy phone); cbn [negb];
    [|exists false, []; split; [reflexivity | cbn; lia]].
  rewrite (NotificationServiceFacts.sendLoop_run gateway 3 client c phone
             (formatAlertMessage alert) (le_n 3)).
  destruct (NotificationServiceFacts.outcomeOf_returns gateway
              (formatAlertMessage alert) (SMSConfig.fromNumber c) phone)
    as (b & evs & -> & Hn).
  exists b, evs. auto.
Qed.

(** What one round of the loop does, component by component. *)
Lemma processAlert_effect env notificationService garden i alert w :
  exists w' fx,
    processAlert env notificationService garden i alert w = Some (w', fx)
    /\ (MetricsService.smsSent (metricsService w')
        + MetricsService.smsFailed (metricsService w')
        = S (MetricsService.smsSent (metricsService w)
             + MetricsService.smsFailed (metricsService w)))%nat
    /\ MetricsService.alertCounts (metricsService w')
       = MetricsService.alertCounts
           (MetricsService.recordAlert
              (AlertHistoryService.AlertType_name (Alert.alertType alert))
              (metricsService w))
    /\ (NotificationServiceFacts.submissions (sms fx) <= 3)%nat
    /\ (requests (sys w) < requests (sys w') <= requests (sys w) + 3)%nat
    /\ (weatherAlertServer w', pushed fx)
       = WebSocketServer.broadcast (toISOString env) (JSON_stringify env)
           (send env i) alert (weatherAlertServer w)
    /\ inserted fx
       = (AlertHistoryConnection.saveAlert (savedAt env i) alert
            (alertHistoryService w)).2
    /\ alertHistoryService w' = alertHistoryService w.
Proof.
  unfold processAlert.
  destruct (fetchUser_effect (backend env) (Garden.userId garden) (sys w))
    as [Hrep Hreq]. cbv zeta in Hrep, Hreq.
  destruct (fetchUser (backend env) (Garden.userId garden) true (sys w))
    as [user sys'] eqn:Hfetch. cbn [snd] in Hrep, Hreq.
  rewrite Hrep. cbn [fold_left].
  destruct (WebSocketServer.broadcast _ _ _ alert (weatherAlertServer w))
    as [server' messages] eqn:Hcast.
  destruct (AlertHistoryConnection.saveAlert _ alert (alertHistoryService w))
    as [saved documents] eqn:Hsave.
  destruct user as [user|e].
  - destruct (sendAlert_returns (gateway env i) (formatAlertMessage env)
                notificationService alert user) as (b & evs & -> & Hn).
    destruct b; do 2 eexists; (split; [reflexivity|]); cbn;
      repeat split; try lia; exact Hn.
  - do 2 eexists. split; [reflexivity|]. cbn. repeat split; lia.
Qed.

Lemma recordAlert_count name this (a : AlertType) n :
  MetricsService.alertCounts this !! AlertHistoryService.AlertType_name a
  = Some n ->
  MetricsService.alertCounts (MetricsService.recordAlert name this)
    !! AlertHistoryService.AlertType_name a
  = Some (if String.eqb name (AlertHistoryService.AlertType_name a)
          then S n else n).
Proof.
  intros Hn. rewrite MetricsServiceMore.recordAlert_lookup, Hn.
  destruct (String.eqb name _); reflexivity.
Qed.

(** The loop as a whole. *)
Lemma processAlerts_effect env notificationService garden alerts :
  forall i w,
  exists w' fx,
    processAlerts env notificationService garden i alerts w = Some (w', fx)
    /\ (MetricsService.smsSent (metricsService w')
        + MetricsService.smsFailed (metricsService w')
        = MetricsService.smsSent (metricsService w)
          + MetricsService.smsFailed (metricsService w) + length alerts)%nat
    /\ (forall a n,
          MetricsService.alertCounts (metricsService w)
            !! AlertHistoryService.AlertType_name a = Some n ->
          MetricsService.alertCounts (metricsService w')
            !! AlertHistoryService.AlertType_name a
          = Some (n + ofType a alerts)%nat)
    /\ (NotificationServiceFacts.submissions (sms fx) <= 3 * length alerts)%nat
    /\ (requests (sys w) + length alerts <= requests (sys w')
        <= requests (sys w) + 3 * length alerts)%nat.
Proof.
  induction alerts as [|alert rest IH]; intros i w.
  - exists w, nothing. cbn. split; [reflexivity|].
    split; [lia|]. split; [|split; lia].
    intros a n Hn. rewrite Nat.add_0_r. exact Hn.
  - cbn [processAlerts].
    destruct (processAlert_effect env notificationService garden i alert w)
      as (w1 & fx1 & -> & Hsms1 & Hcounts1 & Hsub1 & Hreq1 & _).
    destruct (IH (S i) w1) as (w2 & fx2 & -> & Hsms2 & Hcounts2 & Hsub2 & Hreq2).
    exists w2, (andThen fx1 fx2). split; [reflexivity|].
    cbn [length]. split; [lia|]. split; [|split].
    + intros a n Hn.
      pose proof (recordAlert_count
                    (AlertHistoryService.AlertType_name (Alert.alertType alert))
                    (metricsService w) a n Hn) as Hstep.
      rewrite <- Hcounts1 in Hstep.
      rewrite (Hcounts2 a _ Hstep). unfold ofType. cbn [List.filter].
      destruct (String.eqb _ _); cbn [length]; f_equal; lia.
    + unfold andThen, NotificationServiceFacts.submissions in *. cbn [sms].
      rewrite List.filter_app, length_app. lia.
    + lia.
Qed.

(** The evaluation makes one request to the weather provider, never
    throws, and leaves the alert and SMS counters alone. *)
Lemma evaluate_effect env sensitivityProfiles garden s :
  exists alerts s',
    evaluate env sensitivityProfiles garden s = (Return alerts, s')
    /\ requests s' = S (requests s).
Proof.
  unfold evaluate, try_catch. unfold bind at 1.
  rewrite (WeatherServiceFacts.fetchWeather_run (provider env)
             (buildWeatherUrl env)).
  cbv zeta. do 2 eexists. split; [reflexivity|].
  destruct (WeatherServiceFacts.unusableBody _);
    repeat (match goal with
            | |- context [afterRecord ?b ?l ?x] =>
                destruct (afterRecord_fields b l x) as (_ & -> & _)
            end); reflexivity.
Qed.

Lemma fold_openMeteo_counters samples : forall m,
  let m' := fold_left (fun m latency =>
                         MetricsService.recordOpenMeteoLatency
                           (inject_Z latency) m) samples m in
  MetricsService.smsSent m' = MetricsService.smsSent m
  /\ MetricsService.smsFailed m' = MetricsService.smsFailed m
  /\ MetricsService.alertCounts m' = MetricsService.alertCounts m.
Proof.
  induction samples as [|x samples IH]; intros m; cbn; [auto|].
  destruct (IH (MetricsService.recordOpenMeteoLatency (inject_Z x) m))
    as (-> & -> & ->). auto.
Qed.

(** A run is the loop over the evaluated alerts, started in the world that
    the evaluation left. *)
Definition afterEvaluation (env : Env)
    (sensitivityProfiles : gmap string SensitivityProfile.t)
    (garden : Garden.t) (w : World) : World :=
  let s' := (evaluate env sensitivityProfiles garden (sys w)).2 in
  {| sys := s';
     metricsService :=
       fold_left (fun m latency =>
                    MetricsService.recordOpenMeteoLatency (inject_Z latency) m)
                 (reported (events (sys w)) (events s')) (metricsService w);
     weatherAlertServer := weatherAlertServer w;
     alertHistoryService := alertHistoryService w |}.

Lemma monitorSingleGarden_run env sensitivityProfiles notificationService
    garden w :
  exists w' fx,
    monitorSingleGarden env sensitivityProfiles notificationService garden w
    = Some (w', fx)
    /\ processAlerts env notificationService garden 0
         (evaluated env sensitivityProfiles garden w)
         (afterEvaluation env sensitivityProfiles garden w)
       = Some (w', fx).
Proof.
  unfold monitorSingleGarden, evaluated, afterEvaluation.
  destruct (evaluate_effect env sensitivityProfiles garden (sys w))
    as (alerts & s' & Heval & _).
  rewrite Heval. cbn [fst snd].
  destruct alerts as [|alert rest].
  - do 2 eexists. split; reflexivity.
  - cbn [length Nat.eqb].
    destruct (processAlerts_effect env notificationService garden
                (alert :: rest) 0%nat
                {| sys := s';
                   metricsService :=
                     fold_left
                       (fun m latency =>
                          MetricsService.recordOpenMeteoLatency
                            (inject_Z latency) m)
                       (reported (events (sys w)) (events s'))
                       (metricsService w);
                   weatherAlertServer := weatherAlertServer w;
                   alertHistoryService := alertHistoryService w |})
      as (w' & fx & Hrun & _).
    exists w', fx. split; exact Hrun.
Qed.

(** X27. A run of [monitorSingleGarden] always completes. With [n] the
    number of alerts the evaluation gave, it counts exactly [n] SMS
    outcomes, each alert as one success or one failure; it raises the
    counter of each alert type by the number of alerts of that type; it
    submits at most [3 n] messages to the SMS gateway; and it makes one
    request to the weather provider and between [n] and [3 n] requests to
    the backend. *)
Theorem monitorSingleGarden_accounting (env : Env)
    (sensitivityProfiles : gmap string SensitivityProfile.t)
    (notificationService : NotificationService.t) (garden : Garden.t)
    (w : World) :
  let n := length (evaluated env sensitivityProfiles garden w) in
  exists w' fx,
    monitorSingleGarden env sensitivityProfiles notificationService garden w
    = Some (w', fx)
    /\ (MetricsService.smsSent (metricsService w')
        + MetricsService.smsFailed (metricsService w')
        = MetricsService.smsSent (metricsService w)
          + MetricsService.smsFailed (metricsService w) + n)%nat
    /\ (forall a count,
          MetricsService.alertCounts (metricsService w)
            !! AlertHistoryService.AlertType_name a = Some count ->
          MetricsService.alertCounts (metricsService w')
            !! AlertHistoryService.AlertType_name a
          = Some (count
                  + ofType a (evaluated env sensitivityProfiles garden w))%nat)
    /\ (NotificationServiceFacts.submissions (sms fx) <= 3 * n)%nat
    /\ (requests (sys w) + 1 + n <= requests (sys w')
        <= requests (sys w) + 1 + 3 * n)%nat.
Proof.
  cbv zeta. unfold monitorSingleGarden, evaluated.
  destruct (evaluate_effect env sensitivityProfiles garden (sys w))
    as (alerts & s' & Heval & Hreq).
  rewrite Heval. cbn [fst].
  set (w0 := {| sys := s'; metricsService := _;
                weatherAlertServer := weatherAlertServer w;
                alertHistoryService := alertHistoryService w |}).
  destruct (fold_openMeteo_counters (reported (events (sys w)) (events s'))
              (metricsService w)) as (Hsent & Hfailed & Hcounts).
  cbv zeta in Hsent, Hfailed, Hcounts.
  destruct (processAlerts_effect env notificationService garden alerts 0%nat w0)
    as (w' & fx & Hrun & Hsms & Hcount & Hsub & Hrequests).
  subst w0. cbn [metricsService sys] in *.
  rewrite Hsent, Hfailed, Hcounts, Hreq in *.
  destruct alerts as [|alert rest].
  - cbn [length Nat.eqb]. cbn in Hrun. injection Hrun as <- <-.
    do 2 eexists. split; [reflexivity|]. cbn in *.
    repeat split; try lia; try assumption.
  - cbn [length Nat.eqb]. exists w', fx. split; [exact Hrun|].
    cbn [length] in *. repeat split; try lia; try assumption.
Qed.

(** The documents of the alerts, stamped as they are saved from the [i]-th
    on, and the messages for a set of clients. *)
Definition documents (env : Env) (i : nat) (alerts : list Alert.t)
  : list AlertHistoryService.AlertDocument :=
  imap (fun k alert =>
          {| AlertHistoryService.alert := alert;
             AlertHistoryService.createdAt := savedAt env (i + k) |}) alerts.

Definition messages (env : Env) (clients : list WebSocketServer.WebSocket)
    (alerts : list Alert.t) : list (WebSocketServer.WebSocket * string) :=
  flat_map (fun alert =>
              map (fun ws =>
                     (ws, JSON_stringify env
                            (WebSocketServer.formatAlertMessage
                               (toISOString env) alert)))
                  clients) alerts.

(** The history service takes every document. *)
Definition persisting (history : AlertHistoryConnection.t) : Prop :=
  AlertHistoryConnection.isReady history = true
  /\ exists collection,
       AlertHistoryConnection.collection history = Some collection
       /\ forall document,
            AlertHistoryConnection.insertOne collection document = Return tt.

(** No socket fails. *)
Definition delivering (env : Env) : Prop :=
  forall i ws message, send env i ws message = Return tt.

Lemma saveAlert_persisting now alert history :
  persisting history ->
  AlertHistoryConnection.saveAlert now alert history
  = (true, [{| AlertHistoryService.alert := alert;
               AlertHistoryService.createdAt := now |}]).
Proof.
  intros (Hready & collection & Hc & Hins).
  unfold AlertHistoryConnection.saveAlert.
  unfold AlertHistoryConnection.isReady in Hready.
  rewrite Hready, Hc, Hins. reflexivity.
Qed.

Lemma saveAlert_offline now alert history :
  AlertHistoryConnection.isReady history = false ->
  AlertHistoryConnection.saveAlert now alert history = (false, []).
Proof.
  unfold AlertHistoryConnection.isReady, AlertHistoryConnection.saveAlert.
  intros ->. reflexivity.
Qed.

Lemma filter_all {A} (f : A -> bool) (l : list A) :
  (forall x, f x = true) -> List.filter f l = l.
Proof.
  intros Hf. induction l as [|x l IH]; [reflexivity|].
  cbn. rewrite Hf, IH. reflexivity.
Qed.

Lemma broadcast_delivering env i alert server :
  delivering env -> NoDup (WebSocketServer.clients server) ->
  WebSocketServer.broadcast (toISOString env) (JSON_stringify env)
    (send env i) alert server
  = (server, messages env (WebSocketServer.clients server) [alert]).
Proof.
  intros Hsend Hnd. unfold WebSocketServer.broadcast, messages.
  cbn [flat_map]. rewrite app_nil_r.
  destruct server as [clients]. cbn [WebSocketServer.clients] in *.
  destruct clients as [|c clients]; [reflexivity|].
  cbn [length Nat.eqb].
  rewrite (WebSocketServerFacts.sendAll_run (send env i) _ (c :: clients)
             [] [] Hnd).
  cbn [app]. rewrite filter_all; [reflexivity|].
  intros ws. unfold WebSocketServerFacts.accepts. rewrite Hsend. reflexivity.
Qed.

Lemma processAlerts_channels env notificationService garden alerts :
  forall i w w' fx,
  processAlerts env notificationService garden i alerts w = Some (w', fx) ->
  alertHistoryService w' = alertHistoryService w
  /\ (persisting (alertHistoryService w) ->
      inserted fx = documents env i alerts)
  /\ (AlertHistoryConnection.isReady (alertHistoryService w) = false ->
      inserted fx = [])
  /\ (delivering env -> NoDup (WebSocketServer.clients (weatherAlertServer w)) ->
      weatherAlertServer w' = weatherAlertServer w
      /\ pushed fx
         = messages env (WebSocketServer.clients (weatherAlertServer w)) alerts).
Proof.
  induction alerts as [|alert rest IH]; intros i w w' fx Hrun.
  - cbn in Hrun. injection Hrun as <- <-. cbn. auto.
  - cbn [processAlerts] in Hrun.
    destruct (processAlert_effect env notificationService garden i alert w)
      as (w1 & fx1 & Hstep & _ & _ & _ & _ & Hcast & Hsave & Hhist).
    rewrite Hstep in Hrun.
    destruct (processAlerts env notificationService garden (S i) rest w1)
      as [[w2 fx2]|] eqn:Hrest; [|discriminate].
    injection Hrun as <- <-.
    destruct (IH (S i) w1 w2 fx2 Hrest) as (Hh & Hdocs & Hoff & Hmsgs).
    rewrite Hhist in *. split; [exact Hh|]. split; [|split].
    + intros Hp. cbn [andThen inserted]. rewrite Hsave, (Hdocs Hp).
      rewrite (saveAlert_persisting _ _ _ Hp). unfold documents.
      cbn [snd imap app]. rewrite Nat.add_0_r. f_equal.
      apply imap_ext. intros k a _. cbn. rewrite Nat.add_succ_r. reflexivity.
    + intros Hoffline. cbn [andThen inserted]. rewrite Hsave, (Hoff Hoffline).
      rewrite (saveAlert_offline _ _ _ Hoffline). reflexivity.
    + intros Hsend Hnd.
      rewrite (broadcast_delivering env i alert _ Hsend Hnd) in Hcast.
      injection Hcast as Hserver Hpushed. rewrite Hserver in Hmsgs.
      destruct (Hmsgs Hsend Hnd) as [-> Hrestmsgs].
      split; [reflexivity|]. cbn [andThen pushed].
      rewrite Hpushed, Hrestmsgs. unfold messages. cbn [flat_map].
      rewrite app_nil_r. reflexivity.
Qed.

(** X28. The other two channels do not wait for the SMS: whatever the
    backend, the SMS service and its gateway do, a run hands every alert of
    the evaluation to MongoDB, in order, when the history service is
    connected and its inserts go through, and hands it nothing when the
    service is not ready; and when no socket fails, it sends every alert,
    in order, to every connected client. *)
Theorem monitorSingleGarden_channels (env : Env)
    (sensitivityProfiles : gmap string SensitivityProfile.t)
    (notificationService : NotificationService.t) (garden : Garden.t)
    (w : World) :
  let alerts := evaluated env sensitivityProfiles garden w in
  exists w' fx,
    monitorSingleGarden env sensitivityProfiles notificationService garden w
    = Some (w', fx)
    /\ (persisting (alertHistoryService w) ->
        inserted fx = documents env 0 alerts)
    /\ (AlertHistoryConnection.isReady (alertHistoryService w) = false ->
        inserted fx = [])
    /\ (delivering env ->
        NoDup (WebSocketServer.clients (weatherAlertServer w)) ->
        pushed fx
        = messages env (WebSocketServer.clients (weatherAlertServer w)) alerts).
Proof.
  cbv zeta.
  destruct (monitorSingleGarden_run env sensitivityProfiles notificationService
              garden w) as (w' & fx & Hrun & Hloop).
  exists w', fx. split; [exact Hrun|].
  destruct (processAlerts_channels _ _ _ _ _ _ _ _ Hloop)
    as (_ & Hdocs & Hoff & Hmsgs).
  cbn [alertHistoryService weatherAlertServer] in *.
  split; [exact Hdocs|]. split; [exact Hoff|].
  intros Hsend Hnd. apply (Hmsgs Hsend Hnd).
Qed.

(** *** Fixtures: a hot and windy day, the backend down, two clients *)

Definition hotAndWindy
  : string -> nat -> Exchange (option WeatherService.Forecast) :=
  fun _ _ =>
    {| elapsed := 120;
       outcome :=
         Responded
           {| status := 200; statusText := "OK";
              json :=
                Return
                  (Some {| WeatherService.current :=
                             Some {| WeatherService.temperature_2m := Some 36%Q;
                                     WeatherService.precipitation := Some 0%Q;
                                     WeatherService.wind_speed_10m := Some 70%Q |};
                           WeatherService.daily := None |}) |} |}.

Definition backendDown : string -> nat -> Exchange User.t :=
  fun _ _ => {| elapsed := 10; outcome := Rejected (MkError "ECONNREFUSED") |}.

Definition quiet : Env :=
  {| provider := hotAndWindy;
     buildWeatherUrl := WeatherServiceFacts.openMeteoUrl;
     backend := backendDown;
     generateAlertId := AlertEngineFacts.ids;
     gateway := fun _ _ => Return tt;
     formatAlertMessage := NotificationServiceFacts.plainText;
     toISOString := WebSocketServerFacts.isoOf;
     JSON_stringify := WebSocketServerFacts.textOf;
     send := fun _ _ _ => Return tt;
     savedAt := fun i => 2000 + Z.of_nat i |}.

Definition taking : AlertHistoryConnection.t :=
  {| AlertHistoryConnection.client := None;
     AlertHistoryConnection.collection :=
       Some {| AlertHistoryConnection.find :=
                 AlertHistoryService.memoryCollection [];
               AlertHistoryConnection.insertOne := fun _ => Return tt;
               AlertHistoryConnection.createIndex := fun _ => Return tt |};
     AlertHistoryConnection.mongoUrl := "mongodb://localhost:27017";
     AlertHistoryConnection.isConnected := true |}.

Definition morning : World :=
  {| sys := {| clock := 1000; requests := 0; events := [];
               service := AlertEngineFacts.single |};
     metricsService := MetricsService.new 0;
     weatherAlertServer := {| WebSocketServer.clients := [1; 2]%nat |};
     alertHistoryService := taking |}.

Definition heatAlert : Alert.t :=
  Alert.mk "alert-0" "g1" 1 "G1" 1120 HIGH_TEMPERATURE "temperature" 36 35
    ["tomato"] ["T1"].
Definition windAlert : Alert.t :=
  Alert.mk "alert-1" "g1" 1 "G1" 1120 STRONG_WIND "windSpeed" 70 50
    ["tomato"] ["T1"].

Example evaluated_morning :
  evaluated quiet AlertEngineFacts.registry AlertEngineFacts.g1 morning
  = [heatAlert; windAlert].
Proof. vm_compute. reflexivity. Qed.

Lemma monitorSingleGarden_accounting_witness :
  exists w' fx,
    monitorSingleGarden quiet AlertEngineFacts.registry
      (NotificationService.new NotificationServiceFacts.twilio
         (Some NotificationServiceFacts.credentials))
      AlertEngineFacts.g1 morning = Some (w', fx)
    /\ (MetricsService.smsSent (metricsService w')
        + MetricsService.smsFailed (metricsService w') = 2)%nat
    /\ MetricsService.alertCounts (metricsService w') !! "STRONG_WIND"
       = Some 1%nat.
Proof.
  destruct (monitorSingleGarden_accounting quiet AlertEngineFacts.registry
              (NotificationService.new NotificationServiceFacts.twilio
                 (Some NotificationServiceFacts.credentials))
              AlertEngineFacts.g1 morning)
    as (w' & fx & Hrun & Hsms & Hcounts & _).
  exists w', fx. split; [exact Hrun|]. split.
  - rewrite Hsms, evaluated_morning. reflexivity.
  - pose proof (Hcounts STRONG_WIND 0%nat eq_refl) as Hwind.
    rewrite evaluated_morning in Hwind. exact Hwind.
Defined.

Lemma monitorSingleGarden_channels_witness :
  exists w' fx,
    monitorSingleGarden quiet AlertEngineFacts.registry
      NotificationService.disabled AlertEngineFacts.g1 morning = Some (w', fx)
    /\ inserted fx
       = [{| AlertHistoryService.alert := heatAlert;
             AlertHistoryService.createdAt := 2000 |};
          {| AlertHistoryService.alert := windAlert;
             AlertHistoryService.createdAt := 2001 |}]
    /\ pushed fx
       = [(1%nat, "WEATHER_ALERT alert-0 t1120");
          (2%nat, "WEATHER_ALERT alert-0 t1120");
          (1%nat, "WEATHER_ALERT alert-1 t1120");
          (2%nat, "WEATHER_ALERT alert-1 t1120")].
Proof.
  destruct (monitorSingleGarden_channels quiet AlertEngineFacts.registry
              NotificationService.disabled AlertEngineFacts.g1 morning)
    as (w' & fx & Hrun & Hdocs & _ & Hmsgs).
  exists w', fx. split; [exact Hrun|]. split.
  - rewrite Hdocs, evaluated_morning; [reflexivity|].
    split; [reflexivity|]. eexists. split; [reflexivity|]. reflexivity.
  - rewrite Hmsgs, evaluated_morning.
    + vm_compute. reflexivity.
    + intros i ws message. reflexivity.
    + apply (bool_decide_unpack _). reflexivity.
Defined.

(** The whole run: the backend is asked three times for each alert and no
    SMS is submitted; both alerts are counted as SMS failures. *)
Example monitorSingleGarden_morning :
  match monitorSingleGarden quiet AlertEngineFacts.registry
          (NotificationService.new NotificationServiceFacts.twilio
             (Some NotificationServiceFacts.credentials))
          AlertEngineFacts.g1 morning with
  | Some (w', fx) =>
      requests (sys w') = 7%nat
      /\ clock (sys w') = 1000 + 120 + 2 * (10 + 1000 + 10 + 2000 + 10)
      /\ sms fx = []
      /\ MetricsService.smsSent (metricsService w') = 0%nat
      /\ MetricsService.smsFailed (metricsService w') = 2%nat
      /\ MetricsService.openMeteoLatencies (metricsService w') = [120%Q]
      /\ MetricsService.backendLatencies (metricsService w')
         = [inject_Z 3030; inject_Z 3030]
  | None => False
  end.
Proof. vm_compute. repeat split. Qed.

End MonitorFacts.

(** ** Startup: what [/health] needs from the configuration *)

Module StartupFacts.
Import Startup HealthCheckService HealthCheckServiceFacts.

(** Both configuration files load, and there is a garden to monitor. *)
Definition configured (gardensFile profilesFile : ConfigFiles.File) : Prop :=
  (exists gardens,
      ConfigFiles.loadGardens "config/gardens.config.json" gardensFile
      = Return gardens
      /\ gardens <> [])
  /\ (exists profiles,
        ConfigFiles.loadSensitivityProfiles
          "config/plant-sensitivity-profiles.json" profilesFile
        = Return profiles).

(** The three Twilio variables are set and not empty, and the client
    factory accepts the account and the token. *)
Definition credentials
    (Twilio : string -> string -> Completion NotificationService.TwilioClient)
    (env : Env) : Prop :=
  exists accountSid authToken fromNumber client,
    TWILIO_ACCOUNT_SID env = Some accountSid /\ accountSid <> ""
    /\ TWILIO_AUTH_TOKEN env = Some authToken /\ authToken <> ""
    /\ TWILIO_PHONE_NUMBER env = Some fromNumber /\ fromNumber <> ""
    /\ Twilio accountSid authToken = Return client.

Lemma orElse_empty value :
  orElse value "" <> "" -> value = Some (orElse value "").
Proof.
  unfold orElse. destruct value as [s|]; [|congruence].
  destruct (String.eqb_spec s ""); congruence.
Qed.

Lemma orElse_set s fallback : s <> "" -> orElse (Some s) fallback = s.
Proof.
  intros Hs. unfold orElse. destruct (String.eqb_spec s ""); congruence.
Qed.

Lemma usable_twilioConfig Twilio env :
  usable Twilio (twilioConfig env) <-> credentials Twilio env.
Proof.
  unfold usable, credentials, twilioConfig. split.
  - intros (c & client & Hc & Hsid & Htoken & Hfrom & Hmake).
    destruct (TWILIO_ACCOUNT_SID env) as [sid|]; [|discriminate].
    destruct (String.eqb_spec sid "") as [|Hne]; [discriminate|].
    injection Hc as <-. cbn in *.
    exists sid, (orElse (TWILIO_AUTH_TOKEN env) ""),
      (orElse (TWILIO_PHONE_NUMBER env) ""), client.
    split; [reflexivity|]. split; [exact Hne|].
    split; [apply orElse_empty; exact Htoken|]. split; [exact Htoken|].
    split; [apply orElse_empty; exact Hfrom|]. split; [exact Hfrom|].
    exact Hmake.
  - intros (sid & token & from & client & -> & Hsid & -> & Htoken & -> & Hfrom
            & Hmake).
    destruct (String.eqb_spec sid "") as [|_]; [contradiction|].
    rewrite !orElse_set by assumption.
    exists (SMSConfig.mk sid token from), client. cbn. auto 10.
Qed.

Lemma initializeWeatherAlertsSystem_some Twilio env gardensFile profilesFile
    this :
  initializeWeatherAlertsSystem Twilio env gardensFile profilesFile = Some this
  <-> configured gardensFile profilesFile
      /\ this = {| backendUrl := orElse (BACKEND_URL env) "http://localhost:3001";
                   mongoUrl := orElse (MONGO_URL env) "mongodb://localhost:27017";
                   notificationService :=
                     NotificationService.new Twilio (twilioConfig env) |}.
Proof.
  unfold initializeWeatherAlertsSystem, configured.
  destruct (ConfigFiles.loadGardens _ gardensFile) as [gardens|e].
  - destruct (ConfigFiles.loadSensitivityProfiles _ profilesFile)
      as [profiles|e].
    + destruct gardens as [|g gardens]; cbn [length Nat.eqb].
      * split; [discriminate|]. intros [[(gs & [= <-] & Hne) _] _].
        contradiction.
      * split.
        -- intros [= <-]. split; [|reflexivity]. split; [|eauto].
           eexists. split; [reflexivity|discriminate].
        -- intros [_ ->]. reflexivity.
    + split; [discriminate|]. intros [[_ (ps & H)] _]. discriminate H.
  - split; [discriminate|]. intros [[(gs & H & _) _] _]. discriminate H.
Qed.

(** X29. Once the server has gone through its start-up, [GET /health]
    answers 200 exactly when both configuration files loaded and named at
    least one garden, the backend at [BACKEND_URL] (or localhost:3001) and
    Open-Meteo answer their probes with a 2xx status, the MongoDB at
    [MONGO_URL] (or localhost:27017) can be connected to and pinged, and
    the three Twilio variables are set, not empty and accepted by the
    Twilio client. In particular a start-up without gardens, or without
    SMS credentials, never shows as healthy. *)
Theorem health_after_startup
    (fetch : string -> PlantsService.Exchange unit)
    (mongo : string -> MongoProbe) (now : Z)
    (Twilio : string -> string -> Completion NotificationService.TwilioClient)
    (env : Env) (gardensFile profilesFile : ConfigFiles.File) :
  let healthCheckService :=
    initializeWeatherAlertsSystem Twilio env gardensFile profilesFile in
  (health fetch mongo now healthCheckService).1 = 200
  <-> configured gardensFile profilesFile
      /\ answered2xx
           (fetch (orElse (BACKEND_URL env) "http://localhost:3001"
                     +:+ "/api/health"))
      /\ answered2xx (weatherProbe fetch)
      /\ reachable (mongo (orElse (MONGO_URL env) "mongodb://localhost:27017"))
      /\ credentials Twilio env.
Proof.
  cbv zeta.
  destruct (health_code fetch mongo now
              (initializeWeatherAlertsSystem Twilio env gardensFile
                 profilesFile)) as [Hiff _].
  cbv zeta in Hiff. rewrite Hiff. clear Hiff. split.
  - intros (this & Hsome & Hb & Hw & Hm & Ht).
    apply initializeWeatherAlertsSystem_some in Hsome as [Hconf ->].
    cbn [notificationService mongoUrl] in *.
    unfold backendProbe in Hb. cbn [backendUrl] in Hb.
    apply isEnabled_new, usable_twilioConfig in Ht. auto.
  - intros (Hconf & Hb & Hw & Hm & Ht).
    eexists. split.
    + apply initializeWeatherAlertsSystem_some. split; [exact Hconf|reflexivity].
    + cbn [notificationService mongoUrl]. unfold backendProbe.
      cbn [backendUrl]. split; [exact Hb|]. split; [exact Hw|].
      split; [exact Hm|]. apply isEnabled_new, usable_twilioConfig, Ht.
Qed.

(** *** Fixtures: a complete environment, and one without SMS *)

Definition complete : Env :=
  {| BACKEND_URL := None; MONGO_URL := Some "mongodb://db:27017";
     TWILIO_ACCOUNT_SID := Some "AC0123"; TWILIO_AUTH_TOKEN := Some "token";
     TWILIO_PHONE_NUMBER := Some "+15550100" |}.

Definition gardensOnDisk : ConfigFiles.File :=
  ConfigFiles.Parsed (JObject [("gardens", JArray [ConfigFilesFacts.madrid])]).

Definition profilesOnDisk : ConfigFiles.File :=
  ConfigFiles.Parsed ConfigFilesFacts.profilesFile.

Lemma health_after_startup_witness :
  (health allUp mongoUp 0
     (initializeWeatherAlertsSystem NotificationServiceFacts.twilio complete
        gardensOnDisk profilesOnDisk)).1 = 200.
Proof.
  apply health_after_startup. split; [|split; [|split; [|split]]].
  - split.
    + eexists. split; [reflexivity|discriminate].
    + eexists. vm_compute. reflexivity.
  - eexists. split; reflexivity.
  - eexists. split; reflexivity.
  - repeat split.
  - exists "AC0123", "token", "+15550100".
    eexists. repeat split; discriminate.
Defined.

Example health_without_gardens :
  (health allUp mongoUp 0
     (initializeWeatherAlertsSystem NotificationServiceFacts.twilio complete
        (ConfigFiles.Parsed (JObject [("gardens", JArray [])]))
        profilesOnDisk)).1 = 503.
Proof. vm_compute. reflexivity. Qed.

End StartupFacts.

